(** * Synthetic observation generator (generate_synthetic_obs.py)

    A shallow embedding of the generator of synthetic observations and the
    properties its specification states about it.

    Modelling conventions.
    - A Python [float] is a rational ([Q]); the data are finite floats (no
      NaN, no infinity).  The arithmetic of the Grid Locator, whose results
      are compared and decide the index returned, is rounded as binary64
      arithmetic rounds it ([binary64]); the arithmetic on values that are
      only stored and printed (locations, noise, errors) is exact.
      Equality of computed floats is [Qeq] ([==]).
    - A Python [int] is a [Z]; an index returned by [np.argmin] is a [nat].
    - A numpy array is its shape and its elements in row-major order.
    - A [dict] ([ds.variables], [nature_data]) is a [gmap] with string keys.
    - An exception is a value of [exn]; a call that can raise returns a
      [result].
    - The process-wide generator of [np.random], the file system and the
      wall clock form the [World] that effectful code threads.
    - The file system is a tree of directories and regular files, named by
      POSIX path names resolved as the kernel resolves them.  It has no
      symbolic links, every operation is permitted, names are within the
      limits of the system and hold no NUL, and no other process changes
      the tree. *)

From Stdlib Require Import ZArith QArith Qabs Qround Qpower Qminmax Floats Lia Lqa.
From Stdlib Require Import Sorted.
From Stdlib Require Import Strings.Ascii Strings.String Numbers.DecimalString.
From Stdlib Require Import DecimalZ DecimalPos.
From stdpp Require Import gmap strings list.

Local Open Scope Z_scope.
Local Open Scope Q_scope.
Local Open Scope string_scope.
Local Open Scope list_scope.

(** ** Exceptions and results *)

Inductive exn : Type :=
| ValueError (msg : string)
| KeyError (key : string)
| IndexError (msg : string)
| FileNotFoundError (filename : string)
| FileExistsError (filename : string)
| NotADirectoryError (filename : string)
| IsADirectoryError (filename : string)
| OSError (msg : string).

Inductive result (A : Type) : Type :=
| Ok (a : A)
| Raise (e : exn).
Arguments Ok {A} a.
Arguments Raise {A} e.

Definition rbind {A B} (r : result A) (k : A -> result B) : result B :=
  match r with
  | Ok a => k a
  | Raise e => Raise e
  end.

Declare Scope result_scope.
Delimit Scope result_scope with res.
Notation "'let?' x ':=' r 'in' k" := (rbind r (fun x => k))
  (at level 10, x pattern, r at level 100, k at level 200) : result_scope.

(** ** numpy arrays *)

Record ndarray : Type := mk_ndarray {
  shape : list nat;
  data : list Q
}.

(** [len(a.shape)] *)
Definition ndim (a : ndarray) : nat := length (shape a).

(** ** Rounding to binary64 *)

(** [x < y] on floats. *)
Definition Qltb (x y : Q) : bool := negb (Qle_bool y x).

(** The nearest integer to a rational, ties to even. *)
Definition round_half_even (q : Q) : Z :=
  let fl := Qfloor q in
  let r := q - inject_Z fl in
  match Qcompare r (1 # 2) with
  | Lt => fl
  | Gt => (fl + 1)%Z
  | Eq => if Z.even fl then fl else (fl + 1)%Z
  end.

(** The exponent [e] of a positive number: [2^e <= x < 2^(e+1)]. *)
Definition binade (x : Q) : Z :=
  let c := (Z.log2 (Qnum x) - Z.log2 (Zpos (Qden x)))%Z in
  if Qle_bool (2 ^ c) x then c else (c - 1)%Z.

(** The multiple of [2^e] nearest to [x], ties to the even multiple. *)
Definition round_to (e : Z) (x : Q) : Q :=
  inject_Z (round_half_even (x / 2 ^ e)) * 2 ^ e.

(** The binary64 value of the exact result [x] of an operation on floats:
    53 significant bits, round to nearest, ties to even.  A result that
    rounds beyond the largest finite float is an infinity, for which
    [2^1024] stands (every finite float is below it, which is all a
    comparison asks).  The differences and sums of finite floats that the
    Grid Locator computes never fall between two subnormal numbers, so
    the exponent has no lower bound here. *)
Definition binary64 (x : Q) : Q :=
  if Qeq_bool x 0 then 0
  else
    let a := Qabs x in
    let r := round_to (binade a - 52) a in
    let m := if Qle_bool (2 ^ 1024) r then 2 ^ 1024 else r in
    if Qltb x 0 then - m else m.

(** ** Grid Locator *)

(** The scan of [np.argmin]: the running minimum is replaced only by a
    strictly smaller element, so the first occurrence wins. *)
Fixpoint argmin_from (best_i : nat) (best : Q) (i : nat) (l : list Q) : nat :=
  match l with
  | [] => best_i
  | x :: l' =>
      if Qltb x best then argmin_from i x (S i) l'
      else argmin_from best_i best (S i) l'
  end.

(** [np.argmin(a)]: raises on an empty array. *)
Definition np_argmin (a : list Q) : result nat :=
  match a with
  | [] => Raise (ValueError "attempt to get argmin of an empty sequence")
  | x :: l => Ok (argmin_from 0 x 1 l)
  end.

(** [np.abs(a - x)]: each difference is rounded, the absolute value is
    exact. *)
Definition abs_diff (a : list Q) (x : Q) : list Q :=
  map (fun y => Qabs (binary64 (y - x))) a.

(** The longitude after [if obs_lon < 0: obs_lon += 360.0]. *)
Definition wrap_lon (obs_lon : Q) : Q :=
  if Qltb obs_lon 0 then binary64 (obs_lon + 360) else obs_lon.

Definition find_nearest_grid_point
    (obs_lon obs_lat : Q) (model_lon model_lat : list Q) : result (nat * nat) :=
  let obs_lon := wrap_lon obs_lon in
  (let? i := np_argmin (abs_diff model_lon obs_lon) in
   let? j := np_argmin (abs_diff model_lat obs_lat) in
   Ok (i, j))%res.

(** ** Field Sampler *)

(** [d[key]] on a dict. *)
Definition dict_get {A} (d : gmap string A) (key : string) : result A :=
  match d !! key with
  | Some v => Ok v
  | None => Raise (KeyError key)
  end.

(** One subscript of a numpy index: a negative subscript counts from the end
    of the axis, anything outside [-dim, dim) raises. *)
Definition norm_index (k : Z) (dim : nat) : result nat :=
  if (0 <=? k)%Z && (k <? Z.of_nat dim)%Z then Ok (Z.to_nat k)
  else if (- Z.of_nat dim <=? k)%Z && (k <? 0)%Z then Ok (Z.to_nat (k + Z.of_nat dim))
  else Raise (IndexError "index is out of bounds for axis").

(** Row-major offset of a full index into an array of the given shape. *)
Fixpoint flat_offset (acc : nat) (idx : list Z) (shp : list nat) : result nat :=
  match idx, shp with
  | [], [] => Ok acc
  | k :: idx', d :: shp' =>
      (let? k' := norm_index k d in flat_offset (acc * d + k') idx' shp')%res
  | _, _ => Raise (IndexError "too many indices for array")
  end.

(** [a[k1, ..., kn]] with as many subscripts as [a] has axes: a scalar. *)
Definition getitem (a : ndarray) (idx : list Z) : result Q :=
  (let? off := flat_offset 0 idx (shape a) in
   match data a !! off with
   | Some v => Ok v
   | None => Raise (IndexError "index is out of bounds for axis")
   end)%res.

(** [str(n)] for an [int]. *)
Definition str_of_Z (n : Z) : string := NilZero.string_of_int (Z.to_int n).
Definition str_of_nat (n : nat) : string := str_of_Z (Z.of_nat n).

(** [str(a.shape)]: the repr of a tuple of ints. *)
Definition str_of_shape (shp : list nat) : string :=
  match shp with
  | [] => "()"
  | [d] => "(" ++ str_of_nat d ++ ",)"
  | _ => "(" ++ String.concat ", " (map str_of_nat shp) ++ ")"
  end.

(** The body of the loop of [sample_nature_run]: the value of the field at
    grid cell [(i, j)] and time [time_idx]. *)
Definition sample_value (variable : string) (var_data : ndarray)
    (time_idx : Z) (i j : nat) : result Q :=
  if decide (ndim var_data = 3%nat) then
    getitem var_data [time_idx; Z.of_nat j; Z.of_nat i]
  else if decide (ndim var_data = 4%nat) then
    getitem var_data [time_idx; 0%Z; Z.of_nat j; Z.of_nat i]
  else
    Raise (ValueError ("Unexpected data shape for " ++ variable ++ ": "
                       ++ str_of_shape (shape var_data))).

Fixpoint sample_loop (variable : string) (model_lon model_lat var_data : ndarray)
    (time_idx : Z) (locs : list (Q * Q)) : result (list Q) :=
  match locs with
  | [] => Ok []
  | (obs_lon, obs_lat) :: locs' =>
      (let? (i, j) := find_nearest_grid_point obs_lon obs_lat
                        (data model_lon) (data model_lat) in
       let? value := sample_value variable var_data time_idx i j in
       let? rest := sample_loop variable model_lon model_lat var_data time_idx locs' in
       Ok (value :: rest))%res
  end.

Definition sample_nature_run (nature_data : gmap string ndarray)
    (obs_lons obs_lats : list Q) (variable : string) (time_idx : Z)
  : result (list Q) :=
  (let? model_lon := dict_get nature_data "lon" in
   let? model_lat := dict_get nature_data "lat" in
   let? var_data := dict_get nature_data variable in
   sample_loop variable model_lon model_lat var_data time_idx
     (combine obs_lons obs_lats))%res.

(** ** Text formatting (Python format specifications) *)

Definition newline : ascii := "010"%char.
Definition nl : string := String newline "".

Fixpoint replicate_char (n : nat) (c : ascii) : string :=
  match n with
  | O => ""
  | S n' => String c (replicate_char n' c)
  end.

(** Right-justify [s] in a field of [width] characters ([>], the default
    alignment of numbers). *)
Definition rjust (width : nat) (fill : ascii) (s : string) : string :=
  replicate_char (width - String.length s) fill ++ s.

(** Left-justify ([<], the default alignment of strings). *)
Definition ljust (width : nat) (fill : ascii) (s : string) : string :=
  s ++ replicate_char (width - String.length s) fill.

(** [f"{n:{width}d}"]: padded with spaces on the left. *)
Definition fmt_d (width : nat) (n : Z) : string :=
  rjust width " " (str_of_Z n).

(** [f"{n:0{width}d}"]: the zeros go between the sign and the digits. *)
Definition fmt_0d (width : nat) (n : Z) : string :=
  if (n <? 0)%Z then
    "-" ++ rjust (width - 1) "0" (str_of_Z (Z.abs n))
  else rjust width "0" (str_of_Z n).

(** [f"{s:{width}s}"] *)
Definition fmt_s (width : nat) (s : string) : string := ljust width " " s.

(** The digits of [f"{x:.{prec}f}"]: sign, integer part, and [prec]
    decimals of the correctly rounded value. *)
Definition fixed_digits (prec : nat) (x : Q) : string :=
  let scale := (10 ^ Z.of_nat prec)%Z in
  let m := round_half_even (Qabs x * inject_Z scale) in
  let sign := if Qltb x 0 then "-" else "" in
  let int_part := str_of_Z (m / scale) in
  match prec with
  | O => sign ++ int_part
  | _ => sign ++ int_part ++ "." ++ rjust prec "0" (str_of_Z (m mod scale))
  end.

(** [f"{x:{width}.{prec}f}"] *)
Definition fmt_f (width prec : nat) (x : Q) : string :=
  rjust width " " (fixed_digits prec x).

(** A wall-clock reading. *)
Record datetime : Type := mk_datetime {
  dt_year : nat; dt_month : nat; dt_day : nat;
  dt_hour : nat; dt_minute : nat; dt_second : nat
}.

(** [now.strftime('%Y-%m-%d %H:%M:%S')] *)
Definition strftime (t : datetime) : string :=
  fmt_0d 4 (Z.of_nat (dt_year t)) ++ "-" ++ fmt_0d 2 (Z.of_nat (dt_month t))
  ++ "-" ++ fmt_0d 2 (Z.of_nat (dt_day t)) ++ " "
  ++ fmt_0d 2 (Z.of_nat (dt_hour t)) ++ ":" ++ fmt_0d 2 (Z.of_nat (dt_minute t))
  ++ ":" ++ fmt_0d 2 (Z.of_nat (dt_second t)).

(** ** Observation records and files *)

(** One row of the observation table ([obs_df]). *)
Record obs_row : Type := mk_obs_row {
  row_year : Z;
  row_lon : Q;
  row_lat : Q;
  row_variable : string;
  row_true_value : Q;
  row_observed_value : Q;
  row_error : Q
}.

(** What a file holds: text written with [f.write], or the table that
    [DataFrame.to_csv] stores (column names and rows in order; the text
    rendering of its floats is pandas's and is not modelled). *)
Inductive content : Type :=
| Text (s : string)
| Table (columns : list string) (rows : list obs_row).

Definition df_columns : list string :=
  ["year"; "lon"; "lat"; "variable"; "true_value"; "observed_value"; "error"].

(** The rows of [pd.DataFrame({'year': year, 'lon': lons, ..., 'variable':
    variable, ...})]: the scalars are repeated along the arrays. *)
Fixpoint zip_rows (year : Z) (variable : string)
    (lons lats trues obs errs : list Q) : list obs_row :=
  match lons, lats, trues, obs, errs with
  | lo :: lons', la :: lats', t :: trues', o :: obs', e :: errs' =>
      mk_obs_row year lo la variable t o e
      :: zip_rows year variable lons' lats' trues' obs' errs'
  | _, _, _, _, _ => []
  end.

(** The constructor refuses arrays of different lengths. *)
Definition DataFrame (year : Z) (variable : string)
    (lons lats trues obs errs : list Q) : result (list obs_row) :=
  let n := length lons in
  if decide (length lats = n /\ length trues = n /\ length obs = n
             /\ length errs = n)
  then Ok (zip_rows year variable lons lats trues obs errs)
  else Raise (ValueError "All arrays must be of the same length").

(** One data line of the filter-compatible file. *)
Definition pdaf_line (row : obs_row) : string :=
  fmt_d 4 (row_year row) ++ " " ++ fmt_f 8 3 (row_lon row) ++ " "
  ++ fmt_f 8 3 (row_lat row) ++ " "
  ++ fmt_s 4 (row_variable row) ++ " " ++ fmt_f 12 6 (row_observed_value row)
  ++ " " ++ fmt_f 8 3 (row_error row) ++ nl.

(** ** Path names *)

(** [os.path.join(a, b)] on POSIX. *)
Definition os_path_join (a b : string) : string :=
  if String.prefix "/" b then b
  else if decide (a = "") then b
  else if String.eqb (String.substring (String.length a - 1) 1 a) "/" then a ++ b
  else a ++ "/" ++ b.

(** [p[:i], p[i:]] where [i] is one past the last slash of [p]. *)
Fixpoint cut_last_slash (p : string) : string * string :=
  match p with
  | EmptyString => ("", "")
  | String c p' =>
      let (h, t) := cut_last_slash p' in
      if String.eqb h "" then
        if Ascii.eqb c "/" then ("/", t) else ("", String c t)
      else (String c h, t)
  end.

(** [s.rstrip('/')] *)
Fixpoint rstrip_slash (s : string) : string :=
  match s with
  | EmptyString => ""
  | String c s' =>
      let r := rstrip_slash s' in
      if String.eqb r "" && Ascii.eqb c "/" then "" else String c r
  end.

(** [os.path.split(p)] on POSIX: the head loses its trailing slashes unless
    it is made of slashes only. *)
Definition os_path_split (p : string) : string * string :=
  let (head, tail) := cut_last_slash p in
  (if String.eqb (rstrip_slash head) "" then head else rstrip_slash head, tail).

(** A place in the tree of directories: the names on the way from the
    root. *)
Definition path : Type := list string.

(** The texts between the slashes of a path name. *)
Fixpoint split_slash (cur s : string) : list string :=
  match s with
  | EmptyString => [cur]
  | String c s' =>
      if Ascii.eqb c "/" then cur :: split_slash "" s'
      else split_slash (cur ++ String c "") s'
  end.

Definition components (name : string) : list string := split_slash "" name.

(** Without the empty components that trailing slashes leave. *)
Fixpoint drop_trailing_empty (cs : list string) : list string :=
  match cs with
  | [] => []
  | c :: cs' =>
      match drop_trailing_empty cs' with
      | [] => if String.eqb c "" then [] else [c]
      | r => c :: r
      end
  end.

(** The names [.] and [..] of every directory. *)
Definition dot_name (c : string) : bool := String.eqb c "." || String.eqb c "..".

(** ** numpy reductions and arithmetic *)

(** [np.min(a)], [np.max(a)]: raise on an empty array. *)
Definition np_min (a : list Q) : result Q :=
  match a with
  | [] => Raise (ValueError "zero-size array to reduction operation minimum which has no identity")
  | x :: l => Ok (fold_left Qmin l x)
  end.

Definition np_max (a : list Q) : result Q :=
  match a with
  | [] => Raise (ValueError "zero-size array to reduction operation maximum which has no identity")
  | x :: l => Ok (fold_left Qmax l x)
  end.

(** [np.arange(n)] *)
Definition np_arange (n : nat) : ndarray :=
  mk_ndarray [n] (map (fun k => inject_Z (Z.of_nat k)) (seq 0 n)).

(** A value that is a Python float or a 1-D array of floats. *)
Inductive numeric : Type :=
| Scalar (x : Q)
| Array (a : list Q).

(** [values + noise]: a scalar is added to every element, an array
    elementwise (arrays of equal length, the only case the generator
    reaches; numpy raises on lengths it cannot broadcast). *)
Definition np_add (values : list Q) (noise : numeric) : result (list Q) :=
  match noise with
  | Scalar x => Ok (map (fun v => v + x) values)
  | Array a =>
      if decide (length a = length values) then Ok (zip_with Qplus values a)
      else Raise (ValueError "operands could not be broadcast together")
  end.

(** ** The process-wide random generator *)

(** The generator behind [np.random] (a Mersenne Twister with numpy's
    transformations), taken as given: how a seed initialises the state, and
    how one uniform draw in [0, 1) and one standard normal draw advance it. *)
Class NumpyRandom : Type := {
  RandomState : Type;
  seed_state : Z -> RandomState;
  random_sample : RandomState -> Q * RandomState;
  standard_normal : RandomState -> Q * RandomState
}.

(** Command line arguments of the script. *)
Record Args : Type := mk_Args {
  arg_output_dir : string;
  arg_n_obs_tas : Z;
  arg_n_obs_pr : Z;
  arg_start_year : Z;
  arg_n_years : Z
}.

Definition tas_names : list string := ["tas"; "temp"; "temperature"; "t2m"; "t_ref"].
Definition pr_names : list string := ["pr"; "precip"; "precipitation"; "rain"; "prec"].

(** ** Loading the nature run *)

(** The first of [names] that is a variable of the dataset: the loops
    [for name in names: if name in ds.variables: ...; break]. *)
Fixpoint find_var (ds : gmap string ndarray) (names : list string)
  : option ndarray :=
  match names with
  | [] => None
  | name :: names' =>
      match ds !! name with
      | Some v => Some v
      | None => find_var ds names'
      end
  end.

(** [ds.variables[a][:] if a in ds.variables else ds.variables[b][:]] *)
Definition get_or (ds : gmap string ndarray) (a b : string) : result ndarray :=
  match ds !! a with
  | Some v => Ok v
  | None => dict_get ds b
  end.

(** [ds] is the table of variables of the opened NetCDF file. *)
Definition load_nature_run_data (ds : gmap string ndarray)
  : result (gmap string ndarray) :=
  (let? lon := get_or ds "lon" "longitude" in
   let? lat := get_or ds "lat" "latitude" in
   let time := default (np_arange 1000) (ds !! "time") in
   let tas := find_var ds tas_names in
   let pr := find_var ds pr_names in
   match tas with
   | None => Raise (ValueError "Could not find tas/temperature data in nature run file")
   | Some tas =>
       match pr with
       | None => Raise (ValueError "Could not find pr/precipitation data in nature run file")
       | Some pr =>
           Ok (<["tas" := tas]> (<["pr" := pr]> (<["lon" := lon]>
                 (<["lat" := lat]> (<["time" := time]> ∅)))))
       end
   end)%res.

Section Generator.

Context `{NR : NumpyRandom}.

(** ** The world the script runs in *)

Record World : Type := mk_World {
  rng : RandomState;            (* the state of [np.random] *)
  cwd : path;                   (* the working directory *)
  dirs : gset path;             (* the directories, besides the root *)
  files : gmap path content;    (* the regular files *)
  clock : datetime              (* what [datetime.now()] returns *)
}.

(** A computation that reads and updates the world and may raise; the world
    reached when an exception is raised is kept. *)
Definition M (A : Type) : Type := World -> result A * World.

Definition ret {A} (a : A) : M A := fun w => (Ok a, w).

Definition raise {A} (e : exn) : M A := fun w => (Raise e, w).

Definition bind {A B} (m : M A) (k : A -> M B) : M B :=
  fun w =>
    match m w with
    | (Ok a, w') => k a w'
    | (Raise e, w') => (Raise e, w')
    end.

Definition lift {A} (r : result A) : M A := fun w => (r, w).

Notation "'let!' x ':=' m 'in' k" := (bind m (fun x => k))
  (at level 10, x pattern, m at level 100, k at level 200).

(** [for x in l: body(x)] *)
Fixpoint for_each {A} (l : list A) (body : A -> M unit) : M unit :=
  match l with
  | [] => ret tt
  | x :: l' => let! _ := body x in for_each l' body
  end.

Definition set_rng (st : RandomState) (w : World) : World :=
  mk_World st (cwd w) (dirs w) (files w) (clock w).

Definition set_dirs (ds : gset path) (w : World) : World :=
  mk_World (rng w) (cwd w) ds (files w) (clock w).

Definition set_files (fs : gmap path content) (w : World) : World :=
  mk_World (rng w) (cwd w) (dirs w) fs (clock w).

(** [datetime.now()] *)
Definition datetime_now : M datetime := fun w => (Ok (clock w), w).

(** ** Path resolution and system calls *)

Definition is_dir (w : World) (p : path) : bool :=
  bool_decide (p = [] \/ p ∈ dirs w).

Definition is_file (w : World) (p : path) : bool :=
  bool_decide (is_Some (files w !! p)).

(** Where a relative or an absolute name is resolved from. *)
Definition start (w : World) (name : string) : path :=
  if String.prefix "/" name then [] else cwd w.

(** One step of the resolution of the path name [name]: the directory that
    the component [c] names in the directory [cur]. *)
Definition lookup_dir (name : string) (w : World) (cur : path) (c : string)
  : result path :=
  if String.eqb c "" || String.eqb c "." then Ok cur
  else if String.eqb c ".." then Ok (removelast cur)
  else if is_dir w (cur ++ [c]) then Ok (cur ++ [c])
  else if is_file w (cur ++ [c]) then Raise (NotADirectoryError name)
  else Raise (FileNotFoundError name).

Fixpoint walk (name : string) (w : World) (cur : path) (cs : list string)
  : result path :=
  match cs with
  | [] => Ok cur
  | c :: cs' => (let? nxt := lookup_dir name w cur c in walk name w nxt cs')%res
  end.

(** [os.mkdir(name)] *)
Definition os_mkdir (name : string) : M unit :=
  fun w =>
    if String.eqb name "" then (Raise (FileNotFoundError name), w)
    else
      match drop_trailing_empty (components name) with
      | [] => (Raise (FileExistsError name), w)
      | cs =>
          match walk name w (start w name) (removelast cs) with
          | Raise e => (Raise e, w)
          | Ok p =>
              let c := List.last cs "" in
              if dot_name c || is_dir w (p ++ [c]) || is_file w (p ++ [c])
              then (Raise (FileExistsError name), w)
              else (Ok tt, set_dirs ({[p ++ [c]]} ∪ dirs w) w)
          end
      end.

Inductive kind : Type := Directory | Regular.

(** [os.stat(name)], as far as the kind of the file. *)
Definition os_stat (name : string) (w : World) : result kind :=
  if String.eqb name "" then Raise (FileNotFoundError name)
  else
    let cs := components name in
    let cs' := drop_trailing_empty cs in
    match cs' with
    | [] => Ok Directory
    | _ =>
        (let? p := walk name w (start w name) (removelast cs') in
         let c := List.last cs' "" in
         if dot_name c || is_dir w (p ++ [c]) then Ok Directory
         else if is_file w (p ++ [c]) then
           if decide (cs' = cs) then Ok Regular
           else Raise (NotADirectoryError name)
         else Raise (FileNotFoundError name))%res
    end.

(** [os.path.exists(name)], [os.path.isdir(name)] *)
Definition os_path_exists (name : string) : M bool :=
  fun w => (Ok (match os_stat name w with Ok _ => true | Raise _ => false end), w).

Definition os_path_isdir (name : string) : M bool :=
  fun w =>
    (Ok (match os_stat name w with Ok Directory => true | _ => false end), w).

(** [try: m except FileExistsError: pass] *)
Definition except_FileExistsError (m : M unit) : M unit :=
  fun w =>
    match m w with
    | (Raise (FileExistsError _), w') => (Ok tt, w')
    | r => r
    end.

(** The recursion of [os.makedirs(name, exist_ok=True)]; each call is on a
    shorter name, and [fuel] bounds the length of [name]. *)
Fixpoint makedirs (fuel : nat) (name : string) : M unit :=
  let (head, tail) := os_path_split name in
  let (head, tail) :=
    if String.eqb tail "" then os_path_split head else (head, tail) in
  let! done :=
    match fuel with
    | S fuel' =>
        if negb (String.eqb head "") && negb (String.eqb tail "") then
          let! there := os_path_exists head in
          if there : bool then ret false
          else
            let! _ := except_FileExistsError (makedirs fuel' head) in
            ret (String.eqb tail ".")
        else ret false
    | O => ret false
    end in
  if done : bool then ret tt
  else
    fun w =>
      match os_mkdir name w with
      | (Raise e, w') =>
          match os_path_isdir name w' with
          | (Ok true, w'') => (Ok tt, w'')
          | _ => (Raise e, w')
          end
      | r => r
      end.

(** [os.makedirs(path, exist_ok=True)] *)
Definition os_makedirs (path : string) : M unit :=
  makedirs (String.length path) path.

(** [open(filename, 'w')]: the file is created or emptied; the place of the
    file stands for the file object. *)
Definition open_w (filename : string) : M path :=
  fun w =>
    if String.eqb filename "" then (Raise (FileNotFoundError filename), w)
    else
      let cs := components filename in
      if decide (drop_trailing_empty cs = cs) then
        match walk filename w (start w filename) (removelast cs) with
        | Raise e => (Raise e, w)
        | Ok p =>
            let c := List.last cs "" in
            if dot_name c || is_dir w (p ++ [c])
            then (Raise (IsADirectoryError filename), w)
            else (Ok (p ++ [c]), set_files (<[p ++ [c] := Text ""]> (files w)) w)
        end
      else
        match walk filename w (start w filename)
                (removelast (drop_trailing_empty cs)) with
        | Raise e => (Raise e, w)
        | Ok _ => (Raise (IsADirectoryError filename), w)
        end.

(** [f.write(s)] on the file object [f]. *)
Definition write (f : path) (s : string) : M unit :=
  fun w =>
    (Ok tt,
     set_files (alter (fun c => match c with
                                | Text t => Text (t ++ s)
                                | Table _ _ => c
                                end) f (files w)) w).

(** pandas checks the directory of the file before it opens it:
    [if not Path(path).parent.is_dir(): raise OSError(...)]. *)
Definition check_parent_directory (filename : string) : M unit :=
  fun w =>
    let parts := filter (fun c => c <> "" /\ c <> ".") (components filename) in
    match walk filename w (start w filename) (removelast parts) with
    | Ok _ => (Ok tt, w)
    | Raise _ =>
        (Raise (OSError "Cannot save file into a non-existent directory"), w)
    end.

(** [obs_df.to_csv(filename, index=False)] *)
Definition to_csv (obs_df : list obs_row) (filename : string) : M unit :=
  let! _ := check_parent_directory filename in
  let! f := open_w filename in
  fun w => (Ok tt, set_files (<[f := Table df_columns obs_df]> (files w)) w).

(** ** Random draws *)

(** [np.random.seed(seed)] *)
Definition np_random_seed (seed : Z) : M unit :=
  fun w =>
    if (0 <=? seed)%Z && (seed <? 2 ^ 32)%Z
    then (Ok tt, set_rng (seed_state seed) w)
    else (Raise (ValueError "Seed must be between 0 and 2**32 - 1"), w).

(** [n] successive draws of [low + (high - low) * random_sample()]. *)
Fixpoint uniform_draws (low high : Q) (n : nat) (st : RandomState)
  : list Q * RandomState :=
  match n with
  | O => ([], st)
  | S n' =>
      let (u, st1) := random_sample st in
      let (l, st2) := uniform_draws low high n' st1 in
      ((low + (high - low) * u) :: l, st2)
  end.

(** [np.random.uniform(low, high, size)] *)
Definition np_random_uniform (low high : Q) (size : Z) : M (list Q) :=
  fun w =>
    if (size <? 0)%Z
    then (Raise (ValueError "negative dimensions are not allowed"), w)
    else
      let (l, st) := uniform_draws low high (Z.to_nat size) (rng w) in
      (Ok l, set_rng st w).

(** One normal draw per element of [scales], each with its own scale. *)
Fixpoint normal_draws (loc : Q) (scales : list Q) (st : RandomState)
  : list Q * RandomState :=
  match scales with
  | [] => ([], st)
  | s :: scales' =>
      let (g, st1) := standard_normal st in
      let (l, st2) := normal_draws loc scales' st1 in
      ((loc + s * g) :: l, st2)
  end.

(** [np.random.normal(loc, scale)] with no [size]: a single float when
    [scale] is a float, an array of the length of [scale] when it is an
    array. *)
Definition np_random_normal (loc : Q) (scale : numeric) : M numeric :=
  fun w =>
    match scale with
    | Scalar s =>
        if Qltb s 0 then (Raise (ValueError "scale < 0"), w)
        else
          let (g, st) := standard_normal (rng w) in
          (Ok (Scalar (loc + s * g)), set_rng st w)
    | Array a =>
        if existsb (fun s => Qltb s 0) a then (Raise (ValueError "scale < 0"), w)
        else
          let (l, st) := normal_draws loc a (rng w) in
          (Ok (Array l), set_rng st w)
    end.

(** ** Network Sampler *)

Definition generate_random_locations (n_obs : Z) (lon_range lat_range : Q * Q)
    (seed : option Z) : M (list Q * list Q) :=
  let! _ := match seed with
            | Some s => np_random_seed s
            | None => ret tt
            end in
  let! lons := np_random_uniform (fst lon_range) (snd lon_range) n_obs in
  let! lats := np_random_uniform (fst lat_range) (snd lat_range) n_obs in
  ret (lons, lats).

(** ** Noise Model *)

Definition add_observation_noise (values : list Q) (variable : string)
  : M (list Q * list Q) :=
  let! (noise_std, errors) :=
    if String.eqb variable "tas" then
      let noise_std := 1 in
      ret (Scalar noise_std, replicate (length values) noise_std)
    else if String.eqb variable "pr" then
      let noise_std := map (fun v => 0.1 * Qabs v) values in
      ret (Array noise_std, noise_std)
    else raise (ValueError ("Unknown variable: " ++ variable)) in
  let! noise := np_random_normal 0 noise_std in
  let! noisy_values := lift (np_add values noise) in
  ret (noisy_values, errors).

(** ** Record Assembler and Serializer *)

Definition save_pdaf_format (obs_df : list obs_row) (filename : string) : M unit :=
  let! f := open_w filename in
  let! _ := write f ("# PDAF Observation File" ++ nl) in
  let! _ := write f
              ("# Format: year lon lat variable observed_value error" ++ nl) in
  let! now := datetime_now in
  let! _ := write f ("# Generated: " ++ strftime now ++ nl) in
  let! _ := write f
              ("# Number of observations: " ++ str_of_nat (length obs_df)
               ++ nl ++ nl) in
  for_each obs_df (fun row => write f (pdaf_line row)).

Definition create_summary_file (filename : string)
    (n_years n_obs_tas n_obs_pr : Z) (lon_min lon_max lat_min lat_max : Q)
  : M unit :=
  let! f := open_w filename in
  let! _ := write f ("CLIMBER-X OSSE Synthetic Observation Summary" ++ nl) in
  let! _ := write f (replicate_char 50 "=" ++ nl ++ nl) in
  let! _ := write f ("Experiment period: " ++ str_of_Z n_years ++ " years" ++ nl) in
  let! _ := write f ("Observations per year:" ++ nl) in
  let! _ := write f ("  - tas (temperature): " ++ str_of_Z n_obs_tas ++ nl) in
  let! _ := write f ("  - pr (precipitation): " ++ str_of_Z n_obs_pr ++ nl) in
  let! _ := write f
              ("  - Total: " ++ str_of_Z (n_obs_tas + n_obs_pr) ++ nl ++ nl) in
  let! _ := write f ("Model grid bounds:" ++ nl) in
  let! _ := write f
              ("  - Longitude: [" ++ fmt_f 0 1 lon_min ++ ", " ++ fmt_f 0 1 lon_max
               ++ "] degrees" ++ nl) in
  let! _ := write f
              ("  - Latitude: [" ++ fmt_f 0 1 lat_min ++ ", " ++ fmt_f 0 1 lat_max
               ++ "] degrees" ++ nl ++ nl) in
  let! _ := write f ("Observation errors:" ++ nl) in
  let! _ := write f ("  - tas: 1.0 K (Gaussian)" ++ nl) in
  let! _ := write f ("  - pr: 10% relative error (Gaussian)" ++ nl ++ nl) in
  let! _ := write f ("File formats:" ++ nl) in
  let! _ := write f
              ("  - CSV: observations_year_YYYY.csv (detailed format)" ++ nl) in
  let! _ := write f
              ("  - PDAF: pdaf_obs_year_YYYY.txt (PDAF-compatible)" ++ nl ++ nl) in
  let! now := datetime_now in
  write f ("Generated: " ++ strftime now ++ nl).

(** ** The driver *)

(** The two observation networks of a year (first statements of the loop
    body of [generate_synthetic_observations]). *)
Definition year_networks (n_obs_tas n_obs_pr : Z) (lon_range lat_range : Q * Q)
    (year : Z) : M ((list Q * list Q) * (list Q * list Q)) :=
  let! tas_locs := generate_random_locations n_obs_tas lon_range lat_range
                     (Some (year * 2)%Z) in
  let! pr_locs := generate_random_locations n_obs_pr lon_range lat_range
                    (Some (year * 2 + 1)%Z) in
  ret (tas_locs, pr_locs).

(** The loop body up to [obs_df = pd.concat([tas_df, pr_df])]. *)
Definition year_obs_df (nature_data : gmap string ndarray)
    (n_obs_tas n_obs_pr : Z) (lon_range lat_range : Q * Q) (year : Z)
  : M (list obs_row) :=
  let! ((tas_lons, tas_lats), (pr_lons, pr_lats)) :=
    year_networks n_obs_tas n_obs_pr lon_range lat_range year in
  let time_idx := year in
  let! tas_true := lift (sample_nature_run nature_data tas_lons tas_lats "tas" time_idx) in
  let! pr_true := lift (sample_nature_run nature_data pr_lons pr_lats "pr" time_idx) in
  let! (tas_obs, tas_errors) := add_observation_noise tas_true "tas" in
  let! (pr_obs, pr_errors) := add_observation_noise pr_true "pr" in
  let! tas_df := lift (DataFrame year "tas" tas_lons tas_lats tas_true tas_obs tas_errors) in
  let! pr_df := lift (DataFrame year "pr" pr_lons pr_lats pr_true pr_obs pr_errors) in
  ret (tas_df ++ pr_df).

Definition csv_file (output_dir : string) (year : Z) : string :=
  os_path_join output_dir ("observations_year_" ++ fmt_0d 4 year ++ ".csv").

Definition pdaf_file (output_dir : string) (year : Z) : string :=
  os_path_join output_dir ("pdaf_obs_year_" ++ fmt_0d 4 year ++ ".txt").

(** The whole loop body: one year of observations and its two files. *)
Definition process_year (nature_data : gmap string ndarray)
    (n_obs_tas n_obs_pr : Z) (lon_range lat_range : Q * Q)
    (output_dir : string) (year : Z) : M unit :=
  let! obs_df := year_obs_df nature_data n_obs_tas n_obs_pr lon_range lat_range year in
  let! _ := to_csv obs_df (csv_file output_dir year) in
  save_pdaf_format obs_df (pdaf_file output_dir year).

(** [range(start, start + n)] *)
Definition range (start n : Z) : list Z :=
  map (fun k => (start + Z.of_nat k)%Z) (seq 0 (Z.to_nat n)).

Definition generate_synthetic_observations (nature_data : gmap string ndarray)
    (n_obs_tas n_obs_pr start_year n_years : Z) (output_dir : string) : M unit :=
  let! _ := os_makedirs output_dir in
  let! lon := lift (dict_get nature_data "lon") in
  let! lon_min := lift (np_min (data lon)) in
  let! lon_max := lift (np_max (data lon)) in
  let! lat := lift (dict_get nature_data "lat") in
  let! lat_min := lift (np_min (data lat)) in
  let! lat_max := lift (np_max (data lat)) in
  let! _ := for_each (range start_year n_years)
              (process_year nature_data n_obs_tas n_obs_pr
                 (lon_min, lon_max) (lat_min, lat_max) output_dir) in
  let summary_file := os_path_join output_dir "observation_summary.txt" in
  create_summary_file summary_file n_years n_obs_tas n_obs_pr
    lon_min lon_max lat_min lat_max.

(** [main()], run on the variables [ds] of the file named on the command
    line. *)
Definition main (ds : gmap string ndarray) (args : Args) : M unit :=
  let! nature_data := lift (load_nature_run_data ds) in
  generate_synthetic_observations nature_data
    (arg_n_obs_tas args) (arg_n_obs_pr args)
    (arg_start_year args) (arg_n_years args) (arg_output_dir args).

End Generator.

Arguments M {NR} A.
Arguments World {NR}.

(** ** A small generator to run the model on

    A linear congruential generator stands for the Mersenne Twister where a
    statement is evaluated on concrete inputs. *)

Definition lcg_next (s : Z) : Z := ((1103515245 * s + 12345) mod 2147483648)%Z.

Definition lcg : NumpyRandom := {|
  RandomState := Z;
  seed_state := fun s => s;
  random_sample := fun s => (Qmake (lcg_next s mod 1000) 1000, lcg_next s);
  standard_normal := fun s => (Qmake (lcg_next s mod 601 - 300) 100, lcg_next s)
|}.

(** ** Lines of a text file *)

(** The lines of a text, split at each newline; the terminator is dropped
    and a last line without one is kept when it is not empty. *)
Fixpoint lines_from (cur : string) (s : string) : list string :=
  match s with
  | EmptyString => if decide (cur = "") then [] else [cur]
  | String c s' =>
      if Ascii.eqb c newline then cur :: lines_from "" s'
      else lines_from (cur ++ String c "") s'
  end.

Definition lines (s : string) : list string := lines_from "" s.

(** ** The same arithmetic on binary64 floats

    The two places where the generator computes with constants, written on
    IEEE binary64 numbers as Python evaluates them: they show that the
    rational model agrees with the rounded arithmetic on the values the
    specification names. *)

(** [0.1 * np.abs(v)] *)
#[warnings="-inexact-float"]
Definition relative_error_binary64 (v : float) : float := (0.1 * abs v)%float.

(** [if obs_lon < 0: obs_lon += 360.0] *)
Definition wrap_lon_binary64 (obs_lon : float) : float :=
  if (obs_lon <? 0)%float then (obs_lon + 360)%float else obs_lon.

(** One element of [np.abs(model - obs)] *)
Definition abs_diff_binary64 (model obs : float) : float := abs (model - obs)%float.

(** ** Sample inputs *)

Definition floats_upto (n : nat) : list Q :=
  map (fun k => inject_Z (Z.of_nat k)) (seq 0 n).

(** A rank-3 field (5 times, 2 latitudes, 2 longitudes) and a rank-4 field
    (2 times, 3 levels, 2 latitudes, 2 longitudes). *)
Definition field3 : ndarray := mk_ndarray [5; 2; 2]%nat (floats_upto 20).
Definition field4 : ndarray := mk_ndarray [2; 3; 2; 2]%nat (floats_upto 24).

(** The nature run on the 2 x 2 grid of longitudes [0, 180] and latitudes
    [-45, 45]: both fields are [field3]. *)
Definition sample_nature_base : gmap string ndarray :=
  <["tas" := field3]>
    (<["pr" := field3]>
       (<["lon" := mk_ndarray [2%nat] [0; 180]]>
          (<["lat" := mk_ndarray [2%nat] [-45; 45]]>
             (<["time" := np_arange 1000]> ∅)))).

(** A dataset on the 2 x 2 grid of longitudes [0, 180] and latitudes
    [-45, 45], with the temperature stored under the name [t2m]. *)
Definition sample_ds : gmap string ndarray :=
  <["lon" := mk_ndarray [2%nat] [0; 180]]>
    (<["lat" := mk_ndarray [2%nat] [-45; 45]]>
       (<["t2m" := field3]> (<["pr" := field3]> ∅))).

(** The sample nature run with a temperature field of rank 2, and with an
    empty longitude axis. *)
Definition rank2_nature : gmap string ndarray :=
  <["tas" := mk_ndarray [2; 2]%nat (floats_upto 4)]> sample_nature_base.

Definition no_lon_nature : gmap string ndarray :=
  <["lon" := mk_ndarray [0%nat] []]> sample_nature_base.

(** A dataset with coordinates but neither field. *)
Definition empty_ds : gmap string ndarray :=
  <["lon" := mk_ndarray [2%nat] [0; 180]]>
    (<["lat" := mk_ndarray [2%nat] [-45; 45]]> ∅).

(** The nature run the loader builds from [sample_ds]. *)
Definition sample_nature : gmap string ndarray :=
  <["tas" := field3]>
    (<["pr" := field3]>
       (<["lon" := mk_ndarray [2%nat] [0; 180]]>
          (<["lat" := mk_ndarray [2%nat] [-45; 45]]>
             (<["time" := np_arange 1000]> ∅)))).

(** A world whose working directory is [/home/user], with no file in
    it. *)
Definition sample_world : @World lcg :=
  @mk_World lcg 0%Z ["home"; "user"] {[ ["home"]; ["home"; "user"] ]} ∅
    (mk_datetime 2026 11 4 1 2 3).

(** The same world once the directory [obs_data] has been made in the
    working directory. *)
Definition sample_run_world : @World lcg :=
  @mk_World lcg 0%Z ["home"; "user"]
    {[ ["home"]; ["home"; "user"]; ["home"; "user"; "obs_data"] ]} ∅
    (mk_datetime 2026 11 4 1 2 3).

Definition sample_args : Args := mk_Args "obs_data" 2 1 3 1.

(** Five records of one year, as the driver assembles them. *)
Definition sample_rows : list obs_row :=
  [ mk_obs_row 3 156.78 11.61 "tas" 15 16.04 1;
    mk_obs_row 3 65.52 19.26 "tas" 14 15.04 1;
    mk_obs_row 3 0.5 (-44.9995) "tas" 1 (-0.25) 1;
    mk_obs_row 3 20.88 (-15.03) "pr" 12 11.076 1.2;
    mk_obs_row 3 179.9996 45 "pr" 0 0 0 ].

(** The temperature network of year 3 on the sample grid (seed 6, two
    observations), as the sample generator draws it. *)
Definition sample_lons : list Q :=
  Eval vm_compute in
    match (@generate_random_locations lcg 2 (0, 180) (-45, 45) (Some 6%Z)
             sample_world).1 with
    | Ok (lons, _) => lons
    | Raise _ => []
    end.

Definition sample_lats : list Q :=
  Eval vm_compute in
    match (@generate_random_locations lcg 2 (0, 180) (-45, 45) (Some 6%Z)
             sample_world).1 with
    | Ok (_, lats) => lats
    | Raise _ => []
    end.

(** ** Specification predicates *)

(** [r] is the first index at which the array [a] takes its least value. *)
Definition first_argmin (a : list Q) (r : nat) : Prop :=
  exists vr, a !! r = Some vr
    /\ (forall k v, a !! k = Some v -> vr <= v)
    /\ (forall k v, a !! k = Some v -> (k < r)%nat -> vr < v).

(** The distance, along one axis, from the grid coordinate [x] to the query
    coordinate [q]. *)
Definition axis_dist (q x : Q) : Q := Qabs (x - q).

(** The same distance as the locator computes it: the difference is
    rounded. *)
Definition float_dist (q x : Q) : Q := Qabs (binary64 (x - q)).

(** The difference of [x] and [q] is a float: the subtraction is exact. *)
Definition exact_diff (q x : Q) : Prop := binary64 (x - q) == x - q.

(** The configuration error of the Field Sampler. *)
Definition shape_error (variable : string) (var_data : ndarray) : exn :=
  ValueError ("Unexpected data shape for " ++ variable ++ ": "
              ++ str_of_shape (shape var_data)).

(** A well-formed array holds as many elements as its shape says. *)
Definition wf_ndarray (a : ndarray) : Prop :=
  length (data a) = foldr Nat.mul 1%nat (shape a).

(** The text holds no slash. *)
Fixpoint no_slash (s : string) : Prop :=
  match s with
  | EmptyString => True
  | String c s' => c <> "/"%char /\ no_slash s'
  end.

(** A name of a file in a directory: not empty, with no slash, and neither
    [.] nor [..]. *)
Definition plain_name (n : string) : Prop :=
  n <> "" /\ no_slash n /\ dot_name n = false.

(** The text holds no newline character. *)
Fixpoint no_newline (s : string) : Prop :=
  match s with
  | EmptyString => True
  | String c s' => c <> newline /\ no_newline s'
  end.

(** The text of a data line of the filter-compatible file, without the
    newline that ends it. *)
Definition pdaf_fields (row : obs_row) : string :=
  fmt_d 4 (row_year row) ++ " " ++ fmt_f 8 3 (row_lon row) ++ " "
  ++ fmt_f 8 3 (row_lat row) ++ " "
  ++ fmt_s 4 (row_variable row) ++ " " ++ fmt_f 12 6 (row_observed_value row)
  ++ " " ++ fmt_f 8 3 (row_error row).

(** The texts of a list written one after the other. *)
Definition join_all (ls : list string) : string := foldr String.append "" ls.

(** The whole text of the filter-compatible file of the rows [rows],
    generated at time [now]. *)
Definition pdaf_text (now : datetime) (rows : list obs_row) : string :=
  "# PDAF Observation File" ++ nl
  ++ "# Format: year lon lat variable observed_value error" ++ nl
  ++ "# Generated: " ++ strftime now ++ nl
  ++ "# Number of observations: " ++ str_of_nat (length rows) ++ nl ++ nl
  ++ join_all (map pdaf_line rows).

(** The coordinate axis the loader finds under one of its two names. *)
Definition get_or_coord (ds : gmap string ndarray) (a b : string) : option ndarray :=
  match ds !! a with
  | Some v => Some v
  | None => ds !! b
  end.

(** What identifies the place of a record in its network: its tag and its
    location. *)
Definition row_key (r : obs_row) : string * Q * Q :=
  (row_variable r, row_lon r, row_lat r).

(** ** The stream of draws *)

Section DrawStream.

Context `{NR : NumpyRandom}.

(** The state of the generator after [n] standard normal draws. *)
Fixpoint advance_normal (n : nat) (st : RandomState) : RandomState :=
  match n with
  | O => st
  | S n' => advance_normal n' (standard_normal st).2
  end.

(** Draw number [k] (from 0) of the standard normal stream that starts in
    state [st]. *)
Definition nth_normal (st : RandomState) (k : nat) : Q :=
  (standard_normal (advance_normal k st)).1.

(** The state of the generator after [n] uniform draws. *)
Fixpoint advance_uniform (n : nat) (st : RandomState) : RandomState :=
  match n with
  | O => st
  | S n' => advance_uniform n' (random_sample st).2
  end.

(** Draw number [k] (from 0) of the uniform stream that starts in [st]. *)
Definition nth_uniform (st : RandomState) (k : nat) : Q :=
  (random_sample (advance_uniform k st)).1.

End DrawStream.

(** ** Reading a number back *)

(** [int(s)] on a decimal numeral with an optional minus sign. *)
Definition int_of_str (s : string) : option Z :=
  option_map Z.of_int (NilZero.int_of_string s).

(** The path of the run-level summary. *)
Definition summary_file (output_dir : string) : string :=
  os_path_join output_dir "observation_summary.txt".

(** The names of the files of a run, in their directory. *)
Definition csv_name (year : Z) : string :=
  "observations_year_" ++ fmt_0d 4 year ++ ".csv".

Definition pdaf_name (year : Z) : string :=
  "pdaf_obs_year_" ++ fmt_0d 4 year ++ ".txt".

Definition summary_name : string := "observation_summary.txt".

(** ** What a computation leaves alone *)

Section Frames.

Context `{NR : NumpyRandom}.

(** The computation [m] may advance the generator but touches neither the
    files, nor the directories, nor the clock. *)
Definition rng_only {A} (m : M A) : Prop :=
  forall w, dirs (m w).2 = dirs w /\ files (m w).2 = files w
            /\ clock (m w).2 = clock w /\ cwd (m w).2 = cwd w.

(** [m] may make directories and changes nothing else. *)
Definition dirs_only {A} (m : M A) : Prop :=
  forall w, rng (m w).2 = rng w /\ cwd (m w).2 = cwd w
            /\ files (m w).2 = files w /\ clock (m w).2 = clock w
            /\ dirs w ⊆ dirs (m w).2.

(** The place of the regular file that [name] names, when [name] can be
    opened for writing: where [open(name, 'w')] puts the file. *)
Definition file_place (w : World) (name : string) : option path :=
  match (open_w name w).1 with
  | Ok p => Some p
  | Raise _ => None
  end.

(** What the file named [name] holds. *)
Definition read_file (w : World) (name : string) : option content :=
  match file_place w name with
  | Some p => files w !! p
  | None => None
  end.

(** [os.path.isdir(name)] *)
Definition isdir (w : World) (name : string) : Prop :=
  os_stat name w = Ok Directory.

(** The two worlds have the same directories and the same working
    directory: path names are resolved alike in both. *)
Definition same_tree (w1 w2 : World) : Prop :=
  cwd w1 = cwd w2 /\ dirs w1 = dirs w2.

(** From [w] to [w'] path names are resolved alike, the clock has not
    moved, and no file has changed but those that a name of [names] names. *)
Definition touches_only (names : string -> Prop) (w w' : World) : Prop :=
  same_tree w w' /\ clock w' = clock w
  /\ forall q, (forall n, names n -> file_place w n <> Some q) ->
               files w' !! q = files w !! q.

(** The file at [path] is a table of year [year]: one row per observation
    of the two networks, every row carrying that year. *)
Definition year_table (n_obs_tas n_obs_pr year : Z) (c : option content)
    (rows : list obs_row) : Prop :=
  c = Some (Table df_columns rows)
  /\ length rows = (Z.to_nat n_obs_tas + Z.to_nat n_obs_pr)%nat
  /\ Forall (fun r => row_year r = year) rows.

End Frames.

(** ** The files a run leaves *)

(** The whole text of the summary file. *)
Definition summary_text (now : datetime) (n_years n_obs_tas n_obs_pr : Z)
    (lon_min lon_max lat_min lat_max : Q) : string :=
  "CLIMBER-X OSSE Synthetic Observation Summary" ++ nl
  ++ replicate_char 50 "=" ++ nl ++ nl
  ++ "Experiment period: " ++ str_of_Z n_years ++ " years" ++ nl
  ++ "Observations per year:" ++ nl
  ++ "  - tas (temperature): " ++ str_of_Z n_obs_tas ++ nl
  ++ "  - pr (precipitation): " ++ str_of_Z n_obs_pr ++ nl
  ++ "  - Total: " ++ str_of_Z (n_obs_tas + n_obs_pr) ++ nl ++ nl
  ++ "Model grid bounds:" ++ nl
  ++ "  - Longitude: [" ++ fmt_f 0 1 lon_min ++ ", " ++ fmt_f 0 1 lon_max
  ++ "] degrees" ++ nl
  ++ "  - Latitude: [" ++ fmt_f 0 1 lat_min ++ ", " ++ fmt_f 0 1 lat_max
  ++ "] degrees" ++ nl ++ nl
  ++ "Observation errors:" ++ nl
  ++ "  - tas: 1.0 K (Gaussian)" ++ nl
  ++ "  - pr: 10% relative error (Gaussian)" ++ nl ++ nl
  ++ "File formats:" ++ nl
  ++ "  - CSV: observations_year_YYYY.csv (detailed format)" ++ nl
  ++ "  - PDAF: pdaf_obs_year_YYYY.txt (PDAF-compatible)" ++ nl ++ nl
  ++ "Generated: " ++ strftime now ++ nl.

(** At time [now], the two files of year [year] are in place under
    [output_dir] and hold the same rows. *)
Definition year_files_written `{NR : NumpyRandom} (output_dir : string)
    (n_obs_tas n_obs_pr : Z) (now : datetime) (year : Z) (w : World) : Prop :=
  exists rows,
    year_table n_obs_tas n_obs_pr year (read_file w (csv_file output_dir year)) rows
    /\ read_file w (pdaf_file output_dir year) = Some (Text (pdaf_text now rows)).

(** [n] names one of the two files of a year of the range. *)
Definition year_file `{NR : NumpyRandom} (output_dir : string)
    (start_year n_years : Z) (n : string) : Prop :=
  exists y, (start_year <= y < start_year + n_years)%Z
    /\ (n = csv_file output_dir y \/ n = pdaf_file output_dir y).

(** [n] names one of the files of a run: the summary, or a file of a
    year. *)
Definition run_file `{NR : NumpyRandom} (output_dir : string)
    (start_year n_years : Z) (n : string) : Prop :=
  n = summary_file output_dir \/ year_file output_dir start_year n_years n.

(** The table of year 3 on the sample data (two temperature observations,
    one of precipitation), as the sample generator produces it. *)
Definition sample_year_table : list obs_row :=
  Eval vm_compute in
    match (@year_obs_df lcg sample_nature 2 1 (0, 180) (-45, 45) 3
             sample_world).1 with
    | Ok df => df
    | Raise _ => []
    end.

(** The bounding box of the model grid, as the driver computes it before
    its loop: [np.min] and [np.max] of the two axes. *)
Definition grid_bounds (nature_data : gmap string ndarray)
  : result (Q * Q * Q * Q) :=
  (let? lon := dict_get nature_data "lon" in
   let? lon_min := np_min (data lon) in
   let? lon_max := np_max (data lon) in
   let? lat := dict_get nature_data "lat" in
   let? lat_min := np_min (data lat) in
   let? lat_max := np_max (data lat) in
   Ok (lon_min, lon_max, lat_min, lat_max))%res.

(** A dataset with both coordinate axes and a temperature field stored
    under [temp], but no precipitation field. *)
Definition no_pr_ds : gmap string ndarray :=
  <["longitude" := mk_ndarray [2%nat] [0; 180]]>
    (<["lat" := mk_ndarray [2%nat] [-45; 45]]> (<["temp" := field3]> ∅)).

(** * Properties *)

(** ** Texts *)

Lemma str_app_cons (x : ascii) (a b : string) :
  (String x a ++ b = String x (a ++ b))%string.
Proof. reflexivity. Qed.

Lemma str_app_nil_l (a : string) : ("" ++ a = a)%string.
Proof. reflexivity. Qed.

(** ** Comparisons on floats *)

Lemma Qltb_lt (x y : Q) : Qltb x y = true <-> x < y.
Proof.
  unfold Qltb. rewrite negb_true_iff. split.
  - intros H. apply Qnot_le_lt. intros Hle.
    apply Qle_bool_iff in Hle. congruence.
  - intros H. destruct (Qle_bool y x) eqn:E; [|reflexivity].
    apply Qle_bool_iff in E. exfalso. exact (Qlt_not_le _ _ H E).
Qed.

Lemma Qltb_ge (x y : Q) : Qltb x y = false <-> y <= x.
Proof.
  unfold Qltb. rewrite negb_false_iff. apply Qle_bool_iff.
Qed.

Lemma wrap_lon_neg (q : Q) : q < 0 -> wrap_lon q = binary64 (q + 360).
Proof. intros H. unfold wrap_lon. apply Qltb_lt in H. now rewrite H. Qed.

Lemma wrap_lon_nonneg (q : Q) : 0 <= q -> wrap_lon q = q.
Proof. intros H. unfold wrap_lon. apply Qltb_ge in H. now rewrite H. Qed.

(** ** Rounding to binary64 *)

Lemma round_half_even_floor (q : Q) : (Qfloor q <= round_half_even q)%Z.
Proof.
  unfold round_half_even. cbv zeta.
  destruct (Qcompare _ _); [destruct (Z.even _)|..]; lia.
Qed.

Lemma pow2_pos (e : Z) : 0 < 2 ^ e.
Proof. apply Qpower_0_lt. reflexivity. Qed.

Lemma binade_lower (a : Q) : 0 < a -> 2 ^ binade a <= a.
Proof.
  intros Ha. unfold binade. cbv zeta.
  destruct (Qle_bool _ a) eqn:E; [now apply Qle_bool_iff|].
  destruct a as [n d]. cbn [Qnum Qden].
  assert (Hn : (0 < n)%Z) by (unfold Qlt in Ha; simpl in Ha; lia).
  replace (Z.log2 n - Z.log2 (Z.pos d) - 1)%Z
    with (Z.log2 n - (Z.log2 (Z.pos d) + 1))%Z by lia.
  rewrite Qpower_minus by discriminate.
  pose proof (Z.log2_nonneg n) as Hln.
  pose proof (Z.log2_nonneg (Z.pos d)) as Hld.
  rewrite <- !(Zpower_Qpower 2) by lia.
  destruct (Z.log2_spec n Hn) as [Hn1 _].
  destruct (Z.log2_spec (Z.pos d) eq_refl) as [_ Hd2].
  replace (Z.succ (Z.log2 (Z.pos d))) with (Z.log2 (Z.pos d) + 1)%Z in Hd2 by lia.
  set (A := (2 ^ Z.log2 n)%Z) in *. set (B := (2 ^ (Z.log2 (Z.pos d) + 1))%Z) in *.
  assert (HA : (0 < A)%Z) by (apply Z.pow_pos_nonneg; lia).
  apply Qle_shift_div_r.
  - change 0 with (inject_Z 0). rewrite <- Zlt_Qlt. lia.
  - unfold Qle. simpl. nia.
Qed.

Lemma binary64_zero (x : Q) : x == 0 -> binary64 x = 0.
Proof. intros H. unfold binary64. apply Qeq_bool_iff in H. now rewrite H. Qed.

Lemma round_to_pos (a : Q) : 0 < a -> 0 < round_to (binade a - 52) a.
Proof.
  intros Ha. unfold round_to.
  apply Qmult_lt_0_compat; [|apply pow2_pos].
  change 0 with (inject_Z 0). rewrite <- Zlt_Qlt.
  pose proof (round_half_even_floor (a / 2 ^ (binade a - 52))) as Hf.
  assert (H1 : 1 <= a / 2 ^ (binade a - 52)).
  { apply Qle_shift_div_l; [apply pow2_pos|]. rewrite Qmult_1_l.
    apply Qle_trans with (2 ^ binade a); [|now apply binade_lower].
    apply Qpower_le_compat_l; [lia|discriminate]. }
  assert (H2 : (1 <= Qfloor (a / 2 ^ (binade a - 52)))%Z).
  { change 1%Z with (Qfloor 1). now apply Qfloor_resp_le. }
  lia.
Qed.

Lemma binary64_zero_inv (x : Q) : binary64 x == 0 -> x == 0.
Proof.
  unfold binary64. destruct (Qeq_bool x 0) eqn:E; [intros _; now apply Qeq_bool_iff|].
  cbv zeta. intros H. exfalso.
  assert (Ha : 0 < Qabs x).
  { destruct (Qlt_le_dec 0 (Qabs x)) as [|Hle]; [assumption|]. exfalso.
    assert (Hx : x == 0).
    { destruct (Qlt_le_dec x 0) as [Hn|Hp].
      - rewrite Qabs_neg in Hle by lra. lra.
      - rewrite Qabs_pos in Hle by lra. lra. }
    apply Qeq_bool_iff in Hx. congruence. }
  pose proof (round_to_pos _ Ha) as Hr.
  assert (Hm : 0 < (if Qle_bool (2 ^ 1024) (round_to (binade (Qabs x) - 52) (Qabs x))
                    then 2 ^ 1024 else round_to (binade (Qabs x) - 52) (Qabs x))).
  { destruct (Qle_bool _ _); [apply pow2_pos|exact Hr]. }
  destruct (Qltb x 0); lra.
Qed.

Lemma binade_upper (a : Q) : 0 < a -> a < 2 ^ (binade a + 1).
Proof.
  intros Ha. unfold binade. cbv zeta.
  destruct (Qle_bool _ a) eqn:E.
  - destruct a as [n d]. cbn [Qnum Qden].
    assert (Hn : (0 < n)%Z) by (unfold Qlt in Ha; simpl in Ha; lia).
    replace (Z.log2 n - Z.log2 (Z.pos d) + 1)%Z
      with (Z.log2 n + 1 - Z.log2 (Z.pos d))%Z by lia.
    rewrite Qpower_minus by discriminate.
    pose proof (Z.log2_nonneg n) as Hln.
    pose proof (Z.log2_nonneg (Z.pos d)) as Hld.
    rewrite <- !(Zpower_Qpower 2) by lia.
    destruct (Z.log2_spec n Hn) as [_ Hn2].
    destruct (Z.log2_spec (Z.pos d) eq_refl) as [Hd1 _].
    replace (Z.succ (Z.log2 n)) with (Z.log2 n + 1)%Z in Hn2 by lia.
    set (A := (2 ^ (Z.log2 n + 1))%Z) in *. set (B := (2 ^ Z.log2 (Z.pos d))%Z) in *.
    assert (HB : (0 < B)%Z) by (apply Z.pow_pos_nonneg; lia).
    apply Qlt_shift_div_l.
    + change 0 with (inject_Z 0). rewrite <- Zlt_Qlt. lia.
    + unfold Qlt. simpl. nia.
  - replace (Z.log2 (Qnum a) - Z.log2 (Z.pos (Qden a)) - 1 + 1)%Z
      with (Z.log2 (Qnum a) - Z.log2 (Z.pos (Qden a)))%Z by lia.
    apply Qnot_le_lt. intros Hle. apply Qle_bool_iff in Hle. congruence.
Qed.

Lemma binade_unique (a : Q) (e : Z) :
  2 ^ e <= a -> a < 2 ^ (e + 1) -> binade a = e.
Proof.
  intros H1 H2.
  assert (Ha : 0 < a) by (pose proof (pow2_pos e); lra).
  pose proof (binade_lower a Ha) as H3. pose proof (binade_upper a Ha) as H4.
  assert (H5 : 2 ^ e < 2 ^ (binade a + 1)) by lra.
  assert (H6 : 2 ^ binade a < 2 ^ (e + 1)) by lra.
  apply Qpower_lt_compat_l_inv in H5; [|reflexivity].
  apply Qpower_lt_compat_l_inv in H6; [|reflexivity]. lia.
Qed.

Lemma binade_comp (a b : Q) : 0 < a -> a == b -> binade a = binade b.
Proof.
  intros Ha Hab. symmetry. apply binade_unique.
  - rewrite <- Hab. now apply binade_lower.
  - rewrite <- Hab. now apply binade_upper.
Qed.

Lemma round_half_even_comp (x y : Q) : x == y -> round_half_even x = round_half_even y.
Proof.
  intros H. unfold round_half_even. cbv zeta.
  rewrite (Qfloor_comp _ _ H).
  assert (E : x - inject_Z (Qfloor y) == y - inject_Z (Qfloor y)) by (rewrite H; reflexivity).
  now rewrite (Qcompare_comp _ _ E _ _ (Qeq_refl (1 # 2))).
Qed.

Lemma Qltb_comp (x y z : Q) : x == y -> Qltb x z = Qltb y z.
Proof.
  intros H. destruct (Qltb y z) eqn:E.
  - apply Qltb_lt. apply Qltb_lt in E. lra.
  - destruct (Qltb x z) eqn:E'; [|reflexivity].
    apply Qltb_lt in E'. assert (Hyz : y < z) by lra. apply Qltb_lt in Hyz. congruence.
Qed.

(** Equal rationals round to the same float. *)
Lemma binary64_comp (x y : Q) : x == y -> binary64 x = binary64 y.
Proof.
  intros H. unfold binary64.
  assert (E0 : Qeq_bool x 0 = Qeq_bool y 0).
  { destruct (Qeq_bool y 0) eqn:E.
    - apply Qeq_bool_iff. apply Qeq_bool_iff in E. lra.
    - destruct (Qeq_bool x 0) eqn:E'; [|reflexivity].
      apply Qeq_bool_iff in E'. assert (Hy : y == 0) by lra.
      apply Qeq_bool_iff in Hy. congruence. }
  rewrite E0. destruct (Qeq_bool y 0) eqn:Ey; [reflexivity|]. cbv zeta.
  assert (Hy : ~ y == 0) by (intros Hy; apply Qeq_bool_iff in Hy; congruence).
  assert (Habs : Qabs x == Qabs y) by (now rewrite H).
  assert (Hpos : 0 < Qabs x).
  { destruct (Qlt_le_dec 0 (Qabs x)) as [|Hle]; [assumption|]. exfalso. apply Hy.
    rewrite <- H.
    destruct (Qlt_le_dec x 0) as [Hn|Hp].
    - rewrite Qabs_neg in Hle by lra. lra.
    - rewrite Qabs_pos in Hle by lra. lra. }
  rewrite (binade_comp _ _ Hpos Habs).
  assert (Er : round_to (binade (Qabs y) - 52) (Qabs x)
               = round_to (binade (Qabs y) - 52) (Qabs y)).
  { unfold round_to. f_equal. f_equal. apply round_half_even_comp. now rewrite Habs. }
  rewrite Er. now rewrite (Qltb_comp x y 0 H).
Qed.

(** Where the subtraction is exact, the distance computed is the distance. *)
Lemma float_dist_exact (q x : Q) : exact_diff q x -> float_dist q x == axis_dist q x.
Proof.
  unfold exact_diff, float_dist, axis_dist. intros H. now rewrite H.
Qed.

Lemma float_dist_comp (q q' x : Q) : q == q' -> float_dist q x = float_dist q' x.
Proof.
  intros H. unfold float_dist. f_equal. apply binary64_comp. now rewrite H.
Qed.

Lemma abs_diff_comp (a : list Q) (q q' : Q) : q == q' -> abs_diff a q = abs_diff a q'.
Proof.
  intros H. unfold abs_diff. apply map_ext. intros y. f_equal.
  apply binary64_comp. now rewrite H.
Qed.

(** ** The scan of [np.argmin] *)

Lemma lookup_snoc_inv {A} (pre : list A) (x : A) (k : nat) (v : A) :
  (pre ++ [x]) !! k = Some v ->
  ((k < length pre)%nat /\ pre !! k = Some v) \/ (k = length pre /\ v = x).
Proof.
  intros H. destruct (decide (k < length pre)%nat) as [Hlt|Hge].
  - left. split; [exact Hlt|]. now rewrite lookup_app_l in H.
  - right. rewrite lookup_app_r in H by lia.
    destruct (k - length pre)%nat as [|m] eqn:E; simpl in H.
    + split; [lia|congruence].
    + now rewrite lookup_nil in H.
Qed.

(** The invariant of the scan: [best] at [best_i] is the first least element
    of the part [pre] already seen. *)
Lemma argmin_from_first (l pre : list Q) (best_i : nat) (best : Q) :
  pre !! best_i = Some best ->
  (forall k v, pre !! k = Some v -> best <= v) ->
  (forall k v, pre !! k = Some v -> (k < best_i)%nat -> best < v) ->
  first_argmin (pre ++ l) (argmin_from best_i best (length pre) l).
Proof.
  revert pre best_i best.
  induction l as [|x l IH]; intros pre bi b Hb Hmin Hfirst; simpl.
  - rewrite app_nil_r. exists b. auto.
  - assert (Hbi : (bi < length pre)%nat) by (eapply lookup_lt_Some; eauto).
    replace (pre ++ x :: l) with ((pre ++ [x]) ++ l)
      by (rewrite <- app_assoc; reflexivity).
    replace (S (length pre)) with (length (pre ++ [x]))
      by (rewrite length_app; simpl; lia).
    destruct (Qltb x b) eqn:E.
    + apply Qltb_lt in E. apply IH.
      * rewrite lookup_app_r by lia. now rewrite Nat.sub_diag.
      * intros k v Hk. apply lookup_snoc_inv in Hk as [[_ Hk]|[_ ->]].
        -- apply Qlt_le_weak. eapply Qlt_le_trans; eauto.
        -- apply Qle_refl.
      * intros k v Hk Hlt. apply lookup_snoc_inv in Hk as [[_ Hk]|[-> _]].
        -- eapply Qlt_le_trans; eauto.
        -- lia.
    + apply Qltb_ge in E. apply IH.
      * now rewrite lookup_app_l.
      * intros k v Hk. apply lookup_snoc_inv in Hk as [[_ Hk]|[_ ->]]; eauto.
      * intros k v Hk Hlt. apply lookup_snoc_inv in Hk as [[_ Hk]|[-> _]].
        -- eauto.
        -- lia.
Qed.

Lemma np_argmin_first (a : list Q) :
  a <> [] -> exists r, np_argmin a = Ok r /\ first_argmin a r.
Proof.
  destruct a as [|x l]; [congruence|]. intros _.
  exists (argmin_from 0 x 1 l). split; [reflexivity|].
  apply (argmin_from_first l [x] 0 x).
  - reflexivity.
  - intros [|k] v Hk; simpl in Hk; [|now rewrite lookup_nil in Hk].
    injection Hk as <-. apply Qle_refl.
  - intros k v _ Hk. lia.
Qed.

Lemma np_argmin_Ok_first (a : list Q) (r : nat) :
  np_argmin a = Ok r -> first_argmin a r.
Proof.
  intros H. destruct a as [|x l]; [discriminate|].
  destruct (np_argmin_first (x :: l)) as (r' & Hr' & Hf); [congruence|].
  congruence.
Qed.

Lemma first_argmin_abs_diff (a : list Q) (q : Q) (r : nat) :
  first_argmin (abs_diff a q) r ->
  exists xr, a !! r = Some xr
    /\ (forall k x, a !! k = Some x -> float_dist q xr <= float_dist q x)
    /\ (forall k x, a !! k = Some x -> (k < r)%nat -> float_dist q xr < float_dist q x).
Proof.
  intros (vr & Hr & Hmin & Hfirst). unfold abs_diff in *.
  rewrite list_lookup_fmap in Hr.
  destruct (a !! r) as [xr|] eqn:Er; [|discriminate].
  simpl in Hr. injection Hr as <-.
  exists xr. split; [reflexivity|]. split.
  - intros k x Hk. apply (Hmin k). rewrite list_lookup_fmap, Hk. reflexivity.
  - intros k x Hk Hlt. apply (Hfirst k); [|exact Hlt].
    rewrite list_lookup_fmap, Hk. reflexivity.
Qed.

(** ** Grid Locator *)

Lemma find_nearest_grid_point_Ok (obs_lon obs_lat : Q)
    (model_lon model_lat : list Q) (i j : nat) :
  find_nearest_grid_point obs_lon obs_lat model_lon model_lat = Ok (i, j) ->
  np_argmin (abs_diff model_lon (wrap_lon obs_lon)) = Ok i
  /\ np_argmin (abs_diff model_lat obs_lat) = Ok j.
Proof.
  unfold find_nearest_grid_point. cbv zeta.
  destruct (np_argmin (abs_diff model_lon _)) as [i'|]; [|discriminate].
  destruct (np_argmin (abs_diff model_lat _)) as [j'|]; [|discriminate].
  simpl. intros H. injection H as -> ->. split; reflexivity.
Qed.

Lemma abs_diff_nonempty (a : list Q) (q : Q) : a <> [] -> abs_diff a q <> [].
Proof. destruct a; [congruence|discriminate]. Qed.

Lemma first_argmin_lt_length (a : list Q) (r : nat) :
  first_argmin a r -> (r < length a)%nat.
Proof. intros (vr & Hr & _). eapply lookup_lt_Some; eauto. Qed.

Lemma abs_diff_length (a : list Q) (q : Q) : length (abs_diff a q) = length a.
Proof. unfold abs_diff. apply length_map. Qed.

Lemma find_nearest_grid_point_empty
    (obs_lon obs_lat : Q) (model_lon model_lat : list Q) :
  model_lon = [] \/ model_lat = [] ->
  find_nearest_grid_point obs_lon obs_lat model_lon model_lat
  = Raise (ValueError "attempt to get argmin of an empty sequence").
Proof.
  intros [->| ->]; unfold find_nearest_grid_point; cbv zeta.
  - reflexivity.
  - destruct model_lon; reflexivity.
Qed.

Lemma find_nearest_grid_point_nonempty
    (obs_lon obs_lat : Q) (model_lon model_lat : list Q) (e : exn) :
  find_nearest_grid_point obs_lon obs_lat model_lon model_lat = Raise e ->
  model_lon = [] \/ model_lat = [].
Proof.
  intros He. destruct model_lon as [|x lon]; [now left|].
  destruct model_lat as [|y lat]; [now right|]. discriminate He.
Qed.

Lemma find_nearest_grid_point_bounds
    (obs_lon obs_lat : Q) (model_lon model_lat : list Q) (i j : nat) :
  find_nearest_grid_point obs_lon obs_lat model_lon model_lat = Ok (i, j) ->
  (i < length model_lon)%nat /\ (j < length model_lat)%nat.
Proof.
  intros H. apply find_nearest_grid_point_Ok in H as [Hi Hj].
  apply np_argmin_Ok_first, first_argmin_lt_length in Hi.
  apply np_argmin_Ok_first, first_argmin_lt_length in Hj.
  rewrite abs_diff_length in Hi, Hj. auto.
Qed.

(** C4: a negative query longitude is shifted by 360 before the search, so on
    any pair of axes the queries -10 and 350 (with the same latitude) resolve
    to the same index pair. *)
Theorem find_nearest_grid_point_wrap_around
    (obs_lat : Q) (model_lon model_lat : list Q) :
  (forall q i j,
      q < 0 ->
      find_nearest_grid_point q obs_lat model_lon model_lat = Ok (i, j) ->
      np_argmin (abs_diff model_lon (binary64 (q + 360))) = Ok i)
  /\ find_nearest_grid_point (-10) obs_lat model_lon model_lat
     = find_nearest_grid_point 350 obs_lat model_lon model_lat.
Proof.
  split.
  - intros q i j Hq H. apply find_nearest_grid_point_Ok in H as [H _].
    now rewrite (wrap_lon_neg q Hq) in H.
  - unfold find_nearest_grid_point. cbv zeta.
    rewrite (abs_diff_comp model_lon (wrap_lon (-10)) (wrap_lon 350));
      [reflexivity|]. vm_compute. reflexivity.
Qed.

Lemma find_nearest_grid_point_wrap_around_witness :
  np_argmin (abs_diff [0; 90; 180; 270; 340] (binary64 (-10 + 360))) = Ok 4%nat.
Proof.
  apply (proj1 (find_nearest_grid_point_wrap_around 0 [0; 90; 180; 270; 340] [0])
           (-10) 4%nat 0%nat); [reflexivity|vm_compute; reflexivity].
Defined.

(** The cell the scan returns on an axis: the first of those whose computed
    distance to the query is least; where every difference of the axis is
    exact, the first of those that are nearest to the query. *)
Lemma np_argmin_abs_diff (a : list Q) (q : Q) (r : nat) :
  np_argmin (abs_diff a q) = Ok r ->
  exists xr, a !! r = Some xr
    /\ (forall k x, a !! k = Some x ->
          float_dist q xr <= float_dist q x
          /\ (float_dist q x == float_dist q xr -> (r <= k)%nat))
    /\ (Forall (exact_diff q) a ->
        forall k x, a !! k = Some x ->
          axis_dist q xr <= axis_dist q x
          /\ (axis_dist q x == axis_dist q xr -> (r <= k)%nat)).
Proof.
  intros H.
  apply np_argmin_Ok_first, first_argmin_abs_diff in H as (xr & Hxr & Hmin & Hfirst).
  assert (Hf : forall k x, a !! k = Some x ->
             float_dist q xr <= float_dist q x
             /\ (float_dist q x == float_dist q xr -> (r <= k)%nat)).
  { intros k x Hk. split; [eauto|].
    intros Heq. destruct (decide (r <= k)%nat) as [|Hn]; [assumption|].
    exfalso. assert (Hlt : (k < r)%nat) by lia.
    specialize (Hfirst k x Hk Hlt). rewrite Heq in Hfirst.
    exact (Qlt_irrefl _ Hfirst). }
  exists xr. split; [exact Hxr|]. split; [exact Hf|].
  intros Hex k x Hk. rewrite Forall_forall in Hex.
  assert (Hxe : exact_diff q x) by (apply Hex; eapply list_elem_of_lookup_2; eauto).
  assert (Hre : exact_diff q xr) by (apply Hex; eapply list_elem_of_lookup_2; eauto).
  rewrite <- (float_dist_exact q x Hxe), <- (float_dist_exact q xr Hre).
  now apply Hf.
Qed.

(** C5 (as the code has it): on non-empty axes the locator returns an index
    pair, never an error; on each axis separately the cell it names
    minimises the distance to the (normalised) query as binary64 arithmetic
    computes it, that is the rounded difference.  Where the differences of
    an axis are exact this is the nearest cell of the axis.  The query
    (170, 40) on longitudes [0, 180] and latitudes [-45, 45] gives
    (1, 1). *)
Theorem find_nearest_grid_point_minimizes
    (obs_lon obs_lat : Q) (model_lon model_lat : list Q) :
  model_lon <> [] -> model_lat <> [] ->
  (exists i j xi yj,
      find_nearest_grid_point obs_lon obs_lat model_lon model_lat = Ok (i, j)
      /\ model_lon !! i = Some xi /\ model_lat !! j = Some yj
      /\ (forall k x, model_lon !! k = Some x ->
            float_dist (wrap_lon obs_lon) xi <= float_dist (wrap_lon obs_lon) x)
      /\ (forall k y, model_lat !! k = Some y ->
            float_dist obs_lat yj <= float_dist obs_lat y)
      /\ (Forall (exact_diff (wrap_lon obs_lon)) model_lon ->
          forall k x, model_lon !! k = Some x ->
            axis_dist (wrap_lon obs_lon) xi <= axis_dist (wrap_lon obs_lon) x)
      /\ (Forall (exact_diff obs_lat) model_lat ->
          forall k y, model_lat !! k = Some y ->
            axis_dist obs_lat yj <= axis_dist obs_lat y))
  /\ find_nearest_grid_point 170 40 [0; 180] [-45; 45] = Ok (1%nat, 1%nat).
Proof.
  intros Hlon Hlat. split; [|vm_compute; reflexivity].
  destruct (np_argmin_first (abs_diff model_lon (wrap_lon obs_lon)))
    as (i & Hi & _); [now apply abs_diff_nonempty|].
  destruct (np_argmin_first (abs_diff model_lat obs_lat))
    as (j & Hj & _); [now apply abs_diff_nonempty|].
  destruct (np_argmin_abs_diff _ _ _ Hi) as (xi & Hxi & Hfi & Hei).
  destruct (np_argmin_abs_diff _ _ _ Hj) as (yj & Hyj & Hfj & Hej).
  exists i, j, xi, yj. unfold find_nearest_grid_point. cbv zeta.
  rewrite Hi, Hj. simpl.
  split; [reflexivity|]. split; [exact Hxi|]. split; [exact Hyj|].
  split; [intros k x Hk; now apply (Hfi k x)|].
  split; [intros k y Hk; now apply (Hfj k y)|].
  split.
  - intros Hex k x Hk. now apply (Hei Hex k x).
  - intros Hex k y Hk. now apply (Hej Hex k y).
Qed.

Lemma find_nearest_grid_point_minimizes_witness :
  (exists i j xi yj,
      find_nearest_grid_point (-500) 2000 [0; 90; 180; 270] [-45; 45] = Ok (i, j)
      /\ [0; 90; 180; 270] !! i = Some xi /\ [-45; 45] !! j = Some yj
      /\ (forall k x, [0; 90; 180; 270] !! k = Some x ->
            float_dist (wrap_lon (-500)) xi <= float_dist (wrap_lon (-500)) x)
      /\ (forall k y, [-45; 45] !! k = Some y ->
            float_dist 2000 yj <= float_dist 2000 y)
      /\ (Forall (exact_diff (wrap_lon (-500))) [0; 90; 180; 270] ->
          forall k x, [0; 90; 180; 270] !! k = Some x ->
            axis_dist (wrap_lon (-500)) xi <= axis_dist (wrap_lon (-500)) x)
      /\ (Forall (exact_diff 2000) [-45; 45] ->
          forall k y, [-45; 45] !! k = Some y ->
            axis_dist 2000 yj <= axis_dist 2000 y))
  /\ find_nearest_grid_point 170 40 [0; 180] [-45; 45] = Ok (1%nat, 1%nat).
Proof.
  apply (find_nearest_grid_point_minimizes (-500) 2000 [0; 90; 180; 270] [-45; 45]);
    discriminate.
Defined.

(** C5 as the specification words it fails for a query far outside the grid: at
    latitude 10^18 the differences to -45 and to 45 round to the same float,
    the scan keeps the first, and the cell returned (latitude -45) is not
    the nearest (latitude 45). *)
Lemma find_nearest_grid_point_minimizes_counterexample :
  find_nearest_grid_point 0 1000000000000000000 [0] [-45; 45] = Ok (0%nat, 0%nat)
  /\ [-45; 45] !! 0%nat = Some (-45) /\ [-45; 45] !! 1%nat = Some 45
  /\ axis_dist 1000000000000000000 45 < axis_dist 1000000000000000000 (-45).
Proof.
  split; [vm_compute; reflexivity|]. split; [reflexivity|].
  split; [reflexivity|]. vm_compute. reflexivity.
Qed.

(** C10 (as the code has it): among the cells of an axis whose distance to
    the (normalised) query, as binary64 arithmetic computes it, is least,
    the locator returns the one of smallest index; where the differences of
    the axis are exact, the one of smallest index among the nearest
    cells. *)
Theorem find_nearest_grid_point_first_tie
    (obs_lon obs_lat : Q) (model_lon model_lat : list Q) (i j : nat) :
  find_nearest_grid_point obs_lon obs_lat model_lon model_lat = Ok (i, j) ->
  (exists xi, model_lon !! i = Some xi
     /\ (forall k x, model_lon !! k = Some x ->
          float_dist (wrap_lon obs_lon) xi <= float_dist (wrap_lon obs_lon) x
          /\ (float_dist (wrap_lon obs_lon) x == float_dist (wrap_lon obs_lon) xi ->
              (i <= k)%nat))
     /\ (Forall (exact_diff (wrap_lon obs_lon)) model_lon ->
         forall k x, model_lon !! k = Some x ->
          axis_dist (wrap_lon obs_lon) xi <= axis_dist (wrap_lon obs_lon) x
          /\ (axis_dist (wrap_lon obs_lon) x == axis_dist (wrap_lon obs_lon) xi ->
              (i <= k)%nat)))
  /\ (exists yj, model_lat !! j = Some yj
     /\ (forall k y, model_lat !! k = Some y ->
          float_dist obs_lat yj <= float_dist obs_lat y
          /\ (float_dist obs_lat y == float_dist obs_lat yj -> (j <= k)%nat))
     /\ (Forall (exact_diff obs_lat) model_lat ->
         forall k y, model_lat !! k = Some y ->
          axis_dist obs_lat yj <= axis_dist obs_lat y
          /\ (axis_dist obs_lat y == axis_dist obs_lat yj -> (j <= k)%nat))).
Proof.
  intros H. apply find_nearest_grid_point_Ok in H as [Hi Hj].
  split; eapply np_argmin_abs_diff; eassumption.
Qed.

Lemma find_nearest_grid_point_first_tie_witness :
  (exists xi, [0; 20; 40] !! 0%nat = Some xi
     /\ (forall k x, [0; 20; 40] !! k = Some x ->
          float_dist (wrap_lon 10) xi <= float_dist (wrap_lon 10) x
          /\ (float_dist (wrap_lon 10) x == float_dist (wrap_lon 10) xi ->
              (0 <= k)%nat))
     /\ (Forall (exact_diff (wrap_lon 10)) [0; 20; 40] ->
         forall k x, [0; 20; 40] !! k = Some x ->
          axis_dist (wrap_lon 10) xi <= axis_dist (wrap_lon 10) x
          /\ (axis_dist (wrap_lon 10) x == axis_dist (wrap_lon 10) xi ->
              (0 <= k)%nat)))
  /\ (exists yj, [30; 10; -10; 50] !! 1%nat = Some yj
     /\ (forall k y, [30; 10; -10; 50] !! k = Some y ->
          float_dist 0 yj <= float_dist 0 y
          /\ (float_dist 0 y == float_dist 0 yj -> (1 <= k)%nat))
     /\ (Forall (exact_diff 0) [30; 10; -10; 50] ->
         forall k y, [30; 10; -10; 50] !! k = Some y ->
          axis_dist 0 yj <= axis_dist 0 y
          /\ (axis_dist 0 y == axis_dist 0 yj -> (1 <= k)%nat))).
Proof.
  apply (find_nearest_grid_point_first_tie 10 0 [0; 20; 40] [30; 10; -10; 50] 0 1).
  vm_compute. reflexivity.
Defined.

(** C10 as the specification words it fails where rounding makes the tie: at
    latitude 10^18 the cells nearest to the query are those of index 1 and
    2 (latitude 45), and the locator returns index 0 (latitude -45), whose
    computed distance is the same float. *)
Lemma find_nearest_grid_point_first_tie_counterexample :
  find_nearest_grid_point 0 1000000000000000000 [0] [-45; 45; 45]
  = Ok (0%nat, 0%nat)
  /\ [-45; 45; 45] !! 0%nat = Some (-45)
  /\ [-45; 45; 45] !! 1%nat = Some 45 /\ [-45; 45; 45] !! 2%nat = Some 45
  /\ axis_dist 1000000000000000000 45 < axis_dist 1000000000000000000 (-45)
  /\ float_dist 1000000000000000000 45 == float_dist 1000000000000000000 (-45).
Proof.
  split; [vm_compute; reflexivity|]. do 3 (split; [reflexivity|]).
  split; vm_compute; reflexivity.
Qed.

(** ** Field Sampler *)

Lemma norm_index_in_range (k : Z) (dim : nat) :
  (0 <= k < Z.of_nat dim)%Z -> norm_index k dim = Ok (Z.to_nat k).
Proof.
  intros [H0 H1]. unfold norm_index.
  apply Z.leb_le in H0. apply Z.ltb_lt in H1. now rewrite H0, H1.
Qed.

Lemma norm_index_nat (k dim : nat) :
  (k < dim)%nat -> norm_index (Z.of_nat k) dim = Ok k.
Proof.
  intros H. rewrite norm_index_in_range by lia. now rewrite Nat2Z.id.
Qed.

(** A negative subscript counts from the end of the axis. *)
Lemma norm_index_negative (k : Z) (dim : nat) :
  (- Z.of_nat dim <= k < 0)%Z ->
  norm_index k dim = Ok (Z.to_nat (k + Z.of_nat dim)).
Proof.
  intros [H0 H1]. unfold norm_index.
  assert (E : (0 <=? k)%Z = false) by (apply Z.leb_gt; lia).
  rewrite E. simpl.
  apply Z.leb_le in H0. apply Z.ltb_lt in H1. now rewrite H0, H1.
Qed.

(** Both cases at once: a subscript in [-dim, dim) selects position
    [k mod dim]. *)
Lemma norm_index_mod (k : Z) (dim : nat) :
  (- Z.of_nat dim <= k < Z.of_nat dim)%Z ->
  norm_index k dim = Ok (Z.to_nat (k mod Z.of_nat dim)).
Proof.
  intros H. destruct (Z_lt_le_dec k 0) as [Hneg|Hpos].
  - rewrite norm_index_negative by lia. do 2 f_equal.
    rewrite <- (Z.mod_small (k + Z.of_nat dim) (Z.of_nat dim)) by lia.
    rewrite <- (Z.mul_1_l (Z.of_nat dim)) at 1.
    now rewrite Z.mod_add by lia.
  - rewrite norm_index_in_range by lia. now rewrite Z.mod_small by lia.
Qed.

Lemma norm_index_not_ValueError (k : Z) (dim : nat) (msg : string) :
  norm_index k dim <> Raise (ValueError msg).
Proof.
  unfold norm_index.
  destruct (_ && _); [discriminate|]. destruct (_ && _); discriminate.
Qed.

Lemma flat_offset_not_ValueError (idx : list Z) (shp : list nat) (acc : nat)
    (msg : string) :
  flat_offset acc idx shp <> Raise (ValueError msg).
Proof.
  revert shp acc. induction idx as [|k idx IH]; intros [|d shp] acc; simpl;
    try discriminate.
  destruct (norm_index k d) as [k'|e] eqn:E; simpl.
  - apply IH.
  - intros H. injection H as ->. exact (norm_index_not_ValueError _ _ _ E).
Qed.

Lemma getitem_not_ValueError (a : ndarray) (idx : list Z) (msg : string) :
  getitem a idx <> Raise (ValueError msg).
Proof.
  unfold getitem.
  destruct (flat_offset 0 idx (shape a)) as [off|e] eqn:E; simpl.
  - destruct (data a !! off); discriminate.
  - intros H. injection H as ->. exact (flat_offset_not_ValueError _ _ _ _ E).
Qed.

Lemma offset_step (a d k n : nat) :
  (a < n)%nat -> (k < d)%nat -> (a * d + k < n * d)%nat.
Proof. intros Ha Hk. nia. Qed.

(** The body of the loop, at a cell inside the array: it returns the element
    stored at row-major position [t, j, i] of a rank-3 field and at position
    [t, 0, j, i] of a rank-4 field (a negative time index counting from the
    end, as numpy subscripts do); it raises the configuration error
    ([ValueError]) exactly when the rank is neither 3 nor 4. *)
Lemma sample_value_spec
    (variable : string) (var_data : ndarray) (time_idx : Z) (i j : nat) :
  wf_ndarray var_data ->
  (forall T J I : nat,
      shape var_data = [T; J; I] ->
      (- Z.of_nat T <= time_idx < Z.of_nat T)%Z -> (j < J)%nat -> (i < I)%nat ->
      exists v,
        data var_data
          !! ((Z.to_nat (time_idx mod Z.of_nat T) * J + j) * I + i)%nat = Some v
        /\ sample_value variable var_data time_idx i j = Ok v)
  /\ (forall T L J I : nat,
      shape var_data = [T; L; J; I] ->
      (- Z.of_nat T <= time_idx < Z.of_nat T)%Z ->
      (0 < L)%nat -> (j < J)%nat -> (i < I)%nat ->
      exists v,
        data var_data
          !! (((Z.to_nat (time_idx mod Z.of_nat T) * L + 0) * J + j) * I + i)%nat
        = Some v
        /\ sample_value variable var_data time_idx i j = Ok v)
  /\ ((exists msg, sample_value variable var_data time_idx i j = Raise (ValueError msg))
      <-> (ndim var_data <> 3%nat /\ ndim var_data <> 4%nat)).
Proof.
  intros Hwf. unfold wf_ndarray in Hwf. split; [|split].
  - intros T J I Hs Ht Hj Hi.
    unfold sample_value, ndim, getitem. rewrite Hs in *. simpl in *.
    rewrite norm_index_mod by exact Ht. simpl.
    rewrite !norm_index_nat by assumption. simpl.
    set (t := Z.to_nat (time_idx mod Z.of_nat T)).
    assert (Hlt : ((t * J + j) * I + i < length (data var_data))%nat).
    { rewrite Hwf.
      assert (t < T)%nat
        by (pose proof (Z.mod_pos_bound time_idx (Z.of_nat T)); lia).
      replace (T * (J * (I * 1)))%nat with (T * J * I)%nat by lia.
      auto using offset_step. }
    destruct (lookup_lt_is_Some_2 _ _ Hlt) as [v Hv].
    exists v. rewrite Hv. split; reflexivity.
  - intros T L J I Hs Ht HL Hj Hi.
    unfold sample_value, ndim, getitem. rewrite Hs in *. simpl in *.
    rewrite norm_index_mod by exact Ht. simpl.
    rewrite (norm_index_in_range 0 L) by lia. simpl.
    rewrite !norm_index_nat by assumption. simpl.
    change (Z.to_nat 0) with 0%nat.
    set (t := Z.to_nat (time_idx mod Z.of_nat T)).
    assert (Hlt : ((((t * L + 0) * J + j) * I + i) < length (data var_data))%nat).
    { rewrite Hwf.
      assert (t < T)%nat
        by (pose proof (Z.mod_pos_bound time_idx (Z.of_nat T)); lia).
      replace (T * (L * (J * (I * 1))))%nat with (T * L * J * I)%nat by lia.
      auto using offset_step. }
    destruct (lookup_lt_is_Some_2 _ _ Hlt) as [v Hv].
    exists v. rewrite Hv. split; reflexivity.
  - unfold sample_value.
    destruct (decide (ndim var_data = 3%nat)) as [E3|N3].
    + split.
      * intros [msg H]. exfalso. exact (getitem_not_ValueError _ _ _ H).
      * intros [H _]. contradiction.
    + destruct (decide (ndim var_data = 4%nat)) as [E4|N4].
      * split.
        -- intros [msg H]. exfalso. exact (getitem_not_ValueError _ _ _ H).
        -- intros [_ H]. contradiction.
      * split; [auto|]. intros _. eexists. reflexivity.
Qed.

(** The loop of the sampler: one value per location, in order, each taken at
    the cell the Grid Locator names. *)
Lemma sample_loop_Ok (variable : string) (model_lon model_lat var_data : ndarray)
    (time_idx : Z) (locs : list (Q * Q)) (vals : list Q) :
  sample_loop variable model_lon model_lat var_data time_idx locs = Ok vals ->
  Forall2 (fun loc v => exists i j,
             find_nearest_grid_point loc.1 loc.2 (data model_lon) (data model_lat)
             = Ok (i, j)
             /\ sample_value variable var_data time_idx i j = Ok v) locs vals.
Proof.
  revert vals. induction locs as [|[lo la] locs IH]; intros vals H; simpl in H.
  - injection H as <-. constructor.
  - destruct (find_nearest_grid_point lo la _ _) as [[i j]|] eqn:Ef; [|discriminate].
    simpl in H.
    destruct (sample_value _ _ _ i j) as [v|] eqn:Ev; [|discriminate].
    simpl in H.
    destruct (sample_loop _ _ _ _ _ locs) as [rest|]; [|discriminate].
    simpl in H. injection H as <-.
    constructor; [|now apply IH]. exists i, j. auto.
Qed.

Lemma sample_nature_run_length (nature_data : gmap string ndarray)
    (obs_lons obs_lats : list Q) (variable : string) (time_idx : Z)
    (vals : list Q) :
  sample_nature_run nature_data obs_lons obs_lats variable time_idx = Ok vals ->
  length vals = length (combine obs_lons obs_lats).
Proof.
  unfold sample_nature_run.
  destruct (dict_get nature_data "lon") as [mlon|]; [|discriminate].
  destruct (dict_get nature_data "lat") as [mlat|]; [|discriminate].
  destruct (dict_get nature_data variable) as [vd|]; [|discriminate].
  simpl. intros H. apply sample_loop_Ok in H.
  symmetry. exact (Forall2_length _ _ _ H).
Qed.

(** With no location to sample the loop body never runs, so a field of any
    rank is accepted. *)
Lemma sample_nature_run_no_location (nature_data : gmap string ndarray)
    (variable : string) (time_idx : Z) (mlon mlat vd : ndarray) :
  nature_data !! "lon" = Some mlon -> nature_data !! "lat" = Some mlat ->
  nature_data !! variable = Some vd ->
  sample_nature_run nature_data [] [] variable time_idx = Ok [].
Proof.
  intros H1 H2 H3. unfold sample_nature_run, dict_get.
  now rewrite H1, H2, H3.
Qed.

(** The loop returns when its body does at every cell of the grid. *)
Lemma sample_loop_total (variable : string) (model_lon model_lat var_data : ndarray)
    (time_idx : Z) (P : nat -> nat -> Q -> Prop) (locs : list (Q * Q)) :
  data model_lon <> [] -> data model_lat <> [] ->
  (forall i j, (i < length (data model_lon))%nat -> (j < length (data model_lat))%nat ->
     exists v, P i j v /\ sample_value variable var_data time_idx i j = Ok v) ->
  exists vals,
    sample_loop variable model_lon model_lat var_data time_idx locs = Ok vals
    /\ Forall2 (fun loc v => exists i j,
                  find_nearest_grid_point loc.1 loc.2 (data model_lon) (data model_lat)
                  = Ok (i, j) /\ P i j v) locs vals.
Proof.
  intros Hne1 Hne2 Hbody. induction locs as [|[lo la] locs IH].
  - exists []. split; [reflexivity|constructor].
  - destruct IH as (rest & Hrest & Hall).
    destruct (find_nearest_grid_point lo la (data model_lon) (data model_lat))
      as [[i j]|e] eqn:Ef.
    2:{ exfalso.
        destruct (find_nearest_grid_point_nonempty _ _ _ _ _ Ef); contradiction. }
    destruct (find_nearest_grid_point_bounds _ _ _ _ _ _ Ef) as [Hi Hj].
    destruct (Hbody i j Hi Hj) as (v & Hv & Hsv).
    exists (v :: rest). split.
    + simpl. rewrite Ef. simpl. rewrite Hsv. simpl. rewrite Hrest. reflexivity.
    + constructor; [|exact Hall]. exists i, j. auto.
Qed.

Lemma sample_value_shape_error (variable : string) (var_data : ndarray)
    (time_idx : Z) (i j : nat) :
  sample_value variable var_data time_idx i j = Raise (shape_error variable var_data)
  <-> (ndim var_data <> 3%nat /\ ndim var_data <> 4%nat).
Proof.
  unfold sample_value, shape_error.
  destruct (decide (ndim var_data = 3%nat)) as [E3|N3].
  - split; [|intros [H _]; contradiction].
    intros H. exfalso. exact (getitem_not_ValueError _ _ _ H).
  - destruct (decide (ndim var_data = 4%nat)) as [E4|N4].
    + split; [|intros [_ H]; contradiction].
      intros H. exfalso. exact (getitem_not_ValueError _ _ _ H).
    + split; auto.
Qed.

(** The loop raises the configuration error exactly when its body is run
    (there is a location, and the locator finds a cell for it) on a field
    whose rank is neither 3 nor 4. *)
Lemma sample_loop_shape_error (variable : string)
    (model_lon model_lat var_data : ndarray) (time_idx : Z) (locs : list (Q * Q)) :
  sample_loop variable model_lon model_lat var_data time_idx locs
  = Raise (shape_error variable var_data)
  <-> (ndim var_data <> 3%nat /\ ndim var_data <> 4%nat /\ locs <> []
       /\ data model_lon <> [] /\ data model_lat <> []).
Proof.
  split.
  - induction locs as [|[lo la] locs IH]; [discriminate|]. simpl.
    destruct (find_nearest_grid_point lo la (data model_lon) (data model_lat))
      as [[i j]|e] eqn:Ef; simpl.
    + destruct (find_nearest_grid_point_bounds _ _ _ _ _ _ Ef) as [Hi Hj].
      assert (Hne1 : data model_lon <> []) by (intros E; rewrite E in Hi; simpl in Hi; lia).
      assert (Hne2 : data model_lat <> []) by (intros E; rewrite E in Hj; simpl in Hj; lia).
      destruct (sample_value variable var_data time_idx i j) as [v|e] eqn:Ev; simpl.
      * destruct (sample_loop _ _ _ _ _ locs) as [rest|e] eqn:Er; simpl;
          [discriminate|].
        intros H. injection H as ->.
        destruct (IH eq_refl) as (N3 & N4 & _). repeat split; auto; discriminate.
      * intros H. injection H as ->.
        apply sample_value_shape_error in Ev as [N3 N4].
        repeat split; auto; discriminate.
    + intros H. injection H as ->. exfalso.
      pose proof (find_nearest_grid_point_empty lo la _ _
                    (find_nearest_grid_point_nonempty _ _ _ _ _ Ef)) as Hm.
      rewrite Hm in Ef. unfold shape_error in Ef.
      discriminate Ef.
  - intros (N3 & N4 & Hlocs & Hne1 & Hne2).
    destruct locs as [|[lo la] locs]; [contradiction|]. simpl.
    destruct (find_nearest_grid_point lo la (data model_lon) (data model_lat))
      as [[i j]|e] eqn:Ef.
    2:{ exfalso.
        destruct (find_nearest_grid_point_nonempty _ _ _ _ _ Ef); contradiction. }
    simpl.
    rewrite (proj2 (sample_value_shape_error variable var_data time_idx i j)
               (conj N3 N4)).
    reflexivity.
Qed.

(** C7 (as the code has it): for each location the sampler reads the cell
    the Grid Locator names.  On a well-formed field whose last two extents
    are those of the (non-empty) latitude and longitude axes, with a time
    index in [-T, T), it returns one value per location: the element stored
    at [t, j, i] when the rank is 3 and at [t, 0, j, i] when the rank is 4.
    It raises the configuration error exactly when the rank is neither 3 nor
    4 and there is a location to sample and neither axis is empty: with no
    location it returns the empty vector whatever the rank, and on an empty
    axis the locator raises first. *)
Theorem sample_nature_run_spec
    (nature_data : gmap string ndarray) (obs_lons obs_lats : list Q)
    (variable : string) (time_idx : Z)
    (model_lon model_lat var_data : ndarray) :
  nature_data !! "lon" = Some model_lon ->
  nature_data !! "lat" = Some model_lat ->
  nature_data !! variable = Some var_data ->
  (forall T : nat,
      wf_ndarray var_data ->
      shape var_data = [T; length (data model_lat); length (data model_lon)] ->
      data model_lon <> [] -> data model_lat <> [] ->
      (- Z.of_nat T <= time_idx < Z.of_nat T)%Z ->
      exists vals,
        sample_nature_run nature_data obs_lons obs_lats variable time_idx = Ok vals
        /\ Forall2 (fun loc v =>
             exists i j,
               find_nearest_grid_point loc.1 loc.2 (data model_lon) (data model_lat)
               = Ok (i, j)
               /\ data var_data
                    !! ((Z.to_nat (time_idx mod Z.of_nat T)
                         * length (data model_lat) + j)
                        * length (data model_lon) + i)%nat = Some v)
             (combine obs_lons obs_lats) vals)
  /\ (forall T L : nat,
      wf_ndarray var_data ->
      shape var_data = [T; L; length (data model_lat); length (data model_lon)] ->
      (0 < L)%nat ->
      data model_lon <> [] -> data model_lat <> [] ->
      (- Z.of_nat T <= time_idx < Z.of_nat T)%Z ->
      exists vals,
        sample_nature_run nature_data obs_lons obs_lats variable time_idx = Ok vals
        /\ Forall2 (fun loc v =>
             exists i j,
               find_nearest_grid_point loc.1 loc.2 (data model_lon) (data model_lat)
               = Ok (i, j)
               /\ data var_data
                    !! (((Z.to_nat (time_idx mod Z.of_nat T) * L + 0)
                         * length (data model_lat) + j)
                        * length (data model_lon) + i)%nat = Some v)
             (combine obs_lons obs_lats) vals)
  /\ (sample_nature_run nature_data obs_lons obs_lats variable time_idx
      = Raise (shape_error variable var_data)
      <-> (ndim var_data <> 3%nat /\ ndim var_data <> 4%nat
           /\ combine obs_lons obs_lats <> []
           /\ data model_lon <> [] /\ data model_lat <> []))
  /\ (combine obs_lons obs_lats = [] ->
      sample_nature_run nature_data obs_lons obs_lats variable time_idx = Ok []).
Proof.
  intros Hlon Hlat Hvar.
  unfold sample_nature_run, dict_get. rewrite Hlon, Hlat, Hvar. cbn [rbind].
  split; [|split; [|split]].
  - intros T Hwf Hs Hne1 Hne2 Ht.
    apply sample_loop_total; [assumption|assumption|].
    intros i j Hi Hj.
    destruct (sample_value_spec variable var_data time_idx i j Hwf) as (H3 & _).
    destruct (H3 _ _ _ Hs Ht Hj Hi) as (v & Hv & Hsv). eauto.
  - intros T L Hwf Hs HL Hne1 Hne2 Ht.
    apply sample_loop_total; [assumption|assumption|].
    intros i j Hi Hj.
    destruct (sample_value_spec variable var_data time_idx i j Hwf) as (_ & H4 & _).
    destruct (H4 _ _ _ _ Hs Ht HL Hj Hi) as (v & Hv & Hsv). eauto.
  - apply sample_loop_shape_error.
  - intros ->. reflexivity.
Qed.

Lemma sample_nature_run_spec_witness :
  (exists vals,
     sample_nature_run sample_nature [10; 170] [40; -40] "pr" (-2) = Ok vals
     /\ Forall2 (fun loc v =>
          exists i j,
            find_nearest_grid_point loc.1 loc.2 [0; 180] [-45; 45] = Ok (i, j)
            /\ data field3 !! ((Z.to_nat (-2 mod Z.of_nat 5) * 2 + j) * 2 + i)%nat
               = Some v)
          (combine [10; 170] [40; -40]) vals)
  /\ (sample_nature_run sample_nature [10; 170] [40; -40] "pr" (-2)
      = Raise (shape_error "pr" field3)
      <-> (ndim field3 <> 3%nat /\ ndim field3 <> 4%nat
           /\ combine [10; 170] [40; -40] <> []
           /\ [0; 180] <> [] /\ [-45; 45] <> [])).
Proof.
  destruct (sample_nature_run_spec sample_nature [10; 170] [40; -40] "pr" (-2)
              (mk_ndarray [2%nat] [0; 180]) (mk_ndarray [2%nat] [-45; 45]) field3
              eq_refl eq_refl eq_refl) as (H3 & _ & Hcfg & _).
  split; [|exact Hcfg].
  apply (H3 5%nat); [reflexivity|reflexivity|discriminate|discriminate|lia].
Defined.

(** C7 as the specification words it fails in both directions: a field of rank 2 is
    accepted when there is no location to sample; a field of rank 3 on an
    empty longitude axis raises a [ValueError] (that of [np.argmin]); and a
    time index past the end of the time axis raises [IndexError] where the
    specification has a stored value returned. *)
Lemma sample_nature_run_spec_counterexample :
  ndim (mk_ndarray [2; 2]%nat (floats_upto 4)) = 2%nat
  /\ sample_nature_run rank2_nature [] [] "tas" 0 = Ok []
  /\ ndim field3 = 3%nat
  /\ sample_nature_run no_lon_nature [10] [40] "tas" 0
     = Raise (ValueError "attempt to get argmin of an empty sequence")
  /\ sample_nature_run sample_nature [10] [40] "tas" 7
     = Raise (IndexError "index is out of bounds for axis").
Proof. repeat split; vm_compute; reflexivity. Qed.

(** ** Noise Model *)

Section NoiseModel.

Context `{NR : NumpyRandom}.

Lemma normal_draws_length (loc : Q) (scales : list Q) (st : RandomState) :
  length (normal_draws loc scales st).1 = length scales.
Proof.
  revert st. induction scales as [|s scales IH]; intros st; simpl; [reflexivity|].
  destruct (standard_normal st) as [g st1].
  specialize (IH st1). destruct (normal_draws loc scales st1) as [l st2].
  simpl in *. now rewrite IH.
Qed.

(** Draw [k] of the array form is scaled by entry [k] of [scales]: the
    draws are as many as the scales and each comes from its own advance of
    the generator. *)
Lemma normal_draws_cons (loc s : Q) (scales : list Q) (st : RandomState) :
  normal_draws loc (s :: scales) st
  = ((loc + s * (standard_normal st).1)
       :: (normal_draws loc scales (standard_normal st).2).1,
     (normal_draws loc scales (standard_normal st).2).2).
Proof.
  simpl. destruct (standard_normal st) as [g st1]. simpl.
  now destruct (normal_draws loc scales st1).
Qed.

Lemma relative_scale_nonneg (values : list Q) :
  existsb (fun s => Qltb s 0) (map (fun v => 0.1 * Qabs v) values) = false.
Proof.
  induction values as [|v values IH]; simpl; [reflexivity|].
  rewrite IH, orb_false_r. apply Qltb_ge.
  apply Qmult_le_0_compat; [discriminate|apply Qabs_nonneg].
Qed.

(** The temperature branch: one float is drawn and added to every value. *)
Lemma add_observation_noise_tas (values : list Q) (w : World) :
  add_observation_noise values "tas" w
  = (Ok (map (fun v => v + (0 + 1 * (standard_normal (rng w)).1)) values,
         replicate (length values) 1),
     set_rng (standard_normal (rng w)).2 w).
Proof.
  unfold add_observation_noise, bind, ret, lift, np_random_normal, np_add.
  simpl. destruct (standard_normal (rng w)) as [g st]. reflexivity.
Qed.

(** The precipitation branch: one draw per value, each with its own scale. *)
Lemma add_observation_noise_pr (values : list Q) (w : World) :
  let scales := map (fun v => 0.1 * Qabs v) values in
  add_observation_noise values "pr" w
  = (Ok (zip_with Qplus values (normal_draws 0 scales (rng w)).1, scales),
     set_rng (normal_draws 0 scales (rng w)).2 w).
Proof.
  intros scales.
  unfold add_observation_noise, bind, ret, lift, np_random_normal, np_add.
  simpl. fold scales. unfold scales at 1. rewrite relative_scale_nonneg.
  pose proof (normal_draws_length 0 scales (rng w)) as Hlen.
  destruct (normal_draws 0 scales (rng w)) as [l st]. simpl in *.
  destruct (decide (length l = length values)) as [_|Hn]; [reflexivity|].
  exfalso. apply Hn. rewrite Hlen. unfold scales. now rewrite length_map.
Qed.

(** C1 (the temperature branch departs from it): for the tag 'tas' the
    generator is advanced once, whatever the number of observations, and the
    one draw obtained is added to every true value; the reported errors are
    all 1. *)
Theorem add_observation_noise_tas_shared_draw (values : list Q) (w : World) :
  exists noise : Q,
    noise = 0 + 1 * (standard_normal (rng w)).1
    /\ (add_observation_noise values "tas" w).1
       = Ok (map (fun v => v + noise) values, replicate (length values) 1)
    /\ rng (add_observation_noise values "tas" w).2 = (standard_normal (rng w)).2.
Proof.
  eexists. split; [reflexivity|].
  rewrite add_observation_noise_tas. split; reflexivity.
Qed.

(** C6: the reported errors are 1 for every observation of 'tas' and a
    tenth of the magnitude of each true value for 'pr'; a 'pr' true value of
    10 is reported with error 1 and a true value of 0 with error 0. *)
Theorem add_observation_noise_errors (values : list Q) (w : World) :
  (exists noisy w',
      add_observation_noise values "tas" w
      = (Ok (noisy, replicate (length values) 1), w'))
  /\ (exists noisy w',
      add_observation_noise values "pr" w
      = (Ok (noisy, map (fun v => 0.1 * Qabs v) values), w'))
  /\ (exists noisy e w',
      add_observation_noise [10] "pr" w = (Ok (noisy, [e]), w') /\ e == 1)
  /\ (exists noisy e w',
      add_observation_noise [0] "pr" w = (Ok (noisy, [e]), w') /\ e == 0).
Proof.
  split; [|split; [|split]].
  - rewrite add_observation_noise_tas. eauto.
  - rewrite add_observation_noise_pr. eauto.
  - rewrite add_observation_noise_pr. do 3 eexists. split; reflexivity.
  - rewrite add_observation_noise_pr. do 3 eexists. split; reflexivity.
Qed.

End NoiseModel.

(** ** Network Sampler *)

Section NetworkSampler.

Context `{NR : NumpyRandom}.

Lemma uniform_draws_length (low high : Q) (n : nat) (st : RandomState) :
  length (uniform_draws low high n st).1 = n.
Proof.
  revert st. induction n as [|n IH]; intros st; simpl; [reflexivity|].
  destruct (random_sample st) as [u st1].
  specialize (IH st1). destruct (uniform_draws low high n st1) as [l st2].
  simpl in *. now rewrite IH.
Qed.

(** A seeded call replaces the state of the generator before it draws:
    what it returns, and the state it leaves, are functions of its
    arguments alone. *)
Lemma generate_random_locations_seeded
    (n_obs : Z) (lon_range lat_range : Q * Q) (seed : Z) (w : World) :
  generate_random_locations n_obs lon_range lat_range (Some seed) w
  = if (0 <=? seed)%Z && (seed <? 2 ^ 32)%Z then
      if (n_obs <? 0)%Z then
        (Raise (ValueError "negative dimensions are not allowed"),
         set_rng (seed_state seed) w)
      else
        let d1 := uniform_draws lon_range.1 lon_range.2 (Z.to_nat n_obs)
                    (seed_state seed) in
        let d2 := uniform_draws lat_range.1 lat_range.2 (Z.to_nat n_obs) d1.2 in
        (Ok (d1.1, d2.1), set_rng d2.2 w)
    else (Raise (ValueError "Seed must be between 0 and 2**32 - 1"), w).
Proof.
  unfold generate_random_locations, bind, ret, np_random_seed, np_random_uniform.
  destruct ((0 <=? seed)%Z && (seed <? 2 ^ 32)%Z); [|reflexivity].
  destruct (n_obs <? 0)%Z; [reflexivity|]. simpl.
  destruct (uniform_draws _ _ _ (seed_state seed)) as [l1 st1]. simpl.
  destruct (uniform_draws _ _ _ st1) as [l2 st2]. reflexivity.
Qed.

Lemma generate_random_locations_deterministic
    (n_obs : Z) (lon_range lat_range : Q * Q) (seed : Z) (w1 w2 : World) :
  (generate_random_locations n_obs lon_range lat_range (Some seed) w1).1
  = (generate_random_locations n_obs lon_range lat_range (Some seed) w2).1.
Proof.
  rewrite !generate_random_locations_seeded.
  destruct (_ && _); [|reflexivity]. destruct (n_obs <? 0)%Z; reflexivity.
Qed.

(** With a seed numpy accepts and a count that is not negative, the call
    returns [n_obs] longitudes and as many latitudes. *)
Lemma generate_random_locations_returns
    (n_obs : Z) (lon_range lat_range : Q * Q) (seed : Z) (w : World) :
  (0 <= seed < 2 ^ 32)%Z -> (0 <= n_obs)%Z ->
  exists lons lats,
    (generate_random_locations n_obs lon_range lat_range (Some seed) w).1
    = Ok (lons, lats)
    /\ length lons = Z.to_nat n_obs /\ length lats = Z.to_nat n_obs.
Proof.
  intros [Hs0 Hs1] Hn. rewrite generate_random_locations_seeded.
  apply Z.leb_le in Hs0. apply Z.ltb_lt in Hs1. rewrite Hs0, Hs1. simpl.
  assert (E : (n_obs <? 0)%Z = false) by (apply Z.ltb_ge; exact Hn).
  rewrite E. do 2 eexists. split; [reflexivity|].
  split; apply uniform_draws_length.
Qed.

Lemma year_networks_deterministic
    (n_obs_tas n_obs_pr : Z) (lon_range lat_range : Q * Q) (year : Z)
    (w1 w2 : World) :
  (year_networks n_obs_tas n_obs_pr lon_range lat_range year w1).1
  = (year_networks n_obs_tas n_obs_pr lon_range lat_range year w2).1.
Proof.
  unfold year_networks, bind, ret.
  rewrite !generate_random_locations_seeded.
  destruct ((0 <=? year * 2)%Z && _); [|reflexivity].
  destruct (n_obs_tas <? 0)%Z; [reflexivity|]. cbv beta iota zeta.
  rewrite !generate_random_locations_seeded.
  destruct ((0 <=? year * 2 + 1)%Z && _); [|reflexivity].
  destruct (n_obs_pr <? 0)%Z; reflexivity.
Qed.

(** C3: a seeded call of the sampler returns the same longitudes and
    latitudes whatever the state of the generator it starts from; the driver
    seeds the temperature network of a year with 2*year and the
    precipitation network with 2*year+1, so the networks of a year do not
    depend on the state the generator was left in. *)
Theorem generate_random_locations_reproducible
    (n_obs n_obs_tas n_obs_pr : Z) (lon_range lat_range : Q * Q)
    (seed year : Z) (w1 w2 : World) :
  (generate_random_locations n_obs lon_range lat_range (Some seed) w1).1
  = (generate_random_locations n_obs lon_range lat_range (Some seed) w2).1
  /\ (year_networks n_obs_tas n_obs_pr lon_range lat_range year w1).1
     = (year_networks n_obs_tas n_obs_pr lon_range lat_range year w2).1
  /\ year_networks n_obs_tas n_obs_pr lon_range lat_range year w1
     = bind (generate_random_locations n_obs_tas lon_range lat_range
               (Some (2 * year)%Z))
         (fun tas_locs =>
            bind (generate_random_locations n_obs_pr lon_range lat_range
                    (Some (2 * year + 1)%Z))
              (fun pr_locs => ret (tas_locs, pr_locs))) w1.
Proof.
  split; [apply generate_random_locations_deterministic|].
  split; [apply year_networks_deterministic|].
  unfold year_networks. now rewrite (Z.mul_comm year 2).
Qed.

End NetworkSampler.

(** ** Texts and their lines *)

Lemma str_app_assoc (a b c : string) :
  ((a ++ b) ++ c = a ++ (b ++ c))%string.
Proof.
  induction a as [|x a IH]; [reflexivity|].
  rewrite !str_app_cons. now rewrite IH.
Qed.

Lemma str_app_nil_r (a : string) : (a ++ "" = a)%string.
Proof.
  induction a as [|x a IH]; [reflexivity|].
  rewrite str_app_cons. now rewrite IH.
Qed.

Lemma no_newline_app (a b : string) :
  no_newline (a ++ b) <-> no_newline a /\ no_newline b.
Proof.
  induction a as [|x a IH]; [rewrite str_app_nil_l; simpl; tauto|].
  rewrite str_app_cons. simpl. rewrite IH. tauto.
Qed.

(** A literal with no newline in it. *)
Ltac no_newline_literal :=
  simpl; repeat (split; [discriminate|]); exact I.

Lemma no_newline_replicate (n : nat) (c : ascii) :
  c <> newline -> no_newline (replicate_char n c).
Proof. intros Hc. induction n as [|n IH]; simpl; auto. Qed.

Lemma no_newline_rjust (width : nat) (fill : ascii) (s : string) :
  fill <> newline -> no_newline s -> no_newline (rjust width fill s).
Proof.
  intros Hf Hs. unfold rjust. apply no_newline_app.
  split; [now apply no_newline_replicate|exact Hs].
Qed.

Lemma no_newline_ljust (width : nat) (fill : ascii) (s : string) :
  fill <> newline -> no_newline s -> no_newline (ljust width fill s).
Proof.
  intros Hf Hs. unfold ljust. apply no_newline_app.
  split; [exact Hs|now apply no_newline_replicate].
Qed.

Lemma no_newline_uint (d : Decimal.uint) :
  no_newline (NilEmpty.string_of_uint d).
Proof.
  induction d; simpl; try (split; [discriminate|assumption]); exact I.
Qed.

Lemma no_newline_str_of_Z (n : Z) : no_newline (str_of_Z n).
Proof.
  unfold str_of_Z, NilZero.string_of_int, NilZero.string_of_uint.
  destruct (Z.to_int n) as [d|d].
  - destruct d; try apply no_newline_uint. simpl. split; [discriminate|exact I].
  - split; [discriminate|].
    destruct d; try apply no_newline_uint. simpl. split; [discriminate|exact I].
Qed.

Lemma no_newline_fmt_d (width : nat) (n : Z) : no_newline (fmt_d width n).
Proof.
  unfold fmt_d. apply no_newline_rjust; [discriminate|apply no_newline_str_of_Z].
Qed.

Lemma no_newline_fmt_0d (width : nat) (n : Z) : no_newline (fmt_0d width n).
Proof.
  unfold fmt_0d. destruct (n <? 0)%Z.
  - split; [discriminate|].
    apply no_newline_rjust; [discriminate|apply no_newline_str_of_Z].
  - apply no_newline_rjust; [discriminate|apply no_newline_str_of_Z].
Qed.

Lemma no_newline_fixed_digits (prec : nat) (x : Q) :
  no_newline (fixed_digits prec x).
Proof.
  unfold fixed_digits. cbv zeta.
  assert (Hs : no_newline (if Qltb x 0 then "-" else "")).
  { destruct (Qltb x 0); simpl; [split; [discriminate|exact I]|exact I]. }
  destruct prec as [|p].
  - apply no_newline_app. split; [exact Hs|apply no_newline_str_of_Z].
  - apply no_newline_app. split; [exact Hs|].
    apply no_newline_app. split; [apply no_newline_str_of_Z|].
    split; [discriminate|].
    apply no_newline_rjust; [discriminate|apply no_newline_str_of_Z].
Qed.

Lemma no_newline_fmt_f (width prec : nat) (x : Q) :
  no_newline (fmt_f width prec x).
Proof.
  unfold fmt_f. apply no_newline_rjust; [discriminate|apply no_newline_fixed_digits].
Qed.

Lemma no_newline_fmt_s (width : nat) (s : string) :
  no_newline s -> no_newline (fmt_s width s).
Proof. intros H. unfold fmt_s. now apply no_newline_ljust. Qed.

Lemma no_newline_strftime (t : datetime) : no_newline (strftime t).
Proof.
  unfold strftime.
  repeat (apply no_newline_app; split;
          [first [apply no_newline_fmt_0d | (split; [discriminate|exact I])]|]).
  apply no_newline_fmt_0d.
Qed.

Lemma no_newline_pdaf_fields (row : obs_row) :
  no_newline (row_variable row) -> no_newline (pdaf_fields row).
Proof.
  intros Hv. unfold pdaf_fields.
  repeat (apply no_newline_app; split;
          [first [apply no_newline_fmt_d | apply no_newline_fmt_f
                 | now apply no_newline_fmt_s
                 | (split; [discriminate|exact I])]|]).
  apply no_newline_fmt_f.
Qed.

Lemma pdaf_line_fields (row : obs_row) :
  pdaf_line row = (pdaf_fields row ++ nl)%string.
Proof.
  unfold pdaf_line, pdaf_fields. now rewrite !str_app_assoc.
Qed.

(** A line that holds no newline is read back as it was written. *)
Lemma lines_from_line (l cur rest : string) :
  no_newline l ->
  lines_from cur (l ++ String newline rest) = (cur ++ l)%string :: lines_from "" rest.
Proof.
  revert cur. induction l as [|c l IH]; intros cur Hl.
  - rewrite str_app_nil_l, str_app_nil_r. reflexivity.
  - destruct Hl as [Hc Hl]. rewrite str_app_cons. simpl.
    destruct (Ascii.eqb c newline) eqn:E.
    + apply Ascii.eqb_eq in E. contradiction.
    + rewrite IH by exact Hl. now rewrite str_app_assoc.
Qed.

Lemma lines_line (l rest : string) :
  no_newline l -> lines (l ++ nl ++ rest) = l :: lines rest.
Proof.
  intros Hl. unfold lines, nl. rewrite str_app_cons, str_app_nil_l.
  now rewrite lines_from_line.
Qed.

Lemma lines_data (rows : list obs_row) :
  Forall (fun row => no_newline (row_variable row)) rows ->
  lines (join_all (map pdaf_line rows)) = map pdaf_fields rows.
Proof.
  induction 1 as [|row rows Hrow _ IH]; [reflexivity|].
  simpl. rewrite pdaf_line_fields, str_app_assoc.
  rewrite lines_line by now apply no_newline_pdaf_fields.
  now rewrite IH.
Qed.

(** ** Path names and their components *)

Lemma split_slash_nonempty (cur s : string) : split_slash cur s <> [].
Proof.
  revert cur. induction s as [|c s IH]; intros cur; simpl; [discriminate|].
  destruct (Ascii.eqb c "/"); [discriminate|apply IH].
Qed.

Lemma split_slash_app_slash (a b cur : string) :
  split_slash cur (a ++ String "/" b) = split_slash cur a ++ split_slash "" b.
Proof.
  revert cur. induction a as [|c a IH]; intros cur.
  - reflexivity.
  - rewrite str_app_cons. simpl. destruct (Ascii.eqb c "/").
    + now rewrite IH.
    + apply IH.
Qed.

Lemma split_slash_plain (n cur : string) :
  no_slash n -> split_slash cur n = [(cur ++ n)%string].
Proof.
  revert cur. induction n as [|c n IH]; intros cur Hn.
  - simpl. now rewrite str_app_nil_r.
  - destruct Hn as [Hc Hn]. simpl.
    destruct (Ascii.eqb c "/") eqn:E; [apply Ascii.eqb_eq in E; contradiction|].
    rewrite IH by exact Hn. now rewrite str_app_assoc.
Qed.

Lemma split_slash_app_plain (a b cur : string) :
  no_slash b ->
  split_slash cur (a ++ b)
  = removelast (split_slash cur a) ++ [(List.last (split_slash cur a) "" ++ b)%string].
Proof.
  intros Hb. revert cur. induction a as [|c a IH]; intros cur.
  - rewrite str_app_nil_l. simpl. now apply split_slash_plain.
  - rewrite str_app_cons. simpl. destruct (Ascii.eqb c "/").
    + rewrite IH. pose proof (split_slash_nonempty "" a) as Hne.
      destruct (split_slash "" a) as [|x l]; [contradiction|]. reflexivity.
    + apply IH.
Qed.

(** A text that ends with a slash. *)
Lemma ends_with_slash (a : string) :
  String.eqb (String.substring (String.length a - 1) 1 a) "/" = true ->
  exists a', a = (a' ++ "/")%string.
Proof.
  induction a as [|c a IH]; [discriminate|].
  destruct a as [|c' a].
  - simpl. intros H. destruct (Ascii.eqb c "/") eqn:E; [|discriminate].
    apply Ascii.eqb_eq in E. subst c. now exists "".
  - intros H.
    replace (String.length (String c (String c' a)) - 1)%nat
      with (S (String.length (String c' a) - 1)) in H by (simpl; lia).
    cbn [String.substring] in H. destruct (IH H) as [a' Ha'].
    exists (String c a'). rewrite str_app_cons. now rewrite <- Ha'.
Qed.

Lemma plain_name_no_prefix (n : string) : plain_name n -> String.prefix "/" n = false.
Proof.
  intros (Hne & Hs & _). destruct n as [|c n]; [contradiction|].
  destruct Hs as [Hc _].
  change (String.prefix "/" (String c n))
    with (if Ascii.ascii_dec "/" c then String.prefix "" n else false).
  destruct (Ascii.ascii_dec "/" c) as [E|E]; [congruence|reflexivity].
Qed.

(** The components of a joined name: those of the directory, then the
    name. *)
Lemma components_join (d n : string) :
  plain_name n -> d <> "" ->
  exists cs, components (os_path_join d n) = cs ++ [n]
    /\ (components d = cs \/ components d = cs ++ [""]).
Proof.
  intros Hn Hd. unfold os_path_join.
  rewrite (plain_name_no_prefix n Hn).
  destruct (decide (d = "")) as [|_]; [contradiction|].
  destruct Hn as (_ & Hs & _).
  destruct (String.eqb _ "/") eqn:E.
  - apply ends_with_slash in E as [d' ->].
    assert (Hc : components (d' ++ "/") = components d' ++ [""]).
    { unfold components. now rewrite split_slash_app_slash. }
    exists (components d'). split; [|now right].
    unfold components at 1. rewrite split_slash_app_plain by exact Hs.
    fold (components (d' ++ "/")). rewrite Hc.
    rewrite removelast_last, last_last. reflexivity.
  - exists (components d). split; [|now left].
    unfold components. rewrite (str_app_cons "/" "" n), str_app_nil_l.
    rewrite split_slash_app_slash.
    now rewrite (split_slash_plain n "") by exact Hs.
Qed.

Lemma components_join_empty (n : string) :
  plain_name n -> components (os_path_join "" n) = [n].
Proof.
  intros Hn. unfold os_path_join. rewrite (plain_name_no_prefix n Hn).
  destruct (decide ("" = "")) as [_|]; [|congruence].
  destruct Hn as (_ & Hs & _). unfold components. now rewrite split_slash_plain.
Qed.

Lemma last_components_join (d n : string) :
  plain_name n -> List.last (components (os_path_join d n)) "" = n.
Proof.
  intros Hn. destruct (decide (d = "")) as [->|Hd].
  - now rewrite components_join_empty.
  - destruct (components_join d n Hn Hd) as (cs & -> & _). apply last_last.
Qed.

Lemma drop_trailing_empty_snoc (cs : list string) (n : string) :
  n <> "" -> drop_trailing_empty (cs ++ [n]) = cs ++ [n].
Proof.
  intros Hn. induction cs as [|c cs IH]; simpl.
  - destruct (String.eqb n "") eqn:E; [apply String.eqb_eq in E; contradiction|].
    reflexivity.
  - rewrite IH. destruct (cs ++ [n]) eqn:E; [|reflexivity].
    now apply app_eq_nil in E as [_ E].
Qed.

(** ** Path resolution *)

Section FileSystem.

Context `{NR : NumpyRandom}.

Lemma same_tree_refl (w : World) : same_tree w w.
Proof. split; reflexivity. Qed.

Lemma same_tree_sym (w1 w2 : World) : same_tree w1 w2 -> same_tree w2 w1.
Proof. intros [H1 H2]. split; congruence. Qed.

Lemma same_tree_trans (w1 w2 w3 : World) :
  same_tree w1 w2 -> same_tree w2 w3 -> same_tree w1 w3.
Proof. intros [H1 H2] [H3 H4]. split; congruence. Qed.

Lemma same_tree_set_files (fs : gmap path content) (w : World) :
  same_tree w (set_files fs w).
Proof. split; reflexivity. Qed.

Lemma same_tree_set_rng (st : RandomState) (w : World) :
  same_tree w (set_rng st w).
Proof. split; reflexivity. Qed.

Lemma is_dir_same_tree (w1 w2 : World) (p : path) :
  same_tree w1 w2 -> is_dir w1 p = is_dir w2 p.
Proof. intros [_ H]. unfold is_dir. now rewrite H. Qed.

(** A step that succeeds names a directory: it does not depend on the
    regular files, nor on the name that an error would report. *)
Lemma lookup_dir_Ok_ext (n1 n2 : string) (w1 w2 : World) (cur p : path)
    (c : string) :
  same_tree w1 w2 ->
  lookup_dir n1 w1 cur c = Ok p -> lookup_dir n2 w2 cur c = Ok p.
Proof.
  intros Ht. unfold lookup_dir.
  destruct (String.eqb c "" || String.eqb c "."); [auto|].
  destruct (String.eqb c ".."); [auto|].
  rewrite (is_dir_same_tree w1 w2 _ Ht).
  destruct (is_dir w2 (cur ++ [c])); [auto|].
  destruct (is_file w1 (cur ++ [c])); discriminate.
Qed.

Lemma walk_Ok_ext (n1 n2 : string) (w1 w2 : World) (cs : list string)
    (cur p : path) :
  same_tree w1 w2 -> walk n1 w1 cur cs = Ok p -> walk n2 w2 cur cs = Ok p.
Proof.
  intros Ht. revert cur. induction cs as [|c cs IH]; intros cur; simpl; [auto|].
  destruct (lookup_dir n1 w1 cur c) as [nxt|e] eqn:E; [|discriminate].
  rewrite (lookup_dir_Ok_ext n1 n2 w1 w2 _ _ _ Ht E). simpl. apply IH.
Qed.

Lemma walk_app (name : string) (w : World) (cur : path) (xs ys : list string) :
  walk name w cur (xs ++ ys)
  = (let? p := walk name w cur xs in walk name w p ys)%res.
Proof.
  revert cur. induction xs as [|c xs IH]; intros cur; simpl; [reflexivity|].
  destruct (lookup_dir name w cur c) as [nxt|e]; simpl; [apply IH|reflexivity].
Qed.

Lemma lookup_dir_empty (name : string) (w : World) (cur : path) :
  lookup_dir name w cur "" = Ok cur.
Proof. reflexivity. Qed.

(** The empty components that trailing slashes leave change nothing. *)
Lemma walk_drop_trailing_empty (name : string) (w : World) (cs : list string)
    (cur : path) :
  walk name w cur (drop_trailing_empty cs) = walk name w cur cs.
Proof.
  revert cur. induction cs as [|c cs IH]; intros cur; [reflexivity|].
  cbn [drop_trailing_empty walk].
  destruct (drop_trailing_empty cs) as [|r rs] eqn:E.
  - destruct (String.eqb c "") eqn:Ec.
    + apply String.eqb_eq in Ec. subst c. rewrite lookup_dir_empty. simpl.
      rewrite <- IH. reflexivity.
    + simpl. destruct (lookup_dir name w cur c) as [nxt|e]; simpl; [|reflexivity].
      rewrite <- IH. reflexivity.
  - cbn [walk]. destruct (lookup_dir name w cur c) as [nxt|e]; simpl; [|reflexivity].
    apply IH.
Qed.

Lemma drop_trailing_empty_last (cs : list string) :
  drop_trailing_empty cs <> [] -> List.last (drop_trailing_empty cs) "" <> "".
Proof.
  induction cs as [|c cs IH]; [intros H; now destruct H|].
  cbn [drop_trailing_empty].
  destruct (drop_trailing_empty cs) as [|r rs] eqn:E.
  - destruct (String.eqb c "") eqn:Ec; [intros H; now destruct H|].
    intros _. simpl. intros ->. discriminate.
  - intros _. change (List.last (c :: r :: rs) "") with (List.last (r :: rs) "").
    apply IH. discriminate.
Qed.

(** A name all of whose components are directories is a directory. *)
Lemma os_stat_walk (name : string) (w : World) (p : path) :
  name <> "" ->
  walk name w (start w name) (components name) = Ok p ->
  isdir w name.
Proof.
  intros Hne Hw. unfold isdir, os_stat.
  destruct (String.eqb name "") eqn:E; [apply String.eqb_eq in E; contradiction|].
  cbv zeta. rewrite <- walk_drop_trailing_empty in Hw.
  pose proof (drop_trailing_empty_last (components name)) as Hlast.
  destruct (drop_trailing_empty (components name)) as [|c cs] eqn:Ed; [reflexivity|].
  specialize (Hlast ltac:(discriminate)).
  rewrite (app_removelast_last "" (l := c :: cs)) in Hw by discriminate.
  rewrite walk_app in Hw.
  destruct (walk name w (start w name) (removelast (c :: cs))) as [q|e];
    [|discriminate]. cbn [rbind] in Hw |- *.
  set (l := List.last (c :: cs) "") in *. cbn [walk rbind] in Hw.
  unfold lookup_dir, dot_name in *.
  destruct (String.eqb l "") eqn:E0; [apply String.eqb_eq in E0; contradiction|].
  destruct (String.eqb l "."); [reflexivity|]. cbn [orb] in Hw |- *.
  destruct (String.eqb l ".."); [reflexivity|]. cbn [orb].
  destruct (is_dir w (q ++ [l])); [reflexivity|].
  destruct (is_file w (q ++ [l])); discriminate.
Qed.

Lemma prefix_empty (s : string) : String.prefix "" s = true.
Proof. now destruct s. Qed.

Lemma prefix_slash_app (c : ascii) (d x : string) :
  String.prefix "/" (String c d ++ x) = String.prefix "/" (String c d).
Proof.
  rewrite str_app_cons.
  change (String.prefix "/" (String c ?y))
    with (if Ascii.ascii_dec "/" c then String.prefix "" y else false).
  destruct (Ascii.ascii_dec "/" c); [|reflexivity].
  now rewrite !prefix_empty.
Qed.

Lemma start_join (w : World) (d n : string) :
  plain_name n -> d <> "" -> start w (os_path_join d n) = start w d.
Proof.
  intros Hn Hd. unfold start, os_path_join.
  rewrite (plain_name_no_prefix n Hn).
  destruct (decide (d = "")) as [|_]; [contradiction|].
  destruct d as [|c d]; [contradiction|].
  destruct (String.eqb _ "/"); now rewrite prefix_slash_app.
Qed.

(** ** Opening a file *)

Lemma open_w_cases (name : string) (w : World) :
  (exists e, open_w name w = (Raise e, w) /\ file_place w name = None)
  \/ (exists p,
        open_w name w = (Ok p, set_files (<[p := Text ""]> (files w)) w)
        /\ file_place w name = Some p).
Proof.
  unfold file_place, open_w.
  destruct (String.eqb name ""); [left; eauto|]. cbv zeta.
  destruct (decide _) as [_|_].
  - destruct (walk _ _ _ _) as [p|e]; [|left; eauto].
    destruct (_ || _); [left; eauto|right; eauto].
  - destruct (walk _ _ _ _) as [p|e]; left; eauto.
Qed.

Lemma open_w_Ok (name : string) (w w' : World) (p : path) :
  open_w name w = (Ok p, w') ->
  file_place w name = Some p /\ w' = set_files (<[p := Text ""]> (files w)) w.
Proof.
  intros H. destruct (open_w_cases name w) as [(e & He & _)|(q & Hq & Hp)];
    rewrite H in *; [discriminate|].
  injection Hq as -> ->. auto.
Qed.

Lemma open_w_Raise (name : string) (w w' : World) (e : exn) :
  open_w name w = (Raise e, w') -> file_place w name = None /\ w' = w.
Proof.
  intros H. destruct (open_w_cases name w) as [(e' & He & Hn)|(q & Hq & _)];
    rewrite H in *; [|discriminate].
  injection He as _ ->. auto.
Qed.

Lemma file_place_open (name : string) (w : World) (p : path) :
  file_place w name = Some p ->
  open_w name w = (Ok p, set_files (<[p := Text ""]> (files w)) w).
Proof.
  intros H. destruct (open_w_cases name w) as [(e & _ & Hn)|(q & Hq & Hp)];
    [congruence|]. rewrite Hp in H. injection H as ->. exact Hq.
Qed.

Lemma file_place_refused (name : string) (w : World) :
  file_place w name = None -> exists e, open_w name w = (Raise e, w).
Proof.
  intros H. destruct (open_w_cases name w) as [(e & He & _)|(q & _ & Hp)];
    [eauto|congruence].
Qed.

(** Where the file is: in the directory that the components before the
    last name, under the last component of the name. *)
Lemma file_place_inv (name : string) (w : World) (p : path) :
  file_place w name = Some p ->
  name <> ""
  /\ exists d,
       walk name w (start w name) (removelast (components name)) = Ok d
       /\ p = d ++ [List.last (components name) ""]
       /\ is_dir w p = false.
Proof.
  unfold file_place, open_w.
  destruct (String.eqb name "") eqn:E; [discriminate|]. cbv zeta.
  split; [intros ->; discriminate|].
  destruct (decide _) as [_|_].
  - destruct (walk _ _ _ _) as [d|e]; [|discriminate].
    destruct (dot_name _); [discriminate|]. cbn [orb] in H.
    destruct (is_dir w _) eqn:Ed; [discriminate|].
    injection H as <-. eauto.
  - destruct (walk _ _ _ _) as [d|e]; discriminate.
Qed.

Lemma file_place_mono (name : string) (w1 w2 : World) (p : path) :
  same_tree w1 w2 -> file_place w1 name = Some p -> file_place w2 name = Some p.
Proof.
  intros Ht. unfold file_place, open_w.
  destruct (String.eqb name ""); [auto|]. cbv zeta.
  assert (Es : start w2 name = start w1 name)
    by (unfold start; now rewrite (proj1 Ht)).
  rewrite Es.
  destruct (decide _) as [_|_].
  - destruct (walk name w1 _ _) as [d|e] eqn:Ew; [|discriminate].
    rewrite (walk_Ok_ext name name w1 w2 _ _ _ Ht Ew).
    rewrite (is_dir_same_tree w1 w2 _ Ht).
    destruct (_ || _); [discriminate|auto].
  - destruct (walk name w1 _ _) as [d|e]; discriminate.
Qed.

(** The place of a file is the same in worlds with the same directories. *)
Lemma file_place_same_tree (name : string) (w1 w2 : World) :
  same_tree w1 w2 -> file_place w1 name = file_place w2 name.
Proof.
  intros Ht. destruct (file_place w1 name) as [p|] eqn:E1.
  - symmetry. eapply file_place_mono; eauto.
  - destruct (file_place w2 name) as [q|] eqn:E2; [|reflexivity].
    apply (file_place_mono name w2 w1 q (same_tree_sym _ _ Ht)) in E2. congruence.
Qed.

(** The last name on the way to a file in a directory is the name of the
    file. *)
Lemma file_place_join (w : World) (d n : string) (p : path) :
  plain_name n -> file_place w (os_path_join d n) = Some p -> last p = Some n.
Proof.
  intros Hn H. apply file_place_inv in H as (_ & q & _ & -> & _).
  rewrite (last_components_join d n Hn). apply last_snoc.
Qed.

Lemma file_place_join_ne (w : World) (d n1 n2 : string) (p1 p2 : path) :
  plain_name n1 -> plain_name n2 -> n1 <> n2 ->
  file_place w (os_path_join d n1) = Some p1 ->
  file_place w (os_path_join d n2) = Some p2 -> p1 <> p2.
Proof.
  intros H1 H2 Hne E1 E2 ->.
  apply file_place_join in E1; [|exact H1].
  apply file_place_join in E2; [|exact H2]. congruence.
Qed.

(** A file can be opened in [d] only if [d] is a directory, or is the empty
    name (which stands for the working directory in a joined name). *)
Lemma file_place_join_isdir (w : World) (d n : string) (p : path) :
  plain_name n -> d <> "" ->
  file_place w (os_path_join d n) = Some p -> isdir w d.
Proof.
  intros Hn Hd H. apply file_place_inv in H as (_ & q & Hw & _ & _).
  rewrite (start_join w d n Hn Hd) in Hw.
  destruct (components_join d n Hn Hd) as (cs & Hc & Hcs).
  rewrite Hc, removelast_last in Hw.
  destruct Hcs as [E|E].
  - apply (os_stat_walk d w q Hd). rewrite E.
    eapply walk_Ok_ext; [apply same_tree_refl|exact Hw].
  - apply (os_stat_walk d w q Hd). rewrite E, walk_app.
    rewrite (walk_Ok_ext _ d w w cs _ q (same_tree_refl w) Hw). reflexivity.
Qed.

End FileSystem.

(** ** Making directories *)

Ltac same_world := simpl; repeat split; try reflexivity; set_solver.

Section MakeDirs.

Context `{NR : NumpyRandom}.

Lemma dirs_only_ret {A} (a : A) : dirs_only (ret a).
Proof. intros w. same_world. Qed.

Lemma dirs_only_bind {A B} (m : M A) (k : A -> M B) :
  dirs_only m -> (forall a, dirs_only (k a)) -> dirs_only (bind m k).
Proof.
  intros Hm Hk w. unfold bind. specialize (Hm w).
  destruct (m w) as [[a|e] w1]; simpl in *; [|exact Hm].
  destruct (Hk a w1) as (H1 & H2 & H3 & H4 & H5).
  destruct Hm as (G1 & G2 & G3 & G4 & G5).
  repeat split; try congruence. set_solver.
Qed.

Lemma dirs_only_mkdir (name : string) : dirs_only (os_mkdir name).
Proof.
  intros w. unfold os_mkdir.
  destruct (String.eqb name ""); [same_world|].
  destruct (drop_trailing_empty _) as [|c cs]; [same_world|].
  destruct (walk _ _ _ _) as [p|e]; [|same_world].
  destruct (_ || _); same_world.
Qed.

Lemma dirs_only_exists (name : string) : dirs_only (os_path_exists name).
Proof. intros w. same_world. Qed.

Lemma dirs_only_isdir (name : string) : dirs_only (os_path_isdir name).
Proof. intros w. same_world. Qed.

Lemma dirs_only_except (m : M unit) :
  dirs_only m -> dirs_only (except_FileExistsError m).
Proof.
  intros Hm w. unfold except_FileExistsError. specialize (Hm w).
  destruct (m w) as [[[]|e] w1]; [exact Hm|]. destruct e; exact Hm.
Qed.

Lemma dirs_only_makedirs (fuel : nat) (name : string) :
  dirs_only (makedirs fuel name).
Proof.
  revert name. induction fuel as [|fuel IH]; intros name; cbn [makedirs];
    destruct (os_path_split name) as [head tail];
    destruct (if String.eqb tail "" then os_path_split head else (head, tail))
      as [head' tail'].
  - apply dirs_only_bind; [apply dirs_only_ret|]. intros [|]; [apply dirs_only_ret|].
    intros w. pose proof (dirs_only_mkdir name w) as Hm.
    destruct (os_mkdir name w) as [[[]|e] w1]; [exact Hm|].
    simpl. destruct (os_stat name w1) as [[|]|]; exact Hm.
  - apply dirs_only_bind.
    + destruct (negb _ && negb _); [|apply dirs_only_ret].
      apply dirs_only_bind; [apply dirs_only_exists|].
      intros [|]; [apply dirs_only_ret|].
      apply dirs_only_bind; [apply dirs_only_except, IH|].
      intros _. apply dirs_only_ret.
    + intros [|]; [apply dirs_only_ret|].
      intros w. pose proof (dirs_only_mkdir name w) as Hm.
      destruct (os_mkdir name w) as [[[]|e] w1]; [exact Hm|].
      simpl. destruct (os_stat name w1) as [[|]|]; exact Hm.
Qed.

(** [os.makedirs] writes no file; the directories that were there stay. *)
Lemma os_makedirs_frame (name : string) : dirs_only (os_makedirs name).
Proof. apply dirs_only_makedirs. Qed.

(** The empty name is refused. *)
Lemma os_makedirs_empty (w : World) :
  os_makedirs "" w = (Raise (FileNotFoundError ""), w).
Proof. reflexivity. Qed.

Lemma cut_last_slash_length (p h t : string) :
  cut_last_slash p = (h, t) ->
  (String.length h + String.length t = String.length p)%nat.
Proof.
  revert h t. induction p as [|c p IH]; intros h t; simpl.
  - intros H. injection H as <- <-. reflexivity.
  - destruct (cut_last_slash p) as [h' t']. specialize (IH h' t' eq_refl).
    destruct (String.eqb h' "") eqn:E.
    + apply String.eqb_eq in E. subst h'. simpl in IH.
      destruct (Ascii.eqb c "/"); intros H; injection H as <- <-; simpl; lia.
    + intros H. injection H as <- <-. simpl. lia.
Qed.

Lemma rstrip_slash_length (s : string) :
  (String.length (rstrip_slash s) <= String.length s)%nat.
Proof.
  induction s as [|c s IH]; simpl; [lia|].
  destruct (String.eqb (rstrip_slash s) "" && Ascii.eqb c "/"); simpl; lia.
Qed.

Lemma os_path_split_length (p h t : string) :
  os_path_split p = (h, t) ->
  (String.length h + String.length t <= String.length p)%nat.
Proof.
  unfold os_path_split. destruct (cut_last_slash p) as [h' t'] eqn:E.
  apply cut_last_slash_length in E.
  pose proof (rstrip_slash_length h').
  destruct (String.eqb (rstrip_slash h') ""); intros H'; injection H' as <- <-; lia.
Qed.

(** The recursion is on a shorter name: any fuel that bounds the length of
    the name gives the same run. *)
Lemma makedirs_fuel (f1 f2 : nat) (name : string) (w : World) :
  (String.length name <= f1)%nat -> (String.length name <= f2)%nat ->
  makedirs f1 name w = makedirs f2 name w.
Proof.
  revert f2 name w. induction f1 as [|f1 IH]; intros f2 name w H1 H2.
  - destruct name as [|c name]; [|simpl in H1; lia].
    destruct f2; reflexivity.
  - destruct f2 as [|f2].
    { destruct name as [|c name]; [|simpl in H2; lia]. reflexivity. }
    cbn [makedirs].
    destruct (os_path_split name) as [head tail] eqn:Es.
    apply os_path_split_length in Es.
    destruct (if String.eqb tail "" then os_path_split head else (head, tail))
      as [head' tail'] eqn:Es'.
    assert (Hlen : (String.length head' + String.length tail'
                    <= String.length name)%nat).
    { destruct (String.eqb tail "").
      - apply os_path_split_length in Es'. lia.
      - injection Es' as <- <-. lia. }
    unfold bind.
    destruct (negb (String.eqb head' "") && negb (String.eqb tail' "")) eqn:Eb;
      [|reflexivity].
    apply andb_true_iff in Eb as [_ Et]. apply negb_true_iff in Et.
    assert (Ht : (0 < String.length tail')%nat).
    { destruct tail'; [discriminate|simpl; lia]. }
    unfold os_path_exists. cbv beta iota.
    destruct (os_stat head' w); [reflexivity|].
    unfold except_FileExistsError.
    rewrite (IH f2 head' w) by lia. reflexivity.
Qed.

End MakeDirs.

(** ** Record Assembler and Serializer *)

Section Serializer.

Context `{NR : NumpyRandom}.

(** A run is known by its result and the world it leaves. *)
Lemma run_Ok {A} (p : result A * World) (a : A) :
  p.1 = Ok a -> p = (Ok a, p.2).
Proof. destruct p as [r w]. simpl. now intros ->. Qed.

Lemma set_files_id (w : World) : set_files (files w) w = w.
Proof. now destruct w. Qed.

Lemma set_files_twice (m m' : gmap path content) (w : World) :
  set_files m (set_files m' w) = set_files m w.
Proof. reflexivity. Qed.

(** A write appends to the text the file holds. *)
Lemma bind_write {A} (f : path) (s t : string) (k : unit -> M A) (w : World)
    (m : gmap path content) :
  bind (write f s) k (set_files (<[f := Text t]> m) w)
  = k tt (set_files (<[f := Text (t ++ s)]> m) w).
Proof.
  unfold bind, write. cbn [files set_files].
  now rewrite alter_insert_eq.
Qed.

Lemma for_each_write (f : path) (rows : list obs_row) (t : string)
    (m : gmap path content) (w : World) :
  for_each rows (fun row => write f (pdaf_line row))
    (set_files (<[f := Text t]> m) w)
  = (Ok tt,
     set_files (<[f := Text (t ++ join_all (map pdaf_line rows))]> m) w).
Proof.
  revert t. induction rows as [|row rows IH]; intros t.
  - simpl. now rewrite str_app_nil_r.
  - cbn [for_each]. rewrite bind_write, IH. simpl.
    now rewrite str_app_assoc.
Qed.

(** The file written by [save_pdaf_format], where the file can be opened:
    the call returns and leaves at the place of [filename] the header
    followed by the data lines. *)
Lemma save_pdaf_format_written (obs_df : list obs_row) (filename : string)
    (w : World) (p : path) :
  file_place w filename = Some p ->
  save_pdaf_format obs_df filename w
  = (Ok tt,
     set_files (<[p := Text (pdaf_text (clock w) obs_df)]> (files w)) w).
Proof.
  intros Hp. unfold save_pdaf_format.
  unfold bind at 1. rewrite (file_place_open _ _ _ Hp).
  rewrite bind_write, bind_write.
  unfold bind at 1. unfold datetime_now at 1. cbn [clock set_files].
  rewrite bind_write, bind_write, for_each_write.
  unfold pdaf_text. rewrite str_app_nil_l, !str_app_assoc. reflexivity.
Qed.

(** Where the file cannot be opened the call raises what [open] raises, and
    the world is as it was. *)
Lemma save_pdaf_format_refused (obs_df : list obs_row) (filename : string)
    (w : World) :
  file_place w filename = None ->
  exists e, open_w filename w = (Raise e, w)
    /\ save_pdaf_format obs_df filename w = (Raise e, w).
Proof.
  intros Hp. destruct (file_place_refused _ _ Hp) as [e He].
  exists e. split; [exact He|].
  unfold save_pdaf_format. unfold bind at 1. now rewrite He.
Qed.

Lemma save_pdaf_format_Ok (obs_df : list obs_row) (filename : string)
    (w w' : World) :
  save_pdaf_format obs_df filename w = (Ok tt, w') ->
  exists p, file_place w filename = Some p
    /\ w' = set_files (<[p := Text (pdaf_text (clock w) obs_df)]> (files w)) w.
Proof.
  intros H. destruct (file_place w filename) as [p|] eqn:Hp.
  - rewrite (save_pdaf_format_written _ _ _ _ Hp) in H. injection H as <-. eauto.
  - destruct (save_pdaf_format_refused obs_df _ _ Hp) as (e & _ & He).
    rewrite He in H. discriminate.
Qed.

(** What is read at [name] after the files have been replaced. *)
Lemma read_file_set_files (w : World) (name : string) (p : path)
    (m : gmap path content) :
  file_place w name = Some p -> read_file (set_files m w) name = m !! p.
Proof.
  intros Hp. unfold read_file.
  now rewrite <- (file_place_same_tree name w _ (same_tree_set_files _ w)), Hp.
Qed.

Lemma read_file_written (w : World) (name : string) (p : path) (c : content) :
  file_place w name = Some p ->
  read_file (set_files (<[p := c]> (files w)) w) name = Some c.
Proof.
  intros Hp. rewrite (read_file_set_files w name p _ Hp). apply lookup_insert_eq.
Qed.

(** [to_csv] returns only where the file can be opened, and then leaves the
    table at the place of the file; when it raises, the world is as it
    was. *)
Lemma to_csv_Ok (obs_df : list obs_row) (filename : string) (w w' : World) :
  to_csv obs_df filename w = (Ok tt, w') ->
  exists p, file_place w filename = Some p
    /\ w' = set_files (<[p := Table df_columns obs_df]> (files w)) w.
Proof.
  unfold to_csv, bind, check_parent_directory.
  destruct (walk _ _ _ _) as [d|e]; [|discriminate].
  destruct (open_w_cases filename w) as [(e & He & _)|(p & Hp & Hf)];
    [rewrite He; discriminate|].
  rewrite Hp. intros H. injection H as <-. exists p. split; [exact Hf|].
  cbn [files set_files]. now rewrite insert_insert_eq.
Qed.

Lemma to_csv_Raise (obs_df : list obs_row) (filename : string) (w w' : World)
    (e : exn) :
  to_csv obs_df filename w = (Raise e, w') -> w' = w.
Proof.
  unfold to_csv, bind, check_parent_directory.
  destruct (walk _ _ _ _) as [d|e']; [|now intros H; injection H as _ <-].
  destruct (open_w_cases filename w) as [(e' & He & _)|(p & Hp & _)].
  - rewrite He. now intros H; injection H as _ <-.
  - rewrite Hp. discriminate.
Qed.

(** ** The names of the files of a run *)

Lemma no_slash_app (a b : string) :
  no_slash (a ++ b) <-> no_slash a /\ no_slash b.
Proof.
  induction a as [|x a IH]; [rewrite str_app_nil_l; simpl; tauto|].
  rewrite str_app_cons. simpl. rewrite IH. tauto.
Qed.

Lemma no_slash_replicate (n : nat) (c : ascii) :
  c <> "/"%char -> no_slash (replicate_char n c).
Proof. intros Hc. induction n as [|n IH]; simpl; auto. Qed.

Lemma no_slash_uint (d : Decimal.uint) : no_slash (NilEmpty.string_of_uint d).
Proof.
  induction d; simpl; try (split; [discriminate|assumption]); exact I.
Qed.

Lemma no_slash_str_of_Z (n : Z) : no_slash (str_of_Z n).
Proof.
  unfold str_of_Z, NilZero.string_of_int, NilZero.string_of_uint.
  destruct (Z.to_int n) as [d|d].
  - destruct d; try apply no_slash_uint. simpl. split; [discriminate|exact I].
  - split; [discriminate|].
    destruct d; try apply no_slash_uint. simpl. split; [discriminate|exact I].
Qed.

Lemma no_slash_fmt_0d (width : nat) (n : Z) : no_slash (fmt_0d width n).
Proof.
  unfold fmt_0d, rjust. destruct (n <? 0)%Z.
  - rewrite str_app_cons, str_app_nil_l. split; [discriminate|].
    apply no_slash_app.
    split; [apply no_slash_replicate; discriminate|apply no_slash_str_of_Z].
  - apply no_slash_app.
    split; [apply no_slash_replicate; discriminate|apply no_slash_str_of_Z].
Qed.

(** A literal with no slash in it. *)
Ltac no_slash_literal :=
  simpl; repeat (split; [discriminate|]); exact I.

Lemma plain_csv_name (year : Z) : plain_name (csv_name year).
Proof.
  unfold plain_name, csv_name. split; [discriminate|]. split; [|reflexivity].
  apply no_slash_app. split; [no_slash_literal|].
  apply no_slash_app. split; [apply no_slash_fmt_0d|no_slash_literal].
Qed.

Lemma plain_pdaf_name (year : Z) : plain_name (pdaf_name year).
Proof.
  unfold plain_name, pdaf_name. split; [discriminate|]. split; [|reflexivity].
  apply no_slash_app. split; [no_slash_literal|].
  apply no_slash_app. split; [apply no_slash_fmt_0d|no_slash_literal].
Qed.

Lemma plain_summary_name : plain_name summary_name.
Proof.
  unfold plain_name, summary_name. split; [discriminate|].
  split; [no_slash_literal|reflexivity].
Qed.

Lemma csv_name_not_pdaf (y1 y2 : Z) : csv_name y1 <> pdaf_name y2.
Proof. discriminate. Qed.

Lemma csv_name_not_summary (y : Z) : csv_name y <> summary_name.
Proof. unfold csv_name, summary_name. rewrite !str_app_cons. discriminate. Qed.

Lemma pdaf_name_not_summary (y : Z) : pdaf_name y <> summary_name.
Proof. discriminate. Qed.

Lemma lines_pdaf_text (now : datetime) (rows : list obs_row) :
  Forall (fun row => no_newline (row_variable row)) rows ->
  lines (pdaf_text now rows)
  = [ "# PDAF Observation File";
      "# Format: year lon lat variable observed_value error";
      ("# Generated: " ++ strftime now)%string;
      ("# Number of observations: " ++ str_of_nat (length rows))%string;
      "" ]
    ++ map pdaf_fields rows.
Proof.
  intros Hrows. unfold pdaf_text.
  rewrite lines_line by (no_newline_literal).
  rewrite lines_line by (no_newline_literal).
  rewrite <- (str_app_assoc "# Generated: ").
  rewrite lines_line
    by (apply no_newline_app; split;
        [no_newline_literal|apply no_newline_strftime]).
  rewrite <- (str_app_assoc "# Number of observations: ").
  rewrite lines_line
    by (apply no_newline_app; split;
        [no_newline_literal|apply no_newline_str_of_Z]).
  rewrite <- (str_app_nil_l (nl ++ _)).
  rewrite lines_line by exact I.
  now rewrite lines_data.
Qed.

(** C2: the filter-compatible file written for [N] records reads, line by
    line: four comment lines (title, column format, generation time, and the
    count "Number of observations: N"), one empty line, and then [N] data
    lines, one per record in order, each made of the year in a field of
    width 4, the longitude and latitude as 8.3f, the tag left-justified in 4
    characters, the observed value as 12.6f and the error as 8.3f, separated
    by single spaces. *)
Theorem save_pdaf_format_layout (obs_df : list obs_row) (filename : string)
    (w w' : World) :
  Forall (fun row => no_newline (row_variable row)) obs_df ->
  save_pdaf_format obs_df filename w = (Ok tt, w') ->
  exists text,
    read_file w' filename = Some (Text text)
    /\ lines text
       = [ "# PDAF Observation File";
           "# Format: year lon lat variable observed_value error";
           ("# Generated: " ++ strftime (clock w))%string;
           ("# Number of observations: " ++ str_of_nat (length obs_df))%string;
           "" ]
         ++ map (fun row =>
                   fmt_d 4 (row_year row) ++ " " ++ fmt_f 8 3 (row_lon row) ++ " "
                   ++ fmt_f 8 3 (row_lat row) ++ " " ++ fmt_s 4 (row_variable row)
                   ++ " " ++ fmt_f 12 6 (row_observed_value row) ++ " "
                   ++ fmt_f 8 3 (row_error row))%string obs_df
    /\ length (lines text) = (5 + length obs_df)%nat.
Proof.
  intros Hrows H. apply save_pdaf_format_Ok in H as (p & Hp & ->).
  exists (pdaf_text (clock w) obs_df).
  split; [now apply read_file_written|].
  rewrite lines_pdaf_text by exact Hrows.
  split; [reflexivity|].
  rewrite length_app, length_map. reflexivity.
Qed.

End Serializer.

Lemma save_pdaf_format_layout_witness :
  exists text,
    read_file (save_pdaf_format sample_rows "pdaf_obs_year_0003.txt" sample_world).2
      "pdaf_obs_year_0003.txt" = Some (Text text)
    /\ lines text
       = [ "# PDAF Observation File";
           "# Format: year lon lat variable observed_value error";
           ("# Generated: " ++ strftime (clock sample_world))%string;
           ("# Number of observations: " ++ str_of_nat (length sample_rows))%string;
           "" ]
         ++ map (fun row =>
                   fmt_d 4 (row_year row) ++ " " ++ fmt_f 8 3 (row_lon row) ++ " "
                   ++ fmt_f 8 3 (row_lat row) ++ " " ++ fmt_s 4 (row_variable row)
                   ++ " " ++ fmt_f 12 6 (row_observed_value row) ++ " "
                   ++ fmt_f 8 3 (row_error row))%string sample_rows
    /\ length (lines text) = (5 + length sample_rows)%nat.
Proof.
  apply (@save_pdaf_format_layout lcg sample_rows "pdaf_obs_year_0003.txt"
           sample_world).
  - repeat (constructor; [no_newline_literal|]). constructor.
  - apply run_Ok. vm_compute. reflexivity.
Defined.

(** The file of the five sample records, read back line by line. *)
Example save_pdaf_format_five_records :
  (let out := save_pdaf_format sample_rows "pdaf_obs_year_0003.txt" sample_world in
   match read_file out.2 "pdaf_obs_year_0003.txt" with
   | Some (Text text) => lines text
   | _ => []
   end)
  = [ "# PDAF Observation File";
      "# Format: year lon lat variable observed_value error";
      "# Generated: 2026-11-04 01:02:03";
      "# Number of observations: 5";
      "";
      "   3  156.780   11.610 tas     16.040000    1.000";
      "   3   65.520   19.260 tas     15.040000    1.000";
      "   3    0.500  -45.000 tas     -0.250000    1.000";
      "   3   20.880  -15.030 pr      11.076000    1.200";
      "   3  180.000   45.000 pr       0.000000    0.000" ].
Proof. vm_compute. reflexivity. Qed.

(** ** Missing fields *)

Section Driver.

Context `{NR : NumpyRandom}.

Lemma find_var_None (ds : gmap string ndarray) (names : list string) :
  (forall name, name ∈ names -> ds !! name = None) ->
  find_var ds names = None.
Proof.
  induction names as [|name names IH]; intros H; [reflexivity|].
  simpl. rewrite (H name) by apply list_elem_of_here.
  apply IH. intros n Hn. apply H. now apply list_elem_of_further.
Qed.

(** Without a temperature field the loader raises: the error names the
    temperature field, or a coordinate axis when that is missing too. *)
Lemma load_nature_run_data_no_tas (ds : gmap string ndarray) :
  find_var ds tas_names = None ->
  exists e, load_nature_run_data ds = Raise e
    /\ (e = ValueError "Could not find tas/temperature data in nature run file"
        \/ e = KeyError "longitude" \/ e = KeyError "latitude")
    /\ (is_Some (get_or_coord ds "lon" "longitude") ->
        is_Some (get_or_coord ds "lat" "latitude") ->
        e = ValueError "Could not find tas/temperature data in nature run file").
Proof.
  intros Htas. unfold load_nature_run_data, get_or_coord, get_or, dict_get.
  rewrite Htas.
  destruct (ds !! "lon") as [lon|]; [|destruct (ds !! "longitude") as [lon|]];
    (destruct (ds !! "lat") as [lat|]; [|destruct (ds !! "latitude") as [lat|]]);
    simpl; eexists; (split; [reflexivity|]); split; auto;
    intros [? H1] [? H2]; discriminate.
Qed.

(** C8: when no synonym of the temperature field and no synonym of the
    precipitation field is a variable of the data source, [main] raises
    before anything is written: the world it leaves (files, directories) is
    the one it started from.  The error names the temperature field (or the
    coordinate axis, when the source lacks that as well). *)
Theorem main_missing_fields_aborts
    (ds : gmap string ndarray) (args : Args) (w : World) :
  (forall name, name ∈ tas_names -> ds !! name = None) ->
  (forall name, name ∈ pr_names -> ds !! name = None) ->
  exists e,
    main ds args w = (Raise e, w)
    /\ (e = ValueError "Could not find tas/temperature data in nature run file"
        \/ e = KeyError "longitude" \/ e = KeyError "latitude")
    /\ (is_Some (get_or_coord ds "lon" "longitude") ->
        is_Some (get_or_coord ds "lat" "latitude") ->
        e = ValueError "Could not find tas/temperature data in nature run file").
Proof.
  intros Htas _.
  destruct (load_nature_run_data_no_tas ds (find_var_None ds tas_names Htas))
    as (e & He & Hcases).
  exists e. split; [|exact Hcases].
  unfold main, bind, lift. now rewrite He.
Qed.

(** Whatever makes the loader raise, nothing is written. *)
Lemma main_load_error (ds : gmap string ndarray) (args : Args) (w : World)
    (e : exn) :
  load_nature_run_data ds = Raise e -> main ds args w = (Raise e, w).
Proof. intros H. unfold main, bind, lift. now rewrite H. Qed.

(** The precipitation field alone missing: the error names it. *)
Lemma load_nature_run_data_no_pr (ds : gmap string ndarray)
    (lon lat tas : ndarray) :
  get_or_coord ds "lon" "longitude" = Some lon ->
  get_or_coord ds "lat" "latitude" = Some lat ->
  find_var ds tas_names = Some tas ->
  find_var ds pr_names = None ->
  load_nature_run_data ds
  = Raise (ValueError "Could not find pr/precipitation data in nature run file").
Proof.
  unfold load_nature_run_data, get_or_coord, get_or, dict_get.
  intros Hlon Hlat -> ->.
  destruct (ds !! "lon"); [|rewrite Hlon];
    (destruct (ds !! "lat"); [|rewrite Hlat]); reflexivity.
Qed.

Example load_sample_ds : load_nature_run_data sample_ds = Ok sample_nature.
Proof. vm_compute. reflexivity. Qed.

(** ** Order of the records *)

Lemma zip_rows_keys (year : Z) (variable : string)
    (lons lats trues obs errs : list Q) :
  length lats = length lons -> length trues = length lons ->
  length obs = length lons -> length errs = length lons ->
  map row_key (zip_rows year variable lons lats trues obs errs)
  = map (fun p => (variable, p.1, p.2)) (combine lons lats).
Proof.
  revert lats trues obs errs.
  induction lons as [|lo lons IH]; intros [|la lats] [|t trues] [|o obs] [|e errs];
    simpl; try discriminate; try reflexivity.
  intros H1 H2 H3 H4. f_equal. apply IH; congruence.
Qed.

Lemma DataFrame_keys (year : Z) (variable : string)
    (lons lats trues obs errs : list Q) (rows : list obs_row) :
  DataFrame year variable lons lats trues obs errs = Ok rows ->
  map row_key rows = map (fun p => (variable, p.1, p.2)) (combine lons lats).
Proof.
  unfold DataFrame. cbv zeta.
  destruct (decide _) as [(H1 & H2 & H3 & H4)|]; [|discriminate].
  intros H. injection H as <-. now apply zip_rows_keys.
Qed.

Lemma keys_variable (variable : string) (rows : list obs_row) (l : list (Q * Q)) :
  map row_key rows = map (fun p => (variable, p.1, p.2)) l ->
  Forall (fun r => row_variable r = variable) rows.
Proof.
  revert l. induction rows as [|r rows IH]; intros [|p l] H;
    simpl in H; try discriminate; constructor.
  - unfold row_key in H. congruence.
  - apply (IH l). congruence.
Qed.

(** The table of a year: the temperature rows, then the precipitation
    rows, each block in the order of its network. *)
Lemma year_obs_df_keys (nature_data : gmap string ndarray)
    (n_obs_tas n_obs_pr : Z) (lon_range lat_range : Q * Q) (year : Z)
    (w w' : World) (df : list obs_row) :
  year_obs_df nature_data n_obs_tas n_obs_pr lon_range lat_range year w
  = (Ok df, w') ->
  exists tas_lons tas_lats pr_lons pr_lats tas_df pr_df,
    (year_networks n_obs_tas n_obs_pr lon_range lat_range year w).1
    = Ok ((tas_lons, tas_lats), (pr_lons, pr_lats))
    /\ df = tas_df ++ pr_df
    /\ map row_key tas_df
       = map (fun p => ("tas", p.1, p.2)) (combine tas_lons tas_lats)
    /\ map row_key pr_df
       = map (fun p => ("pr", p.1, p.2)) (combine pr_lons pr_lats).
Proof.
  unfold year_obs_df, bind, lift.
  destruct (year_networks _ _ _ _ _ w) as [[[[tl ta] [pl pa]]|e] w0]; [|discriminate].
  destruct (sample_nature_run _ tl ta _ _) as [tas_true|]; [|discriminate].
  destruct (sample_nature_run _ pl pa _ _) as [pr_true|]; [|discriminate].
  rewrite add_observation_noise_tas, add_observation_noise_pr.
  destruct (DataFrame year "tas" _ _ _ _ _) as [tas_df|] eqn:Et; [|discriminate].
  destruct (DataFrame year "pr" _ _ _ _ _) as [pr_df|] eqn:Ep; [|discriminate].
  unfold ret. intros H. injection H as <- _.
  exists tl, ta, pl, pa, tas_df, pr_df.
  split; [reflexivity|]. split; [reflexivity|].
  split; eapply DataFrame_keys; eassumption.
Qed.

(** X21: The whole table of a year, noise included, is reproducible: the noise
    is drawn from the state the seeded network draws leave behind. *)
Lemma year_obs_df_deterministic (nature_data : gmap string ndarray)
    (n_obs_tas n_obs_pr : Z) (lon_range lat_range : Q * Q) (year : Z)
    (w1 w2 : World) :
  (year_obs_df nature_data n_obs_tas n_obs_pr lon_range lat_range year w1).1
  = (year_obs_df nature_data n_obs_tas n_obs_pr lon_range lat_range year w2).1.
Proof.
  unfold year_obs_df, year_networks, bind, ret, lift.
  rewrite !generate_random_locations_seeded.
  destruct ((0 <=? year * 2)%Z && _); [|reflexivity].
  destruct (n_obs_tas <? 0)%Z; [reflexivity|]. cbv beta iota zeta.
  rewrite !generate_random_locations_seeded.
  destruct ((0 <=? year * 2 + 1)%Z && _); [|reflexivity].
  destruct (n_obs_pr <? 0)%Z; [reflexivity|]. cbv beta iota zeta.
  destruct (sample_nature_run _ _ _ "tas" _) as [tas_true|]; [|reflexivity].
  destruct (sample_nature_run _ _ _ "pr" _) as [pr_true|]; [|reflexivity].
  rewrite !add_observation_noise_tas, !add_observation_noise_pr.
  cbn [rng set_rng].
  destruct (DataFrame year "tas" _ _ _ _ _); [|reflexivity].
  destruct (DataFrame year "pr" _ _ _ _ _); reflexivity.
Qed.

(** A year that is processed to its end: the table is assembled in a world
    [w1], then stored at the place of the first file, then written out at
    the place of the second, which is another place. *)
Lemma process_year_inv (nature_data : gmap string ndarray)
    (n_obs_tas n_obs_pr : Z) (lon_range lat_range : Q * Q)
    (output_dir : string) (year : Z) (w w' : World) :
  process_year nature_data n_obs_tas n_obs_pr lon_range lat_range output_dir year w
  = (Ok tt, w') ->
  exists df w1 pc pp,
    year_obs_df nature_data n_obs_tas n_obs_pr lon_range lat_range year w
    = (Ok df, w1)
    /\ file_place w1 (csv_file output_dir year) = Some pc
    /\ file_place w1 (pdaf_file output_dir year) = Some pp
    /\ pc <> pp
    /\ w' = set_files (<[pp := Text (pdaf_text (clock w1) df)]>
                         (<[pc := Table df_columns df]> (files w1))) w1.
Proof.
  unfold process_year, bind.
  destruct (year_obs_df _ _ _ _ _ _ w) as [[df|e] w1] eqn:E; [|discriminate].
  destruct (to_csv df _ w1) as [[[]|e] w2] eqn:Ec; [|discriminate].
  intros Hs.
  apply to_csv_Ok in Ec as (pc & Hpc & ->).
  apply save_pdaf_format_Ok in Hs as (pp & Hpp & ->).
  rewrite <- (file_place_same_tree _ w1 _ (same_tree_set_files _ w1)) in Hpp.
  exists df, w1, pc, pp. split; [reflexivity|]. split; [exact Hpc|].
  split; [exact Hpp|]. split.
  - exact (file_place_join_ne w1 output_dir (csv_name year) (pdaf_name year)
             pc pp (plain_csv_name year) (plain_pdaf_name year)
             (csv_name_not_pdaf year year) Hpc Hpp).
  - cbn [files set_files clock]. now rewrite set_files_twice.
Qed.

(** C9: the two files of a year hold the same rows in the same order: the
    temperature records first, in the order in which their network was
    drawn, then the precipitation records, in the order of theirs. *)
Theorem process_year_order (nature_data : gmap string ndarray)
    (n_obs_tas n_obs_pr : Z) (lon_range lat_range : Q * Q)
    (output_dir : string) (year : Z) (w w' : World) :
  process_year nature_data n_obs_tas n_obs_pr lon_range lat_range output_dir year w
  = (Ok tt, w') ->
  exists tas_lons tas_lats pr_lons pr_lats rows text,
    (year_networks n_obs_tas n_obs_pr lon_range lat_range year w).1
    = Ok ((tas_lons, tas_lats), (pr_lons, pr_lats))
    /\ read_file w' (csv_file output_dir year) = Some (Table df_columns rows)
    /\ read_file w' (pdaf_file output_dir year) = Some (Text text)
    /\ drop 5 (lines text) = map pdaf_fields rows
    /\ map row_key rows
       = map (fun p => ("tas", p.1, p.2)) (combine tas_lons tas_lats)
         ++ map (fun p => ("pr", p.1, p.2)) (combine pr_lons pr_lats).
Proof.
  intros H.
  apply process_year_inv in H as (df & w1 & pc & pp & E & Hpc & Hpp & Hne & ->).
  apply year_obs_df_keys in E
    as (tl & ta & pl & pa & tas_df & pr_df & Hn & -> & Ht & Hp).
  exists tl, ta, pl, pa, (tas_df ++ pr_df), (pdaf_text (clock w1) (tas_df ++ pr_df)).
  split; [exact Hn|]. split.
  { rewrite (read_file_set_files w1 _ pc _ Hpc).
    rewrite lookup_insert_ne by congruence. apply lookup_insert_eq. }
  split.
  { rewrite (read_file_set_files w1 _ pp _ Hpp). apply lookup_insert_eq. }
  split.
  - rewrite lines_pdaf_text; [reflexivity|].
    apply Forall_app. split.
    + eapply Forall_impl; [exact (keys_variable _ _ _ Ht)|].
      intros r ->. no_newline_literal.
    + eapply Forall_impl; [exact (keys_variable _ _ _ Hp)|].
      intros r ->. no_newline_literal.
  - now rewrite map_app, Ht, Hp.
Qed.

End Driver.

Lemma main_missing_fields_aborts_witness :
  exists e,
    @main lcg empty_ds sample_args sample_world = (Raise e, sample_world)
    /\ (e = ValueError "Could not find tas/temperature data in nature run file"
        \/ e = KeyError "longitude" \/ e = KeyError "latitude")
    /\ (is_Some (get_or_coord empty_ds "lon" "longitude") ->
        is_Some (get_or_coord empty_ds "lat" "latitude") ->
        e = ValueError "Could not find tas/temperature data in nature run file").
Proof.
  apply (@main_missing_fields_aborts lcg empty_ds sample_args sample_world);
    intros name H;
    repeat (apply elem_of_cons in H as [->|H]; [vm_compute; reflexivity|]);
    now apply elem_of_nil in H.
Defined.


Lemma process_year_order_witness :
  exists tas_lons tas_lats pr_lons pr_lats rows text,
    (@year_networks lcg 2 1 (0, 180) (-45, 45) 3 sample_run_world).1
    = Ok ((tas_lons, tas_lats), (pr_lons, pr_lats))
    /\ read_file (process_year sample_nature 2 1 (0, 180) (-45, 45) "obs_data" 3
                    sample_run_world).2
         (csv_file "obs_data" 3) = Some (Table df_columns rows)
    /\ read_file (process_year sample_nature 2 1 (0, 180) (-45, 45) "obs_data" 3
                    sample_run_world).2
         (pdaf_file "obs_data" 3) = Some (Text text)
    /\ drop 5 (lines text) = map pdaf_fields rows
    /\ map row_key rows
       = map (fun p => ("tas", p.1, p.2)) (combine tas_lons tas_lats)
         ++ map (fun p => ("pr", p.1, p.2)) (combine pr_lons pr_lats).
Proof.
  apply (@process_year_order lcg sample_nature 2 1 (0, 180) (-45, 45)
           "obs_data" 3 sample_run_world).
  apply run_Ok. vm_compute. reflexivity.
Defined.

(** ** The model run on the sample inputs *)

(** Two temperature observations with true value 0: both receive the same
    noise, and the generator has advanced by one draw only. *)
Example add_observation_noise_tas_two_zeros :
  (@add_observation_noise lcg [0; 0] "tas" sample_world).1
  = Ok ([0 + (0 + 1 * (@standard_normal lcg 0%Z).1);
         0 + (0 + 1 * (@standard_normal lcg 0%Z).1)], [1; 1])
  /\ rng (@add_observation_noise lcg [0; 0] "tas" sample_world).2
     = (@standard_normal lcg 0%Z).2.
Proof. split; reflexivity. Qed.

(** Two precipitation observations: two draws, one per observation. *)
Example add_observation_noise_pr_two_values :
  (@add_observation_noise lcg [10; 20] "pr" sample_world).1
  = Ok ([10 + (0 + 0.1 * Qabs 10 * (@standard_normal lcg 0%Z).1);
         20 + (0 + 0.1 * Qabs 20
                    * (@standard_normal lcg (@standard_normal lcg 0%Z).2).1)],
        [0.1 * Qabs 10; 0.1 * Qabs 20])
  /\ rng (@add_observation_noise lcg [10; 20] "pr" sample_world).2
     = (@standard_normal lcg (@standard_normal lcg 0%Z).2).2.
Proof. split; reflexivity. Qed.

Example find_nearest_scenario :
  find_nearest_grid_point 170 40 [0; 180] [-45; 45] = Ok (1%nat, 1%nat)
  /\ find_nearest_grid_point (-10) 0 [0; 90; 180; 270; 340] [0] = Ok (4%nat, 0%nat)
  /\ find_nearest_grid_point 350 0 [0; 90; 180; 270; 340] [0] = Ok (4%nat, 0%nat)
  /\ find_nearest_grid_point 10 0 [0; 20; 40] [0] = Ok (0%nat, 0%nat)
  /\ find_nearest_grid_point 0 0 [] [0]
     = Raise (ValueError "attempt to get argmin of an empty sequence").
Proof. repeat split; reflexivity. Qed.

Example sample_value_cases :
  sample_value "tas" field3 3 0 1 = Ok 14
  /\ sample_value "tas" field3 (-1) 0 1 = Ok 18
  /\ sample_value "pr" field4 1 1 0 = Ok 13
  /\ sample_value "tas" field3 5 0 1
     = Raise (IndexError "index is out of bounds for axis")
  /\ sample_value "tas" (mk_ndarray [2; 2]%nat [1; 2; 3; 4]) 0 0 0
     = Raise (ValueError "Unexpected data shape for tas: (2, 2)").
Proof. repeat split; reflexivity. Qed.

(** The run of the script on the sample data set: it succeeds and leaves
    three files. *)
Example main_sample_run :
  (@main lcg sample_ds sample_args sample_world).1 = Ok tt
  /\ dirs (@main lcg sample_ds sample_args sample_world).2
     = dirs sample_run_world
  /\ dom (files (@main lcg sample_ds sample_args sample_world).2)
     = ({[ ["home"; "user"; "obs_data"; "observation_summary.txt"];
           ["home"; "user"; "obs_data"; "observations_year_0003.csv"];
           ["home"; "user"; "obs_data"; "pdaf_obs_year_0003.txt"] ]} : gset path).
Proof. repeat split; vm_compute; reflexivity. Qed.

(** Directories are made down to the last one; an empty name is refused, and
    so is a name under a regular file. *)
Example os_makedirs_cases :
  @os_makedirs lcg "obs_data" sample_world = (Ok tt, sample_run_world)
  /\ dirs (@os_makedirs lcg "a/b" sample_world).2
     = {[ ["home"; "user"; "a"; "b"]; ["home"; "user"; "a"] ]} ∪ dirs sample_world
  /\ (@os_makedirs lcg "" sample_world).1 = Raise (FileNotFoundError "")
  /\ (@os_makedirs lcg "obs_data" sample_run_world).1 = Ok tt
  /\ (@open_w lcg "missing/x.txt" sample_world).1
     = Raise (FileNotFoundError "missing/x.txt")
  /\ (@open_w lcg "obs_data" sample_run_world).1
     = Raise (IsADirectoryError "obs_data").
Proof. repeat split; vm_compute; reflexivity. Qed.

(** On binary64 floats a tenth of 10.0 rounds to exactly 1.0, a tenth of 0.0
    is 0.0, and -10.0 + 360.0 is exactly 350.0. *)
Example binary64_constants :
  relative_error_binary64 10 = 1%float
  /\ relative_error_binary64 0 = 0%float
  /\ wrap_lon_binary64 (-10) = 350%float.
Proof. repeat split; reflexivity. Qed.

(** At the query 10^18 the differences to -45 and to 45 are the same
    binary64 number, 10^18, on the floats of the machine as in the rounding
    of the model. *)
Example binary64_far_query :
  abs_diff_binary64 (-45) 1e18 = 1e18%float
  /\ abs_diff_binary64 45 1e18 = 1e18%float
  /\ float_dist 1000000000000000000 (-45) == 1000000000000000000
  /\ float_dist 1000000000000000000 45 == 1000000000000000000.
Proof. repeat split; vm_compute; reflexivity. Qed.

(** * Further properties of the generator *)

(** ** Grid Locator: bounds, empty axes, exact hits, sorted axes *)

(** X1: The locator raises exactly when an axis is empty (the error is numpy's
    [ValueError] for the argmin of an empty sequence), and an index it
    returns lies inside its axis. *)
Theorem find_nearest_grid_point_defined
    (obs_lon obs_lat : Q) (model_lon model_lat : list Q) :
  ((exists e, find_nearest_grid_point obs_lon obs_lat model_lon model_lat = Raise e)
   <-> (model_lon = [] \/ model_lat = []))
  /\ (model_lon = [] \/ model_lat = [] ->
      find_nearest_grid_point obs_lon obs_lat model_lon model_lat
      = Raise (ValueError "attempt to get argmin of an empty sequence"))
  /\ (forall i j,
        find_nearest_grid_point obs_lon obs_lat model_lon model_lat = Ok (i, j) ->
        (i < length model_lon)%nat /\ (j < length model_lat)%nat).
Proof.
  split; [|split].
  - split.
    + intros [e He]. eapply find_nearest_grid_point_nonempty; eauto.
    + intros H. eexists. now apply find_nearest_grid_point_empty.
  - apply find_nearest_grid_point_empty.
  - apply find_nearest_grid_point_bounds.
Qed.

Lemma float_dist_zero (q x : Q) : x == q -> float_dist q x == 0.
Proof.
  intros H. unfold float_dist. rewrite (binary64_zero (x - q)) by lra. reflexivity.
Qed.

Lemma float_dist_zero_inv (q x : Q) : float_dist q x <= 0 -> x == q.
Proof.
  unfold float_dist. intros H.
  assert (E : binary64 (x - q) == 0).
  { destruct (Qlt_le_dec (binary64 (x - q)) 0) as [Hn|Hp].
    - rewrite Qabs_neg in H by lra. lra.
    - rewrite Qabs_pos in H by lra. lra. }
  apply binary64_zero_inv in E. lra.
Qed.

(** X2: A query that falls on a grid coordinate is resolved to a cell with
    exactly that coordinate: the first one on the axis. *)
Theorem find_nearest_grid_point_exact_hit
    (obs_lon obs_lat : Q) (model_lon model_lat : list Q) (i j k l : nat) (x y : Q) :
  find_nearest_grid_point obs_lon obs_lat model_lon model_lat = Ok (i, j) ->
  model_lon !! k = Some x -> x == wrap_lon obs_lon ->
  model_lat !! l = Some y -> y == obs_lat ->
  (exists xi, model_lon !! i = Some xi /\ xi == wrap_lon obs_lon /\ (i <= k)%nat)
  /\ (exists yj, model_lat !! j = Some yj /\ yj == obs_lat /\ (j <= l)%nat).
Proof.
  intros H Hk Hx Hl Hy. apply find_nearest_grid_point_Ok in H as [Hi Hj].
  apply np_argmin_Ok_first, first_argmin_abs_diff in Hi as (xi & Hxi & Hmi & Hfi).
  apply np_argmin_Ok_first, first_argmin_abs_diff in Hj as (yj & Hyj & Hmj & Hfj).
  split.
  - exists xi. split; [exact Hxi|].
    pose proof (Hmi k x Hk) as Hle. rewrite (float_dist_zero _ _ Hx) in Hle.
    split; [now apply float_dist_zero_inv|].
    destruct (decide (i <= k)%nat) as [|Hn]; [assumption|]. exfalso.
    assert (Hlt : (k < i)%nat) by lia.
    specialize (Hfi k x Hk Hlt). rewrite (float_dist_zero _ _ Hx) in Hfi.
    pose proof (Qabs_nonneg (binary64 (xi - wrap_lon obs_lon))).
    unfold float_dist in Hfi. lra.
  - exists yj. split; [exact Hyj|].
    pose proof (Hmj l y Hl) as Hle. rewrite (float_dist_zero _ _ Hy) in Hle.
    split; [now apply float_dist_zero_inv|].
    destruct (decide (j <= l)%nat) as [|Hn]; [assumption|]. exfalso.
    assert (Hlt : (l < j)%nat) by lia.
    specialize (Hfj l y Hl Hlt). rewrite (float_dist_zero _ _ Hy) in Hfj.
    pose proof (Qabs_nonneg (binary64 (yj - obs_lat))).
    unfold float_dist in Hfj. lra.
Qed.

Lemma find_nearest_grid_point_exact_hit_witness :
  (exists xi, [0; 90; 180; 270] !! 3%nat = Some xi /\ xi == wrap_lon (-90)
              /\ (3 <= 3)%nat)
  /\ (exists yj, [-45; 45; 45] !! 1%nat = Some yj /\ yj == 45 /\ (1 <= 2)%nat).
Proof.
  apply (find_nearest_grid_point_exact_hit (-90) 45 [0; 90; 180; 270] [-45; 45; 45]
           3 1 3 2 270 45); vm_compute; reflexivity.
Defined.

Lemma StronglySorted_lookup_lt (a : list Q) (m n : nat) (x y : Q) :
  StronglySorted Qlt a -> (m < n)%nat ->
  a !! m = Some x -> a !! n = Some y -> x < y.
Proof.
  intros Hs. revert m n. induction Hs as [|z a Hs IH Hall]; intros m n Hmn Hm Hn.
  - now rewrite lookup_nil in Hm.
  - destruct n as [|n]; [lia|]. simpl in Hn.
    destruct m as [|m]; simpl in Hm.
    + injection Hm as <-. rewrite List.Forall_forall in Hall.
      apply Hall. apply list_elem_of_In. eapply list_elem_of_lookup_2; eauto.
    + apply (IH m n); [lia|assumption|assumption].
Qed.

(** On a strictly increasing axis whose differences to the query are exact,
    a coordinate at or beyond the last grid value resolves to the last cell,
    one at or before the first grid value to the first cell. *)
Lemma argmin_sorted_edges (a : list Q) (q : Q) (r : nat) :
  StronglySorted Qlt a -> Forall (exact_diff q) a ->
  np_argmin (abs_diff a q) = Ok r ->
  (forall y, last a = Some y -> y <= q -> r = pred (length a))
  /\ (forall y, head a = Some y -> q <= y -> r = 0%nat).
Proof.
  intros Hs Hex Hr.
  apply np_argmin_abs_diff in Hr as (xr & Hxr & _ & Hmin).
  specialize (Hmin Hex).
  assert (Hlen : (r < length a)%nat) by (eapply lookup_lt_Some; eauto).
  split.
  - intros y Hy Hle. rewrite last_lookup in Hy.
    destruct (decide (r = pred (length a))) as [|Hne]; [assumption|]. exfalso.
    assert (Hlt : (r < pred (length a))%nat) by lia.
    pose proof (StronglySorted_lookup_lt a _ _ _ _ Hs Hlt Hxr Hy) as Hxy.
    destruct (Hmin _ _ Hy) as [Hm _]. unfold axis_dist in Hm.
    rewrite (Qabs_neg (xr - q)), (Qabs_neg (y - q)) in Hm by lra. lra.
  - intros y Hy Hle. rewrite head_lookup in Hy.
    destruct (decide (r = 0%nat)) as [|Hne]; [assumption|]. exfalso.
    assert (Hlt : (0 < r)%nat) by lia.
    pose proof (StronglySorted_lookup_lt a _ _ _ _ Hs Hlt Hy Hxr) as Hxy.
    destruct (Hmin _ _ Hy) as [Hm _]. unfold axis_dist in Hm.
    rewrite (Qabs_pos (xr - q)), (Qabs_pos (y - q)) in Hm by lra. lra.
Qed.

(** X3: On strictly increasing axes, and where the differences between the
    grid coordinates and the query are floats (the subtractions are exact),
    the locator clamps: a query at or beyond the last grid coordinate of an
    axis gets the last index of that axis, a query at or before the first
    coordinate gets index 0 (the longitude after its normalisation). *)
Theorem find_nearest_grid_point_clamps
    (obs_lon obs_lat : Q) (model_lon model_lat : list Q) (i j : nat) :
  StronglySorted Qlt model_lon -> StronglySorted Qlt model_lat ->
  Forall (exact_diff (wrap_lon obs_lon)) model_lon ->
  Forall (exact_diff obs_lat) model_lat ->
  find_nearest_grid_point obs_lon obs_lat model_lon model_lat = Ok (i, j) ->
  (forall x, last model_lon = Some x -> x <= wrap_lon obs_lon ->
             i = pred (length model_lon))
  /\ (forall x, head model_lon = Some x -> wrap_lon obs_lon <= x -> i = 0%nat)
  /\ (forall y, last model_lat = Some y -> y <= obs_lat ->
                j = pred (length model_lat))
  /\ (forall y, head model_lat = Some y -> obs_lat <= y -> j = 0%nat).
Proof.
  intros Hlon Hlat Hxlon Hxlat H. apply find_nearest_grid_point_Ok in H as [Hi Hj].
  destruct (argmin_sorted_edges _ _ _ Hlon Hxlon Hi) as [H1 H2].
  destruct (argmin_sorted_edges _ _ _ Hlat Hxlat Hj) as [H3 H4].
  auto.
Qed.

Lemma find_nearest_grid_point_clamps_witness :
  (forall x, last [0; 90; 180; 270] = Some x -> x <= wrap_lon 355 ->
             3%nat = pred (length [0; 90; 180; 270]))
  /\ (forall x, head [0; 90; 180; 270] = Some x -> wrap_lon 355 <= x -> 3%nat = 0%nat)
  /\ (forall y, last [-45; 45] = Some y -> y <= -80 -> 0%nat = pred (length [-45; 45]))
  /\ (forall y, head [-45; 45] = Some y -> -80 <= y -> 0%nat = 0%nat).
Proof.
  apply (find_nearest_grid_point_clamps 355 (-80) [0; 90; 180; 270] [-45; 45] 3 0).
  - repeat (constructor; [|repeat (constructor; [reflexivity|]); constructor]).
    constructor.
  - repeat (constructor; [|repeat (constructor; [reflexivity|]); constructor]).
    constructor.
  - repeat (constructor; [vm_compute; reflexivity|]). constructor.
  - repeat (constructor; [vm_compute; reflexivity|]). constructor.
  - vm_compute. reflexivity.
Defined.

(** ** Field Sampler: what a run of the loop returns *)

Lemma getitem_Ok_elem (a : ndarray) (idx : list Z) (v : Q) :
  getitem a idx = Ok v -> v ∈ data a.
Proof.
  unfold getitem. destruct (flat_offset 0 idx (shape a)) as [off|]; [|discriminate].
  simpl. destruct (data a !! off) as [x|] eqn:E; [|discriminate].
  intros H. injection H as <-. eapply list_elem_of_lookup_2; eauto.
Qed.

Lemma sample_value_Ok_elem (variable : string) (var_data : ndarray)
    (time_idx : Z) (i j : nat) (v : Q) :
  sample_value variable var_data time_idx i j = Ok v -> v ∈ data var_data.
Proof.
  unfold sample_value.
  destruct (decide _); [apply getitem_Ok_elem|].
  destruct (decide _); [apply getitem_Ok_elem|discriminate].
Qed.

Lemma combine_length_min {A B} (l : list A) (k : list B) :
  length (combine l k) = Nat.min (length l) (length k).
Proof.
  revert k. induction l as [|x l IH]; intros [|y k]; simpl; auto.
Qed.

Lemma sample_nature_run_elems
    (nature_data : gmap string ndarray) (obs_lons obs_lats : list Q)
    (variable : string) (time_idx : Z) (vals : list Q) :
  sample_nature_run nature_data obs_lons obs_lats variable time_idx = Ok vals ->
  exists var_data, nature_data !! variable = Some var_data
    /\ Forall (fun v => v ∈ data var_data) vals.
Proof.
  intros H. unfold sample_nature_run, dict_get in H.
  destruct (nature_data !! "lon") as [mlon|]; [|discriminate].
  destruct (nature_data !! "lat") as [mlat|]; [|discriminate].
  destruct (nature_data !! variable) as [vd|]; [|discriminate].
  simpl in H. exists vd. split; [reflexivity|].
  apply sample_loop_Ok in H.
  induction H as [|loc v locs vals (i & j & _ & Hv) _ IH]; constructor.
  - eapply sample_value_Ok_elem; eauto.
  - exact IH.
Qed.

(** X4: The sampler never interpolates: it returns one value per location
    pair (the shorter of the two coordinate lists decides how many), and
    every value is an element stored in the field. *)
Theorem sample_nature_run_stored_values
    (nature_data : gmap string ndarray) (obs_lons obs_lats : list Q)
    (variable : string) (time_idx : Z) (vals : list Q) :
  sample_nature_run nature_data obs_lons obs_lats variable time_idx = Ok vals ->
  length vals = Nat.min (length obs_lons) (length obs_lats)
  /\ exists var_data, nature_data !! variable = Some var_data
       /\ Forall (fun v => v ∈ data var_data) vals.
Proof.
  intros H. split.
  - rewrite (sample_nature_run_length _ _ _ _ _ _ H). apply combine_length_min.
  - eapply sample_nature_run_elems; eauto.
Qed.

Lemma sample_nature_run_stored_values_witness :
  length [14; 13] = Nat.min (length [10; 170; 20]) (length [40; -40])
  /\ exists var_data, sample_nature !! "tas" = Some var_data
       /\ Forall (fun v => v ∈ data var_data) [14; 13].
Proof.
  apply (sample_nature_run_stored_values sample_nature [10; 170; 20] [40; -40]
           "tas" 3 [14; 13]).
  vm_compute. reflexivity.
Defined.

Lemma sample_value_rank3 (variable : string) (var_data : ndarray)
    (time_idx : Z) (i j T J I : nat) :
  wf_ndarray var_data -> shape var_data = [T; J; I] ->
  (- Z.of_nat T <= time_idx < Z.of_nat T)%Z -> (j < J)%nat -> (i < I)%nat ->
  exists v,
    data var_data !! ((Z.to_nat (time_idx mod Z.of_nat T) * J + j) * I + i)%nat
    = Some v
    /\ sample_value variable var_data time_idx i j = Ok v.
Proof.
  intros Hwf Hs Ht Hj Hi. unfold wf_ndarray in Hwf.
  unfold sample_value, ndim, getitem. rewrite Hs in *. simpl in *.
  rewrite norm_index_mod by exact Ht. simpl.
  rewrite !norm_index_nat by assumption. simpl.
  set (t := Z.to_nat (time_idx mod Z.of_nat T)).
  assert (Hlt : ((t * J + j) * I + i < length (data var_data))%nat).
  { rewrite Hwf.
    assert (t < T)%nat
      by (pose proof (Z.mod_pos_bound time_idx (Z.of_nat T)); lia).
    replace (T * (J * (I * 1)))%nat with (T * J * I)%nat by lia.
    auto using offset_step. }
  destruct (lookup_lt_is_Some_2 _ _ Hlt) as [v Hv].
  exists v. rewrite Hv. split; reflexivity.
Qed.

(** X5: When the field is a well-formed rank-3 array whose last two extents
    are those of the latitude and longitude axes, the axes are not empty and
    the time index is a valid subscript, sampling succeeds for any list of
    locations, and each value is the one stored at the time slice and at the
    cell the Grid Locator names for its location. *)
Theorem sample_nature_run_succeeds
    (nature_data : gmap string ndarray) (obs_lons obs_lats : list Q)
    (variable : string) (time_idx : Z)
    (model_lon model_lat var_data : ndarray) (T : nat) :
  nature_data !! "lon" = Some model_lon ->
  nature_data !! "lat" = Some model_lat ->
  nature_data !! variable = Some var_data ->
  wf_ndarray var_data ->
  shape var_data = [T; length (data model_lat); length (data model_lon)] ->
  data model_lon <> [] -> data model_lat <> [] ->
  (- Z.of_nat T <= time_idx < Z.of_nat T)%Z ->
  exists vals,
    sample_nature_run nature_data obs_lons obs_lats variable time_idx = Ok vals
    /\ Forall2 (fun loc v =>
         exists i j,
           find_nearest_grid_point loc.1 loc.2 (data model_lon) (data model_lat)
           = Ok (i, j)
           /\ data var_data
                !! ((Z.to_nat (time_idx mod Z.of_nat T) * length (data model_lat) + j)
                    * length (data model_lon) + i)%nat = Some v)
         (combine obs_lons obs_lats) vals.
Proof.
  intros Hlon Hlat Hvar Hwf Hs Hne1 Hne2 Ht.
  unfold sample_nature_run, dict_get. rewrite Hlon, Hlat, Hvar. simpl.
  induction (combine obs_lons obs_lats) as [|[lo la] locs IH].
  - exists []. split; [reflexivity|constructor].
  - destruct IH as (rest & Hrest & Hall).
    destruct (find_nearest_grid_point lo la (data model_lon) (data model_lat))
      as [[i j]|e] eqn:Ef.
    2:{ exfalso.
        destruct (find_nearest_grid_point_nonempty _ _ _ _ _ Ef); contradiction. }
    destruct (find_nearest_grid_point_bounds _ _ _ _ _ _ Ef) as [Hi Hj].
    destruct (sample_value_rank3 variable var_data time_idx i j _ _ _
                Hwf Hs Ht Hj Hi) as (v & Hv & Hsv).
    exists (v :: rest). split.
    + simpl. rewrite Ef. simpl. rewrite Hsv. simpl. rewrite Hrest. reflexivity.
    + constructor; [|exact Hall]. exists i, j. auto.
Qed.

Lemma sample_nature_run_succeeds_witness :
  exists vals,
    sample_nature_run sample_nature [10; 170] [40; -40] "tas" (-2) = Ok vals
    /\ Forall2 (fun loc v =>
         exists i j,
           find_nearest_grid_point loc.1 loc.2 [0; 180] [-45; 45] = Ok (i, j)
           /\ data field3 !! ((Z.to_nat (-2 mod Z.of_nat 5) * 2 + j) * 2 + i)%nat
              = Some v)
         (combine [10; 170] [40; -40]) vals.
Proof.
  apply (sample_nature_run_succeeds sample_nature [10; 170] [40; -40] "tas" (-2)
           (mk_ndarray [2%nat] [0; 180]) (mk_ndarray [2%nat] [-45; 45]) field3 5);
    try (vm_compute; reflexivity); try discriminate; lia.
Defined.

Lemma norm_index_out_of_range (k : Z) (dim : nat) :
  ~ (- Z.of_nat dim <= k < Z.of_nat dim)%Z ->
  norm_index k dim = Raise (IndexError "index is out of bounds for axis").
Proof.
  intros H. unfold norm_index.
  destruct ((0 <=? k)%Z && (k <? Z.of_nat dim)%Z) eqn:E1.
  { apply andb_true_iff in E1 as [E0 E1].
    apply Z.leb_le in E0. apply Z.ltb_lt in E1. lia. }
  destruct ((- Z.of_nat dim <=? k)%Z && (k <? 0)%Z) eqn:E2; [|reflexivity].
  apply andb_true_iff in E2 as [E0 E2].
  apply Z.leb_le in E0. apply Z.ltb_lt in E2. lia.
Qed.

(** X6: A time index outside [-T, T) (a year past the end of the time axis)
    makes the sampler raise [IndexError] as soon as there is one location to
    sample, for a field of rank 3 or 4 with [T] time slices. *)
Theorem sample_nature_run_time_out_of_range
    (nature_data : gmap string ndarray) (lo la : Q) (obs_lons obs_lats : list Q)
    (variable : string) (time_idx : Z)
    (model_lon model_lat var_data : ndarray) (T : nat) (rest : list nat) :
  nature_data !! "lon" = Some model_lon ->
  nature_data !! "lat" = Some model_lat ->
  nature_data !! variable = Some var_data ->
  shape var_data = T :: rest -> (length rest = 2 \/ length rest = 3)%nat ->
  data model_lon <> [] -> data model_lat <> [] ->
  ~ (- Z.of_nat T <= time_idx < Z.of_nat T)%Z ->
  sample_nature_run nature_data (lo :: obs_lons) (la :: obs_lats) variable time_idx
  = Raise (IndexError "index is out of bounds for axis").
Proof.
  intros Hlon Hlat Hvar Hs Hrank Hne1 Hne2 Ht.
  unfold sample_nature_run, dict_get. rewrite Hlon, Hlat, Hvar. simpl.
  destruct (find_nearest_grid_point lo la (data model_lon) (data model_lat))
    as [[i j]|e] eqn:Ef.
  2:{ exfalso.
      destruct (find_nearest_grid_point_nonempty _ _ _ _ _ Ef); contradiction. }
  simpl. unfold sample_value, ndim, getitem. rewrite Hs. simpl.
  rewrite (norm_index_out_of_range _ _ Ht).
  destruct Hrank as [Hr|Hr]; rewrite Hr; simpl.
  - destruct rest as [|J rest]; [discriminate|]. reflexivity.
  - destruct rest as [|L rest]; [discriminate|]. reflexivity.
Qed.

Lemma sample_nature_run_time_out_of_range_witness :
  sample_nature_run sample_nature [10] [40] "tas" 5
  = Raise (IndexError "index is out of bounds for axis").
Proof.
  apply (sample_nature_run_time_out_of_range sample_nature 10 40 [] [] "tas" 5
           (mk_ndarray [2%nat] [0; 180]) (mk_ndarray [2%nat] [-45; 45]) field3
           5 [2; 2]%nat);
    try (vm_compute; reflexivity); try discriminate; [left; reflexivity|lia].
Defined.

(** ** Noise Model: the precipitation branch, shapes, unknown tags *)

Section NoiseModelMore.

Context `{NR : NumpyRandom}.

Lemma normal_draws_state (loc : Q) (scales : list Q) (st : RandomState) :
  (normal_draws loc scales st).2 = advance_normal (length scales) st.
Proof.
  revert st. induction scales as [|s scales IH]; intros st; [reflexivity|].
  rewrite normal_draws_cons. simpl. apply IH.
Qed.

Lemma normal_draws_lookup (loc : Q) (scales : list Q) (st : RandomState)
    (k : nat) (s : Q) :
  scales !! k = Some s ->
  (normal_draws loc scales st).1 !! k = Some (loc + s * nth_normal st k).
Proof.
  revert st k. induction scales as [|s0 scales IH]; intros st k Hk.
  - now rewrite lookup_nil in Hk.
  - rewrite normal_draws_cons. destruct k as [|k]; simpl in *.
    + now injection Hk as ->.
    + rewrite (IH _ _ Hk). reflexivity.
Qed.

(** The precipitation branch, observation by observation. *)
Lemma add_observation_noise_pr_lookup (values : list Q) (w : World)
    (k : nat) (v : Q) :
  values !! k = Some v ->
  exists noisy errors w',
    add_observation_noise values "pr" w = (Ok (noisy, errors), w')
    /\ noisy !! k = Some (v + (0 + 0.1 * Qabs v * nth_normal (rng w) k))
    /\ errors !! k = Some (0.1 * Qabs v).
Proof.
  intros Hk. rewrite add_observation_noise_pr. cbv zeta.
  do 3 eexists. split; [reflexivity|].
  assert (Hs : map (fun v => 0.1 * Qabs v) values !! k = Some (0.1 * Qabs v))
    by (rewrite list_lookup_fmap, Hk; reflexivity).
  split; [|exact Hs].
  rewrite lookup_zip_with, Hk. simpl.
  rewrite (normal_draws_lookup _ _ _ _ _ Hs). reflexivity.
Qed.

(** X7: For the tag 'pr' the call always returns; observation [k] is
    perturbed by draw number [k] of the generator, scaled by a tenth of the
    magnitude of its own true value, and the generator is left advanced by
    as many draws as there are observations. *)
Theorem add_observation_noise_pr_per_observation (values : list Q) (w : World) :
  exists noisy errors w',
    add_observation_noise values "pr" w = (Ok (noisy, errors), w')
    /\ rng w' = advance_normal (length values) (rng w)
    /\ dirs w' = dirs w /\ files w' = files w
    /\ forall k v, values !! k = Some v ->
         noisy !! k = Some (v + (0 + 0.1 * Qabs v * nth_normal (rng w) k))
         /\ errors !! k = Some (0.1 * Qabs v).
Proof.
  rewrite add_observation_noise_pr. cbv zeta. do 3 eexists.
  split; [reflexivity|]. cbn [rng dirs files set_rng].
  split; [now rewrite normal_draws_state, length_map|].
  split; [reflexivity|]. split; [reflexivity|].
  intros k v Hk.
  destruct (add_observation_noise_pr_lookup values w k v Hk)
    as (noisy & errors & w' & E & Hn & He).
  rewrite add_observation_noise_pr in E. cbv zeta in E.
  injection E as <- <- _. auto.
Qed.


(** X9: The two vectors returned are parallel to the input, and only the tags
    'tas' and 'pr' are served: any other tag raises [ValueError] naming it,
    before the generator is touched. *)
Theorem add_observation_noise_shapes (values : list Q) (variable : string)
    (w : World) :
  (variable <> "tas" -> variable <> "pr" ->
   add_observation_noise values variable w
   = (Raise (ValueError ("Unknown variable: " ++ variable)), w))
  /\ (forall noisy errors w',
        add_observation_noise values variable w = (Ok (noisy, errors), w') ->
        (variable = "tas" \/ variable = "pr")
        /\ length noisy = length values /\ length errors = length values).
Proof.
  split.
  - intros H1 H2. unfold add_observation_noise, bind, raise.
    apply String.eqb_neq in H1, H2. now rewrite H1, H2.
  - intros noisy errors w' H.
    destruct (String.eqb variable "tas") eqn:E1.
    + apply String.eqb_eq in E1. subst variable.
      rewrite add_observation_noise_tas in H. injection H as <- <- _.
      split; [now left|]. now rewrite length_map, length_replicate.
    + destruct (String.eqb variable "pr") eqn:E2.
      * apply String.eqb_eq in E2. subst variable.
        rewrite add_observation_noise_pr in H. cbv zeta in H.
        injection H as <- <- _. split; [now right|].
        rewrite length_zip_with, length_map, normal_draws_length, length_map.
        split; [lia|reflexivity].
      * unfold add_observation_noise, bind, raise in H.
        rewrite E1, E2 in H. discriminate H.
Qed.

End NoiseModelMore.


(** ** Network Sampler: when it returns, and where the locations come from *)

Section NetworkSamplerMore.

Context `{NR : NumpyRandom}.

Lemma uniform_draws_cons (low high : Q) (n : nat) (st : RandomState) :
  uniform_draws low high (S n) st
  = ((low + (high - low) * (random_sample st).1)
       :: (uniform_draws low high n (random_sample st).2).1,
     (uniform_draws low high n (random_sample st).2).2).
Proof.
  simpl. destruct (random_sample st) as [u st1]. simpl.
  now destruct (uniform_draws low high n st1).
Qed.

Lemma uniform_draws_state (low high : Q) (n : nat) (st : RandomState) :
  (uniform_draws low high n st).2 = advance_uniform n st.
Proof.
  revert st. induction n as [|n IH]; intros st; [reflexivity|].
  rewrite uniform_draws_cons. simpl. apply IH.
Qed.

Lemma uniform_draws_lookup (low high : Q) (n : nat) (st : RandomState) (k : nat) :
  (k < n)%nat ->
  (uniform_draws low high n st).1 !! k
  = Some (low + (high - low) * nth_uniform st k).
Proof.
  revert st k. induction n as [|n IH]; intros st k Hk; [lia|].
  rewrite uniform_draws_cons. destruct k as [|k]; simpl; [reflexivity|].
  rewrite IH by lia. reflexivity.
Qed.

Lemma advance_uniform_add (n k : nat) (st : RandomState) :
  advance_uniform k (advance_uniform n st) = advance_uniform (n + k) st.
Proof.
  revert st. induction n as [|n IH]; intros st; [reflexivity|]. simpl. apply IH.
Qed.

Lemma uniform_draws_in_range (low high : Q) (n : nat) (st : RandomState) :
  (forall s, 0 <= (random_sample s).1 /\ (random_sample s).1 < 1) ->
  low <= high ->
  Forall (fun x => low <= x /\ x <= high) (uniform_draws low high n st).1.
Proof.
  intros Hu Hle. revert st. induction n as [|n IH]; intros st.
  - constructor.
  - rewrite uniform_draws_cons. simpl. constructor; [|apply IH].
    destruct (Hu st) as [H0 H1]. set (u := (random_sample st).1) in *.
    assert (0 <= (high - low) * u) by (apply Qmult_le_0_compat; lra).
    assert ((high - low) * u <= (high - low) * 1) by nra.
    split; lra.
Qed.

(** What a call returns when it returns, from either kind of call. *)
Lemma generate_random_locations_Ok
    (n_obs : Z) (lon_range lat_range : Q * Q) (seed : option Z)
    (w w' : World) (lons lats : list Q) :
  generate_random_locations n_obs lon_range lat_range seed w
  = (Ok (lons, lats), w') ->
  exists st,
    st = match seed with Some s => seed_state s | None => rng w end
    /\ (0 <= n_obs)%Z
    /\ lons = (uniform_draws lon_range.1 lon_range.2 (Z.to_nat n_obs) st).1
    /\ lats = (uniform_draws lat_range.1 lat_range.2 (Z.to_nat n_obs)
                 (advance_uniform (Z.to_nat n_obs) st)).1.
Proof.
  unfold generate_random_locations, bind, ret, np_random_seed, np_random_uniform.
  intros H. eexists. split; [reflexivity|].
  destruct seed as [s|].
  - destruct ((0 <=? s)%Z && (s <? 2 ^ 32)%Z); [|discriminate].
    cbn [rng set_rng] in H.
    destruct (n_obs <? 0)%Z eqn:En; [discriminate|]. apply Z.ltb_ge in En.
    pose proof (uniform_draws_state lon_range.1 lon_range.2 (Z.to_nat n_obs)
                  (seed_state s)) as Hst.
    destruct (uniform_draws _ _ _ (seed_state s)) as [l1 st1].
    cbn [rng set_rng] in H. simpl in Hst. subst st1.
    destruct (uniform_draws lat_range.1 _ _ _) as [l2 st2] eqn:E2.
    injection H as <- <- _. auto.
  - destruct (n_obs <? 0)%Z eqn:En; [discriminate|]. apply Z.ltb_ge in En.
    pose proof (uniform_draws_state lon_range.1 lon_range.2 (Z.to_nat n_obs)
                  (rng w)) as Hst.
    destruct (uniform_draws _ _ _ (rng w)) as [l1 st1].
    cbn [rng set_rng] in H. simpl in Hst. subst st1.
    destruct (uniform_draws lat_range.1 _ _ _) as [l2 st2] eqn:E2.
    injection H as <- <- _. auto.
Qed.

(** X10: Provided the generator draws in [0, 1) and the ranges are not
    inverted, a call that returns gives [n_obs] longitudes and [n_obs]
    latitudes, every one inside its range. *)
Theorem generate_random_locations_in_box
    (n_obs : Z) (lon_range lat_range : Q * Q) (seed : option Z)
    (w w' : World) (lons lats : list Q) :
  (forall s, 0 <= (random_sample s).1 /\ (random_sample s).1 < 1) ->
  lon_range.1 <= lon_range.2 -> lat_range.1 <= lat_range.2 ->
  generate_random_locations n_obs lon_range lat_range seed w
  = (Ok (lons, lats), w') ->
  length lons = Z.to_nat n_obs /\ length lats = Z.to_nat n_obs
  /\ Forall (fun x => lon_range.1 <= x /\ x <= lon_range.2) lons
  /\ Forall (fun y => lat_range.1 <= y /\ y <= lat_range.2) lats.
Proof.
  intros Hu Hlon Hlat H.
  apply generate_random_locations_Ok in H as (st & _ & _ & -> & ->).
  rewrite !uniform_draws_length.
  auto using uniform_draws_in_range.
Qed.

(** X11: A seeded call returns exactly when numpy accepts the seed and the
    count is not negative.  A seed outside [0, 2^32) is refused with the
    generator untouched; a negative count is refused after the generator has
    been reseeded. *)
Theorem generate_random_locations_returns_iff
    (n_obs : Z) (lon_range lat_range : Q * Q) (seed : Z) (w : World) :
  ((exists locs, (generate_random_locations n_obs lon_range lat_range
                    (Some seed) w).1 = Ok locs)
   <-> ((0 <= seed < 2 ^ 32)%Z /\ (0 <= n_obs)%Z))
  /\ (~ (0 <= seed < 2 ^ 32)%Z ->
      generate_random_locations n_obs lon_range lat_range (Some seed) w
      = (Raise (ValueError "Seed must be between 0 and 2**32 - 1"), w))
  /\ ((0 <= seed < 2 ^ 32)%Z -> (n_obs < 0)%Z ->
      generate_random_locations n_obs lon_range lat_range (Some seed) w
      = (Raise (ValueError "negative dimensions are not allowed"),
         set_rng (seed_state seed) w)).
Proof.
  rewrite generate_random_locations_seeded.
  destruct ((0 <=? seed)%Z && (seed <? 2 ^ 32)%Z) eqn:Es.
  - apply andb_true_iff in Es as [E0 E1].
    apply Z.leb_le in E0. apply Z.ltb_lt in E1.
    destruct (n_obs <? 0)%Z eqn:En.
    + apply Z.ltb_lt in En. split; [|split].
      * split; [intros [locs H]; discriminate H|lia].
      * lia.
      * reflexivity.
    + apply Z.ltb_ge in En. split; [|split].
      * split; [lia|]. intros _. eexists. reflexivity.
      * lia.
      * lia.
  - assert (~ (0 <= seed < 2 ^ 32)%Z).
    { intros [H0 H1]. apply Z.leb_le in H0. apply Z.ltb_lt in H1.
      rewrite H0, H1 in Es. discriminate. }
    split; [|split].
    + split; [intros [locs H']; discriminate H'|tauto].
    + reflexivity.
    + tauto.
Qed.

(** X12: The order of the draws behind a seeded network: longitude [k] is made
    from uniform draw number [k] after seeding, latitude [k] from draw
    number [n_obs + k] (all longitudes are drawn before any latitude). *)
Theorem generate_random_locations_draw_order
    (n_obs : Z) (lon_range lat_range : Q * Q) (seed : Z)
    (w w' : World) (lons lats : list Q) (k : nat) :
  generate_random_locations n_obs lon_range lat_range (Some seed) w
  = (Ok (lons, lats), w') ->
  (k < Z.to_nat n_obs)%nat ->
  lons !! k
  = Some (lon_range.1 + (lon_range.2 - lon_range.1)
                        * nth_uniform (seed_state seed) k)
  /\ lats !! k
     = Some (lat_range.1 + (lat_range.2 - lat_range.1)
                           * nth_uniform (seed_state seed) (Z.to_nat n_obs + k)).
Proof.
  intros H Hk.
  apply generate_random_locations_Ok in H as (st & -> & _ & -> & ->).
  rewrite !uniform_draws_lookup by exact Hk.
  split; [reflexivity|].
  unfold nth_uniform. now rewrite advance_uniform_add.
Qed.

End NetworkSamplerMore.

Lemma lcg_unit_interval (s : @RandomState lcg) :
  0 <= (@random_sample lcg s).1 /\ (@random_sample lcg s).1 < 1.
Proof.
  pose proof (Z.mod_pos_bound (lcg_next s) 1000 eq_refl) as [H0 H1].
  split; [unfold Qle|unfold Qlt]; simpl; lia.
Qed.

Lemma sample_network_run :
  @generate_random_locations lcg 2 (0, 180) (-45, 45) (Some 6%Z) sample_world
  = (Ok (sample_lons, sample_lats),
     (@generate_random_locations lcg 2 (0, 180) (-45, 45) (Some 6%Z)
        sample_world).2).
Proof. apply run_Ok. vm_compute. reflexivity. Qed.

Lemma generate_random_locations_in_box_witness :
  length sample_lons = Z.to_nat 2 /\ length sample_lats = Z.to_nat 2
  /\ Forall (fun x => (0, 180).1 <= x /\ x <= (0, 180).2) sample_lons
  /\ Forall (fun y => (-45, 45).1 <= y /\ y <= (-45, 45).2) sample_lats.
Proof.
  apply (@generate_random_locations_in_box lcg 2 (0, 180) (-45, 45) (Some 6%Z)
           sample_world
           (@generate_random_locations lcg 2 (0, 180) (-45, 45) (Some 6%Z)
              sample_world).2
           sample_lons sample_lats lcg_unit_interval).
  - discriminate.
  - discriminate.
  - exact sample_network_run.
Defined.

Lemma generate_random_locations_draw_order_witness :
  sample_lons !! 1%nat
  = Some ((0, 180).1 + ((0, 180).2 - (0, 180).1)
                       * @nth_uniform lcg (@seed_state lcg 6) 1)
  /\ sample_lats !! 1%nat
     = Some ((-45, 45).1 + ((-45, 45).2 - (-45, 45).1)
                           * @nth_uniform lcg (@seed_state lcg 6) (Z.to_nat 2 + 1)).
Proof.
  apply (@generate_random_locations_draw_order lcg 2 (0, 180) (-45, 45) 6
           sample_world
           (@generate_random_locations lcg 2 (0, 180) (-45, 45) (Some 6%Z)
              sample_world).2
           sample_lons sample_lats 1 sample_network_run).
  simpl. lia.
Defined.

(** ** The loader: when it returns and what it returns *)

Lemma find_var_is_Some (ds : gmap string ndarray) (names : list string) :
  is_Some (find_var ds names)
  <-> exists name, name ∈ names /\ is_Some (ds !! name).
Proof.
  induction names as [|n names IH]; simpl.
  - split; [intros [? H]; discriminate H|].
    intros (name & H & _). now apply elem_of_nil in H.
  - destruct (ds !! n) as [v|] eqn:E.
    + split; [|eauto]. intros _. exists n. split; [apply list_elem_of_here|].
      rewrite E. eauto.
    + rewrite IH. split.
      * intros (name & Hin & Hs). exists name. split; [|exact Hs].
        now apply list_elem_of_further.
      * intros (name & Hin & Hs). apply elem_of_cons in Hin as [->|Hin].
        -- rewrite E in Hs. destruct Hs as [? Hs]. discriminate Hs.
        -- eauto.
Qed.

Lemma find_var_first (ds : gmap string ndarray) (pre post : list string)
    (name : string) (v : ndarray) :
  (forall n, n ∈ pre -> ds !! n = None) -> ds !! name = Some v ->
  find_var ds (pre ++ name :: post) = Some v.
Proof.
  intros Hpre Hv. induction pre as [|n pre IH]; simpl.
  - now rewrite Hv.
  - rewrite (Hpre n) by apply list_elem_of_here.
    apply IH. intros m Hm. apply Hpre. now apply list_elem_of_further.
Qed.

Lemma get_or_is_Ok (ds : gmap string ndarray) (a b : string) :
  (exists v, get_or ds a b = Ok v) <-> (is_Some (ds !! a) \/ is_Some (ds !! b)).
Proof.
  unfold get_or, dict_get. destruct (ds !! a) as [va|].
  - split; eauto.
  - destruct (ds !! b) as [vb|].
    + split; eauto.
    + split; [intros [v H]; discriminate H|].
      intros [[? H]|[? H]]; discriminate H.
Qed.

(** X13: The loader returns exactly when the data source has a longitude axis
    ([lon] or [longitude]), a latitude axis ([lat] or [latitude]), some
    synonym of the temperature field and some synonym of the precipitation
    field; a time axis is not required. *)
Theorem load_nature_run_data_returns_iff (ds : gmap string ndarray) :
  (exists nature_data, load_nature_run_data ds = Ok nature_data)
  <-> ((is_Some (ds !! "lon") \/ is_Some (ds !! "longitude"))
       /\ (is_Some (ds !! "lat") \/ is_Some (ds !! "latitude"))
       /\ (exists name, name ∈ tas_names /\ is_Some (ds !! name))
       /\ (exists name, name ∈ pr_names /\ is_Some (ds !! name))).
Proof.
  rewrite <- !get_or_is_Ok, <- !find_var_is_Some.
  unfold load_nature_run_data.
  destruct (get_or ds "lon" "longitude") as [lon|]; cbn [rbind].
  2:{ split; [intros [? H]; discriminate H|]. intros ([? H] & _). discriminate H. }
  destruct (get_or ds "lat" "latitude") as [lat|]; cbn [rbind].
  2:{ split; [intros [? H]; discriminate H|]. intros (_ & [? H] & _). discriminate H. }
  destruct (find_var ds tas_names) as [tas|].
  2:{ split; [intros [? H]; discriminate H|].
      intros (_ & _ & [? H] & _). discriminate H. }
  destruct (find_var ds pr_names) as [pr|].
  2:{ split; [intros [? H]; discriminate H|].
      intros (_ & _ & _ & [? H]). discriminate H. }
  split; eauto 10.
Qed.

(** X14: Which variable the loader takes when several names are present: the
    first synonym in the order tas, temp, temperature, t2m, t_ref (and pr,
    precip, precipitation, rain, prec), and [lon] and [lat] before
    [longitude] and [latitude]. *)
Theorem load_nature_run_data_priority
    (ds nature_data : gmap string ndarray) :
  load_nature_run_data ds = Ok nature_data ->
  (forall pre name post v,
      tas_names = pre ++ name :: post ->
      (forall n, n ∈ pre -> ds !! n = None) -> ds !! name = Some v ->
      nature_data !! "tas" = Some v)
  /\ (forall pre name post v,
      pr_names = pre ++ name :: post ->
      (forall n, n ∈ pre -> ds !! n = None) -> ds !! name = Some v ->
      nature_data !! "pr" = Some v)
  /\ (forall v, ds !! "lon" = Some v -> nature_data !! "lon" = Some v)
  /\ (ds !! "lon" = None -> nature_data !! "lon" = ds !! "longitude")
  /\ (forall v, ds !! "lat" = Some v -> nature_data !! "lat" = Some v)
  /\ (ds !! "lat" = None -> nature_data !! "lat" = ds !! "latitude").
Proof.
  unfold load_nature_run_data, get_or, dict_get. intros H.
  destruct (ds !! "lon") as [lon0|] eqn:Elon0;
    [|destruct (ds !! "longitude") as [lon1|] eqn:Elon1; [|discriminate H]];
    (destruct (ds !! "lat") as [lat0|] eqn:Elat0;
     [|destruct (ds !! "latitude") as [lat1|] eqn:Elat1; [|discriminate H]]);
    cbn [rbind] in H;
    (destruct (find_var ds tas_names) as [tas|] eqn:Et; [|discriminate H]);
    (destruct (find_var ds pr_names) as [pr|] eqn:Ep; [|discriminate H]);
    injection H as <-;
    (split; [intros pre name post v Hn Hpre Hv; rewrite Hn in Et;
             rewrite (find_var_first _ _ _ _ _ Hpre Hv) in Et;
             injection Et as ->; reflexivity|]);
    (split; [intros pre name post v Hn Hpre Hv; rewrite Hn in Ep;
             rewrite (find_var_first _ _ _ _ _ Hpre Hv) in Ep;
             injection Ep as ->; reflexivity|]);
    repeat split; try (intros v Hv; injection Hv as <-); try discriminate;
    reflexivity.
Qed.

Lemma load_nature_run_data_priority_witness :
  (forall pre name post v,
      tas_names = pre ++ name :: post ->
      (forall n, n ∈ pre -> sample_ds !! n = None) -> sample_ds !! name = Some v ->
      sample_nature !! "tas" = Some v)
  /\ (forall pre name post v,
      pr_names = pre ++ name :: post ->
      (forall n, n ∈ pre -> sample_ds !! n = None) -> sample_ds !! name = Some v ->
      sample_nature !! "pr" = Some v)
  /\ (forall v, sample_ds !! "lon" = Some v -> sample_nature !! "lon" = Some v)
  /\ (sample_ds !! "lon" = None -> sample_nature !! "lon" = sample_ds !! "longitude")
  /\ (forall v, sample_ds !! "lat" = Some v -> sample_nature !! "lat" = Some v)
  /\ (sample_ds !! "lat" = None -> sample_nature !! "lat" = sample_ds !! "latitude").
Proof.
  apply (load_nature_run_data_priority sample_ds sample_nature).
  vm_compute. reflexivity.
Defined.

(** X15: The dictionary the loader returns has exactly the keys tas, pr, lon,
    lat and time; without a time axis in the source, time is the array
    0, 1, ..., 999. *)
Theorem load_nature_run_data_keys (ds nature_data : gmap string ndarray) :
  load_nature_run_data ds = Ok nature_data ->
  dom nature_data = ({["tas"; "pr"; "lon"; "lat"; "time"]} : gset string)
  /\ (forall t, ds !! "time" = Some t -> nature_data !! "time" = Some t)
  /\ (ds !! "time" = None ->
      exists t, nature_data !! "time" = Some t
        /\ shape t = [1000%nat]
        /\ forall k, (k < 1000)%nat -> data t !! k = Some (inject_Z (Z.of_nat k))).
Proof.
  unfold load_nature_run_data. intros H.
  destruct (get_or ds "lon" "longitude") as [lon|]; [|discriminate H].
  destruct (get_or ds "lat" "latitude") as [lat|]; [|discriminate H].
  cbn [rbind] in H.
  destruct (find_var ds tas_names) as [tas|]; [|discriminate H].
  destruct (find_var ds pr_names) as [pr|]; [|discriminate H].
  injection H as <-. split; [|split].
  - rewrite !dom_insert_L, dom_empty_L. set_solver.
  - intros t Ht. rewrite Ht. reflexivity.
  - intros Ht. rewrite Ht. eexists. split; [reflexivity|].
    split; [reflexivity|]. intros k Hk.
    change (map (fun k => inject_Z (Z.of_nat k)) (seq 0 1000) !! k
            = Some (inject_Z (Z.of_nat k))).
    rewrite list_lookup_fmap, lookup_seq_lt by exact Hk. reflexivity.
Qed.

Lemma load_nature_run_data_keys_witness :
  dom sample_nature = ({["tas"; "pr"; "lon"; "lat"; "time"]} : gset string)
  /\ (forall t, sample_ds !! "time" = Some t -> sample_nature !! "time" = Some t)
  /\ (sample_ds !! "time" = None ->
      exists t, sample_nature !! "time" = Some t
        /\ shape t = [1000%nat]
        /\ forall k, (k < 1000)%nat -> data t !! k = Some (inject_Z (Z.of_nat k))).
Proof.
  apply (load_nature_run_data_keys sample_ds sample_nature).
  vm_compute. reflexivity.
Defined.

(** ** File names *)

Lemma digits_of_nonneg (n : Z) :
  (0 <= n)%Z ->
  exists d, d <> Decimal.Nil
    /\ str_of_Z n = NilEmpty.string_of_uint d /\ Z.of_uint d = n.
Proof.
  intros Hn. destruct n as [|p|p]; [| |lia].
  - exists (Decimal.D0 Decimal.Nil). repeat split. discriminate.
  - exists (Pos.to_uint p). split; [apply Unsigned.to_uint_nonnil|]. split.
    + unfold str_of_Z, NilZero.string_of_int, Z.to_int, NilZero.string_of_uint.
      pose proof (Unsigned.to_uint_nonnil p) as Hnn.
      destruct (Pos.to_uint p); [contradiction|reflexivity..].
    + unfold Z.of_uint. now rewrite DecimalPos.Unsigned.of_to.
Qed.

Lemma digits_start (d : Decimal.uint) :
  d <> Decimal.Nil ->
  exists a s, NilEmpty.string_of_uint d = String a s /\ a <> "-"%char.
Proof.
  intros Hd. destruct d; [contradiction|..]; simpl;
    do 2 eexists; (split; [reflexivity|discriminate]).
Qed.

Lemma zeros_start (k : nat) (t : string) :
  (exists a s, t = String a s /\ a <> "-"%char) ->
  exists a s, (replicate_char k "0" ++ t)%string = String a s /\ a <> "-"%char.
Proof.
  intros H. destruct k as [|k]; [exact H|].
  exists "0"%char, (replicate_char k "0" ++ t)%string.
  split; [reflexivity|discriminate].
Qed.

Lemma uint_of_string_zeros (k : nat) (d : Decimal.uint) :
  NilEmpty.uint_of_string (replicate_char k "0" ++ NilEmpty.string_of_uint d)
  = Some (Nat.iter k Decimal.D0 d).
Proof.
  induction k as [|k IH].
  - apply NilEmpty.usu.
  - change (uint_of_char "0"
              (NilEmpty.uint_of_string
                 (replicate_char k "0" ++ NilEmpty.string_of_uint d))
            = Some (Decimal.D0 (Nat.iter k Decimal.D0 d))).
    rewrite IH. reflexivity.
Qed.

Lemma of_uint_zeros (k : nat) (d : Decimal.uint) :
  Z.of_uint (Nat.iter k Decimal.D0 d) = Z.of_uint d.
Proof. induction k as [|k IH]; [reflexivity|]. simpl. exact IH. Qed.

Lemma int_of_string_unsigned (t : string) :
  (exists a s, t = String a s /\ a <> "-"%char) ->
  NilZero.int_of_string t = option_map Decimal.Pos (NilEmpty.uint_of_string t).
Proof.
  intros (a & s & -> & Ha). unfold NilZero.int_of_string.
  destruct (Ascii.eqb a "-") eqn:E; [apply Ascii.eqb_eq in E; contradiction|].
  reflexivity.
Qed.

Lemma int_of_str_padded (k : nat) (n : Z) :
  (0 <= n)%Z -> int_of_str (replicate_char k "0" ++ str_of_Z n) = Some n.
Proof.
  intros Hn. destruct (digits_of_nonneg n Hn) as (d & Hd & -> & Hz).
  unfold int_of_str.
  rewrite int_of_string_unsigned by (apply zeros_start, digits_start, Hd).
  rewrite uint_of_string_zeros. simpl. now rewrite of_uint_zeros, Hz.
Qed.

(** The year is read back from the four-character field of a file name. *)
Lemma int_of_str_fmt_0d (width : nat) (n : Z) :
  int_of_str (fmt_0d width n) = Some n.
Proof.
  unfold fmt_0d. destruct (n <? 0)%Z eqn:E.
  - apply Z.ltb_lt in E. unfold rjust.
    destruct (digits_of_nonneg (Z.abs n) ltac:(lia)) as (d & Hd & -> & Hz).
    change ("-" ++ ?x)%string with (String "-" x).
    unfold int_of_str, NilZero.int_of_string. simpl Ascii.eqb. cbv iota.
    assert (Hu : NilZero.uint_of_string
                   (replicate_char
                      (width - 1 - String.length (NilEmpty.string_of_uint d)) "0"
                    ++ NilEmpty.string_of_uint d)
                 = Some (Nat.iter
                           (width - 1 - String.length (NilEmpty.string_of_uint d))
                           Decimal.D0 d)).
    { destruct (zeros_start
                  (width - 1 - String.length (NilEmpty.string_of_uint d))
                  _ (digits_start d Hd)) as (a & s & Hs & _).
      unfold NilZero.uint_of_string. rewrite Hs, <- Hs.
      apply uint_of_string_zeros. }
    rewrite Hu. simpl. rewrite of_uint_zeros, Hz. f_equal. lia.
  - apply Z.ltb_ge in E. unfold rjust. now apply int_of_str_padded.
Qed.

Lemma fmt_0d_inj (width : nat) (m n : Z) :
  fmt_0d width m = fmt_0d width n -> m = n.
Proof.
  intros H. apply (f_equal int_of_str) in H.
  rewrite !int_of_str_fmt_0d in H. congruence.
Qed.

Lemma str_length_app (a b : string) :
  String.length (a ++ b) = (String.length a + String.length b)%nat.
Proof.
  induction a as [|x a IH]; [reflexivity|].
  rewrite str_app_cons. simpl. now rewrite IH.
Qed.

Lemma str_app_inv_tail (a b c : string) : (a ++ c = b ++ c)%string -> a = b.
Proof.
  revert b. induction a as [|x a IH]; intros [|y b] H.
  - reflexivity.
  - apply (f_equal String.length) in H.
    rewrite str_app_nil_l, str_length_app in H. simpl in H. lia.
  - apply (f_equal String.length) in H.
    rewrite str_app_nil_l, str_length_app in H. simpl in H. lia.
  - rewrite !str_app_cons in H. injection H as -> H. f_equal. now apply IH.
Qed.

Lemma os_path_join_inj (a b1 b2 : string) :
  String.prefix "/" b1 = false -> String.prefix "/" b2 = false ->
  os_path_join a b1 = os_path_join a b2 -> b1 = b2.
Proof.
  unfold os_path_join. intros -> ->.
  destruct (decide (a = "")) as [_|_]; [auto|].
  destruct (String.eqb _ "/"); intros H;
    repeat apply (inj (String.append _)) in H; exact H.
Qed.

Lemma csv_file_inj (output_dir : string) (y1 y2 : Z) :
  csv_file output_dir y1 = csv_file output_dir y2 -> y1 = y2.
Proof.
  unfold csv_file. intros H. apply os_path_join_inj in H; try reflexivity.
  apply (inj (String.append _)), str_app_inv_tail in H.
  now apply fmt_0d_inj in H.
Qed.

Lemma pdaf_file_inj (output_dir : string) (y1 y2 : Z) :
  pdaf_file output_dir y1 = pdaf_file output_dir y2 -> y1 = y2.
Proof.
  unfold pdaf_file. intros H. apply os_path_join_inj in H; try reflexivity.
  apply (inj (String.append _)), str_app_inv_tail in H.
  now apply fmt_0d_inj in H.
Qed.

Lemma csv_file_not_pdaf (output_dir : string) (y1 y2 : Z) :
  csv_file output_dir y1 <> pdaf_file output_dir y2.
Proof.
  unfold csv_file, pdaf_file. intros H.
  apply os_path_join_inj in H; try reflexivity.
  rewrite !str_app_cons in H. discriminate H.
Qed.

Lemma csv_file_not_summary (output_dir : string) (y : Z) :
  csv_file output_dir y <> summary_file output_dir.
Proof.
  unfold csv_file, summary_file. intros H.
  apply os_path_join_inj in H; try reflexivity.
  rewrite !str_app_cons in H. discriminate H.
Qed.

Lemma pdaf_file_not_summary (output_dir : string) (y : Z) :
  pdaf_file output_dir y <> summary_file output_dir.
Proof.
  unfold pdaf_file, summary_file. intros H.
  apply os_path_join_inj in H; try reflexivity.
  rewrite !str_app_cons in H. discriminate H.
Qed.

(** X17: Every year has its own pair of files: the name of a year's file
    determines the year, a table file is never a filter file, and neither is
    ever the summary. *)
Theorem year_files_distinct (output_dir : string) (y1 y2 : Z) :
  (csv_file output_dir y1 = csv_file output_dir y2 -> y1 = y2)
  /\ (pdaf_file output_dir y1 = pdaf_file output_dir y2 -> y1 = y2)
  /\ csv_file output_dir y1 <> pdaf_file output_dir y2
  /\ csv_file output_dir y1 <> summary_file output_dir
  /\ pdaf_file output_dir y1 <> summary_file output_dir.
Proof.
  split; [apply csv_file_inj|]. split; [apply pdaf_file_inj|].
  split; [apply csv_file_not_pdaf|].
  split; [apply csv_file_not_summary|apply pdaf_file_not_summary].
Qed.

(** ** What the writers leave alone *)

Section FramesOfWriters.

Context `{NR : NumpyRandom}.

Lemma rng_only_ret {A} (a : A) : rng_only (ret a).
Proof. intros w. auto. Qed.

Lemma rng_only_raise {A} (e : exn) : rng_only (@raise _ A e).
Proof. intros w. auto. Qed.

Lemma rng_only_lift {A} (r : result A) : rng_only (lift r).
Proof. intros w. auto. Qed.

Lemma rng_only_bind {A B} (m : M A) (k : A -> M B) :
  rng_only m -> (forall a, rng_only (k a)) -> rng_only (bind m k).
Proof.
  intros Hm Hk w. unfold bind. specialize (Hm w).
  destruct (m w) as [[a|e] w1]; simpl in *.
  - destruct (Hk a w1) as (H1 & H2 & H3 & H4). destruct Hm as (G1 & G2 & G3 & G4).
    repeat split; congruence.
  - exact Hm.
Qed.

Lemma rng_only_seed (seed : Z) : rng_only (np_random_seed seed).
Proof. intros w. unfold np_random_seed. destruct (_ && _); auto. Qed.

Lemma rng_only_uniform (low high : Q) (size : Z) :
  rng_only (np_random_uniform low high size).
Proof.
  intros w. unfold np_random_uniform. destruct (size <? 0)%Z; [auto|].
  destruct (uniform_draws _ _ _ _); auto.
Qed.

Lemma rng_only_normal (loc : Q) (scale : numeric) :
  rng_only (np_random_normal loc scale).
Proof.
  intros w. unfold np_random_normal. destruct scale as [s|a].
  - destruct (Qltb s 0); [auto|]. destruct (standard_normal _); auto.
  - destruct (existsb _ a); [auto|]. destruct (normal_draws _ _ _); auto.
Qed.

Lemma rng_only_generate_random_locations
    (n_obs : Z) (lon_range lat_range : Q * Q) (seed : option Z) :
  rng_only (generate_random_locations n_obs lon_range lat_range seed).
Proof.
  unfold generate_random_locations.
  apply rng_only_bind; [destruct seed; [apply rng_only_seed|apply rng_only_ret]|].
  intros _. apply rng_only_bind; [apply rng_only_uniform|].
  intros lons. apply rng_only_bind; [apply rng_only_uniform|].
  intros lats. apply rng_only_ret.
Qed.

Lemma rng_only_add_observation_noise (values : list Q) (variable : string) :
  rng_only (add_observation_noise values variable).
Proof.
  unfold add_observation_noise. apply rng_only_bind.
  - destruct (String.eqb variable "tas"); [apply rng_only_ret|].
    destruct (String.eqb variable "pr"); [apply rng_only_ret|apply rng_only_raise].
  - intros [noise_std errors]. apply rng_only_bind; [apply rng_only_normal|].
    intros noise. apply rng_only_bind; [apply rng_only_lift|].
    intros noisy. apply rng_only_ret.
Qed.

Lemma rng_only_year_obs_df (nature_data : gmap string ndarray)
    (n_obs_tas n_obs_pr : Z) (lon_range lat_range : Q * Q) (year : Z) :
  rng_only (year_obs_df nature_data n_obs_tas n_obs_pr lon_range lat_range year).
Proof.
  unfold year_obs_df, year_networks.
  repeat (first
    [ apply rng_only_ret | apply rng_only_lift
    | apply rng_only_generate_random_locations
    | apply rng_only_add_observation_noise
    | apply rng_only_bind
    | intros [[? ?] [? ?]] | intros [? ?] | intros ? ]).
Qed.

Lemma rng_only_same_tree {A} (m : M A) (w : World) :
  rng_only m -> same_tree w (m w).2.
Proof. intros H. destruct (H w) as (Hd & _ & _ & Hc). now split. Qed.

Lemma touches_only_refl (names : string -> Prop) (w : World) :
  touches_only names w w.
Proof. split; [apply same_tree_refl|]. split; reflexivity. Qed.

Lemma touches_only_trans (names : string -> Prop) (w1 w2 w3 : World) :
  touches_only names w1 w2 -> touches_only names w2 w3 ->
  touches_only names w1 w3.
Proof.
  intros (T1 & C1 & F1) (T2 & C2 & F2).
  split; [eapply same_tree_trans; eassumption|]. split; [congruence|].
  intros q Hq. rewrite F2, F1; [reflexivity|exact Hq|].
  intros n Hn. rewrite <- (file_place_same_tree n w1 w2 T1). now apply Hq.
Qed.

Lemma touches_only_mono (names names' : string -> Prop) (w w' : World) :
  (forall n, names n -> names' n) ->
  touches_only names w w' -> touches_only names' w w'.
Proof.
  intros Hsub (T & C & F). split; [exact T|]. split; [exact C|].
  intros q Hq. apply F. intros n Hn. apply Hq, Hsub, Hn.
Qed.

Lemma touches_only_rng_only {A} (names : string -> Prop) (m : M A) (w : World) :
  rng_only m -> touches_only names w (m w).2.
Proof.
  intros H. split; [now apply rng_only_same_tree|].
  destruct (H w) as (_ & Hf & Hc & _). split; [exact Hc|].
  intros q _. now rewrite Hf.
Qed.

Lemma touches_only_set_files (names : string -> Prop) (w : World)
    (n : string) (p : path) (c : content) :
  names n -> file_place w n = Some p ->
  touches_only names w (set_files (<[p := c]> (files w)) w).
Proof.
  intros Hn Hp. split; [apply same_tree_set_files|]. split; [reflexivity|].
  intros q Hq. cbn [files set_files]. apply lookup_insert_ne.
  intros ->. exact (Hq n Hn Hp).
Qed.

Lemma touches_only_bind {A B} (names : string -> Prop) (m : M A) (k : A -> M B)
    (w : World) :
  touches_only names w (m w).2 ->
  (forall a w1, touches_only names w1 (k a w1).2) ->
  touches_only names w (bind m k w).2.
Proof.
  intros Hm Hk. unfold bind. destruct (m w) as [[a|e] w1]; simpl in *.
  - eapply touches_only_trans; [exact Hm|apply Hk].
  - exact Hm.
Qed.

Lemma touches_only_for_each {A} (names : string -> Prop) (l : list A)
    (body : A -> M unit) :
  (forall x w, x ∈ l -> touches_only names w (body x w).2) ->
  forall w, touches_only names w (for_each l body w).2.
Proof.
  induction l as [|x l IH]; intros Hb w; [apply touches_only_refl|].
  cbn [for_each]. apply touches_only_bind.
  - apply Hb, list_elem_of_here.
  - intros _ w1. apply IH. intros y w2 Hy. apply Hb. now apply list_elem_of_further.
Qed.

Lemma touches_only_to_csv (obs_df : list obs_row) (filename : string)
    (w : World) :
  touches_only (eq filename) w (to_csv obs_df filename w).2.
Proof.
  destruct (to_csv obs_df filename w) as [[[]|e] w'] eqn:E.
  - apply to_csv_Ok in E as (p & Hp & ->).
    now apply (touches_only_set_files _ w filename).
  - apply to_csv_Raise in E as ->. apply touches_only_refl.
Qed.

(** [save_pdaf_format] returns when the file can be opened, and raises what
    [open] raises when it cannot. *)
Lemma save_pdaf_format_cases (obs_df : list obs_row) (filename : string)
    (w : World) :
  (exists p, file_place w filename = Some p
     /\ save_pdaf_format obs_df filename w
        = (Ok tt,
           set_files (<[p := Text (pdaf_text (clock w) obs_df)]> (files w)) w))
  \/ (exists e, file_place w filename = None
        /\ open_w filename w = (Raise e, w)
        /\ save_pdaf_format obs_df filename w = (Raise e, w)).
Proof.
  destruct (file_place w filename) as [p|] eqn:E.
  - left. exists p. split; [reflexivity|]. now apply save_pdaf_format_written.
  - right. destruct (save_pdaf_format_refused obs_df filename w E) as (e & H1 & H2).
    exists e. auto.
Qed.

Lemma touches_only_save_pdaf_format (obs_df : list obs_row) (filename : string)
    (w : World) :
  touches_only (eq filename) w (save_pdaf_format obs_df filename w).2.
Proof.
  destruct (save_pdaf_format_cases obs_df filename w)
    as [(p & Hp & ->)|(e & _ & _ & ->)].
  - now apply (touches_only_set_files _ w filename).
  - apply touches_only_refl.
Qed.

(** X18: [save_pdaf_format] returns exactly when [open(filename, 'w')] does.
    When it returns it has replaced the file at the place that the name
    denotes, whatever that file held before, and has left every other file,
    the directories, the working directory and the generator as they were;
    when it raises, it raises the error of [open] and the world is as it
    was. *)
Theorem save_pdaf_format_overwrites (obs_df : list obs_row) (filename : string)
    (w : World) :
  (forall p, (open_w filename w).1 = Ok p ->
     (save_pdaf_format obs_df filename w).1 = Ok tt
     /\ read_file (save_pdaf_format obs_df filename w).2 filename
        = Some (Text (pdaf_text (clock w) obs_df))
     /\ rng (save_pdaf_format obs_df filename w).2 = rng w
     /\ dirs (save_pdaf_format obs_df filename w).2 = dirs w
     /\ cwd (save_pdaf_format obs_df filename w).2 = cwd w
     /\ (forall q, q <> p ->
           files (save_pdaf_format obs_df filename w).2 !! q = files w !! q)
     /\ (forall old,
           save_pdaf_format obs_df filename (set_files (<[p := old]> (files w)) w)
           = save_pdaf_format obs_df filename w))
  /\ (forall e, (open_w filename w).1 = Raise e ->
        save_pdaf_format obs_df filename w = (Raise e, w)).
Proof.
  split.
  - intros p Hp.
    assert (Hf : file_place w filename = Some p)
      by (unfold file_place; now rewrite Hp).
    rewrite (save_pdaf_format_written obs_df filename w p Hf).
    cbn [fst snd rng dirs cwd files set_files].
    split; [reflexivity|]. split; [now apply read_file_written|].
    do 3 (split; [reflexivity|]). split.
    + intros q Hq. now apply lookup_insert_ne.
    + intros old.
      rewrite (save_pdaf_format_written obs_df filename _ p)
        by (now rewrite <- (file_place_same_tree filename w _
                              (same_tree_set_files _ w))).
      cbn [files set_files clock]. now rewrite insert_insert_eq, set_files_twice.
  - intros e He.
    destruct (save_pdaf_format_cases obs_df filename w)
      as [(p & Hp & _)|(e' & _ & Ho & Hs)].
    + unfold file_place in Hp. rewrite He in Hp. discriminate.
    + rewrite Ho in He. simpl in He. injection He as <-. exact Hs.
Qed.

End FramesOfWriters.

(** ** The table of a year *)

Section YearTable.

Context `{NR : NumpyRandom}.

Lemma zip_rows_lookup (year : Z) (variable : string)
    (lons lats trues obs errs : list Q) (k : nat) (r : obs_row) :
  zip_rows year variable lons lats trues obs errs !! k = Some r ->
  lons !! k = Some (row_lon r) /\ lats !! k = Some (row_lat r)
  /\ trues !! k = Some (row_true_value r)
  /\ obs !! k = Some (row_observed_value r)
  /\ errs !! k = Some (row_error r)
  /\ row_year r = year /\ row_variable r = variable.
Proof.
  revert lats trues obs errs k.
  induction lons as [|lo lons IH];
    intros [|la lats] [|t trues] [|o obs] [|e errs] k H;
    simpl in H; try (now rewrite lookup_nil in H).
  destruct k as [|k]; simpl in *.
  - injection H as <-. simpl. repeat split.
  - now apply IH.
Qed.

Lemma zip_rows_length (year : Z) (variable : string)
    (lons lats trues obs errs : list Q) :
  length lats = length lons -> length trues = length lons ->
  length obs = length lons -> length errs = length lons ->
  length (zip_rows year variable lons lats trues obs errs) = length lons.
Proof.
  revert lats trues obs errs.
  induction lons as [|lo lons IH]; intros [|la lats] [|t trues] [|o obs] [|e errs];
    simpl; try discriminate; try reflexivity.
  intros H1 H2 H3 H4. f_equal. apply IH; congruence.
Qed.

Lemma DataFrame_Ok (year : Z) (variable : string)
    (lons lats trues obs errs : list Q) (rows : list obs_row) :
  DataFrame year variable lons lats trues obs errs = Ok rows ->
  rows = zip_rows year variable lons lats trues obs errs
  /\ length rows = length lons.
Proof.
  unfold DataFrame. cbv zeta.
  destruct (decide _) as [(H1 & H2 & H3 & H4)|]; [|discriminate].
  intros H. injection H as <-. split; [reflexivity|].
  now apply zip_rows_length.
Qed.

(** How the table of a year is put together. *)
Lemma year_obs_df_inv (nature_data : gmap string ndarray)
    (n_obs_tas n_obs_pr : Z) (lon_range lat_range : Q * Q) (year : Z)
    (w w' : World) (df : list obs_row) :
  year_obs_df nature_data n_obs_tas n_obs_pr lon_range lat_range year w
  = (Ok df, w') ->
  exists tas_lons tas_lats pr_lons pr_lats tas_true pr_true tas_obs pr_obs w1 w2,
    generate_random_locations n_obs_tas lon_range lat_range (Some (year * 2)%Z) w
    = (Ok (tas_lons, tas_lats), w1)
    /\ generate_random_locations n_obs_pr lon_range lat_range
         (Some (year * 2 + 1)%Z) w1 = (Ok (pr_lons, pr_lats), w2)
    /\ sample_nature_run nature_data tas_lons tas_lats "tas" year = Ok tas_true
    /\ sample_nature_run nature_data pr_lons pr_lats "pr" year = Ok pr_true
    /\ df = zip_rows year "tas" tas_lons tas_lats tas_true tas_obs
              (replicate (length tas_true) 1)
            ++ zip_rows year "pr" pr_lons pr_lats pr_true pr_obs
                 (map (fun v => 0.1 * Qabs v) pr_true)
    /\ length df = (length tas_lons + length pr_lons)%nat.
Proof.
  unfold year_obs_df, year_networks, bind, lift, ret.
  destruct (generate_random_locations n_obs_tas _ _ _ w)
    as [[[tl ta]|e] w1] eqn:E1; [|discriminate].
  destruct (generate_random_locations n_obs_pr _ _ _ w1)
    as [[[pl pa]|e] w2] eqn:E2; [|discriminate].
  destruct (sample_nature_run _ tl ta _ _) as [tas_true|] eqn:E3; [|discriminate].
  destruct (sample_nature_run _ pl pa _ _) as [pr_true|] eqn:E4; [|discriminate].
  rewrite add_observation_noise_tas, add_observation_noise_pr.
  destruct (DataFrame year "tas" _ _ _ _ _) as [tas_df|] eqn:Et; [|discriminate].
  destruct (DataFrame year "pr" _ _ _ _ _) as [pr_df|] eqn:Ep; [|discriminate].
  intros H. injection H as <- _.
  apply DataFrame_Ok in Et as [-> Ht]. apply DataFrame_Ok in Ep as [-> Hp].
  exists tl, ta, pl, pa, tas_true, pr_true. do 2 eexists. exists w1, w2.
  split; [reflexivity|]. split; [exact E2|]. split; [exact E3|].
  split; [exact E4|]. split; [reflexivity|].
  now rewrite length_app, Ht, Hp.
Qed.

(** X19: The table of a year has one row per requested observation, every row
    carries the year, the reported error is 1 on the temperature rows and a
    tenth of the magnitude of the true value on the precipitation rows, and
    every true value is an element stored in the field of its variable. *)
Theorem year_obs_df_rows (nature_data : gmap string ndarray)
    (n_obs_tas n_obs_pr : Z) (lon_range lat_range : Q * Q) (year : Z)
    (w w' : World) (df : list obs_row) :
  year_obs_df nature_data n_obs_tas n_obs_pr lon_range lat_range year w
  = (Ok df, w') ->
  (0 <= n_obs_tas)%Z /\ (0 <= n_obs_pr)%Z
  /\ length df = (Z.to_nat n_obs_tas + Z.to_nat n_obs_pr)%nat
  /\ Forall (fun r =>
       row_year r = year
       /\ ((row_variable r = "tas" /\ row_error r = 1)
           \/ (row_variable r = "pr"
               /\ row_error r = 0.1 * Qabs (row_true_value r)))
       /\ exists var_data, nature_data !! row_variable r = Some var_data
            /\ row_true_value r ∈ data var_data) df.
Proof.
  intros H.
  apply year_obs_df_inv in H
    as (tl & ta & pl & pa & tt' & pt & to & po & w1 & w2
        & E1 & E2 & E3 & E4 & -> & Hlen).
  apply generate_random_locations_Ok in E1 as (st1 & _ & Hn1 & -> & _).
  apply generate_random_locations_Ok in E2 as (st2 & _ & Hn2 & -> & _).
  rewrite !uniform_draws_length in Hlen.
  split; [exact Hn1|]. split; [exact Hn2|]. split; [exact Hlen|].
  destruct (sample_nature_run_elems _ _ _ _ _ _ E3) as (vt & Hvt & Hint).
  destruct (sample_nature_run_elems _ _ _ _ _ _ E4) as (vp & Hvp & Hinp).
  apply Forall_app. split; apply Forall_lookup; intros k r Hr;
    apply zip_rows_lookup in Hr as (_ & _ & Ht & _ & He & Hy & Hv).
  - split; [exact Hy|]. split.
    + left. split; [exact Hv|].
      apply lookup_replicate in He as [He _]. congruence.
    + rewrite Hv. exists vt. split; [exact Hvt|].
      rewrite Forall_lookup in Hint. eauto.
  - split; [exact Hy|]. split.
    + right. split; [exact Hv|].
      rewrite list_lookup_fmap, Ht in He. simpl in He. congruence.
    + rewrite Hv. exists vp. split; [exact Hvp|].
      rewrite Forall_lookup in Hinp. eauto.
Qed.

(** X20: Provided the generator draws in [0, 1) and the ranges are not
    inverted, every row of the table of a year lies inside the bounding box
    the networks were drawn in. *)
Theorem year_obs_df_in_box (nature_data : gmap string ndarray)
    (n_obs_tas n_obs_pr : Z) (lon_range lat_range : Q * Q) (year : Z)
    (w w' : World) (df : list obs_row) :
  (forall s, 0 <= (random_sample s).1 /\ (random_sample s).1 < 1) ->
  lon_range.1 <= lon_range.2 -> lat_range.1 <= lat_range.2 ->
  year_obs_df nature_data n_obs_tas n_obs_pr lon_range lat_range year w
  = (Ok df, w') ->
  Forall (fun r =>
    (lon_range.1 <= row_lon r /\ row_lon r <= lon_range.2)
    /\ (lat_range.1 <= row_lat r /\ row_lat r <= lat_range.2)) df.
Proof.
  intros Hu Hlon Hlat H.
  apply year_obs_df_inv in H
    as (tl & ta & pl & pa & tt' & pt & to & po & w1 & w2
        & E1 & E2 & _ & _ & -> & _).
  apply generate_random_locations_Ok in E1 as (st1 & _ & _ & -> & ->).
  apply generate_random_locations_Ok in E2 as (st2 & _ & _ & -> & ->).
  apply Forall_app. split; apply Forall_lookup; intros k r Hr;
    apply zip_rows_lookup in Hr as (Hlo & Hla & _);
    (split; [eapply (proj1 (Forall_lookup _ _)) in Hlo|
             eapply (proj1 (Forall_lookup _ _)) in Hla]);
    try exact Hlo; try exact Hla; auto using uniform_draws_in_range.
Qed.

End YearTable.

Lemma sample_year_table_run :
  @year_obs_df lcg sample_nature 2 1 (0, 180) (-45, 45) 3 sample_world
  = (Ok sample_year_table,
     (@year_obs_df lcg sample_nature 2 1 (0, 180) (-45, 45) 3 sample_world).2).
Proof. apply run_Ok. vm_compute. reflexivity. Qed.

Lemma year_obs_df_rows_witness :
  (0 <= 2)%Z /\ (0 <= 1)%Z
  /\ length sample_year_table = (Z.to_nat 2 + Z.to_nat 1)%nat
  /\ Forall (fun r =>
       row_year r = 3%Z
       /\ ((row_variable r = "tas" /\ row_error r = 1)
           \/ (row_variable r = "pr"
               /\ row_error r = 0.1 * Qabs (row_true_value r)))
       /\ exists var_data, sample_nature !! row_variable r = Some var_data
            /\ row_true_value r ∈ data var_data) sample_year_table.
Proof.
  exact (@year_obs_df_rows lcg sample_nature 2 1 (0, 180) (-45, 45) 3
           sample_world _ sample_year_table sample_year_table_run).
Defined.

Lemma year_obs_df_in_box_witness :
  Forall (fun r =>
    ((0, 180).1 <= row_lon r /\ row_lon r <= (0, 180).2)
    /\ ((-45, 45).1 <= row_lat r /\ row_lat r <= (-45, 45).2)) sample_year_table.
Proof.
  apply (@year_obs_df_in_box lcg sample_nature 2 1 (0, 180) (-45, 45) 3
           sample_world
           (@year_obs_df lcg sample_nature 2 1 (0, 180) (-45, 45) 3 sample_world).2
           sample_year_table lcg_unit_interval).
  - discriminate.
  - discriminate.
  - exact sample_year_table_run.
Defined.

(** ** A run of the driver *)

Section DriverRun.

Context `{NR : NumpyRandom}.

Lemma write_text (f : path) (s t : string) (m : gmap path content) (w : World) :
  write f s (set_files (<[f := Text t]> m) w)
  = (Ok tt, set_files (<[f := Text (t ++ s)]> m) w).
Proof.
  unfold write. cbn [files set_files]. now rewrite alter_insert_eq.
Qed.

Lemma create_summary_file_written (filename : string)
    (n_years n_obs_tas n_obs_pr : Z) (lon_min lon_max lat_min lat_max : Q)
    (w : World) (p : path) :
  file_place w filename = Some p ->
  create_summary_file filename n_years n_obs_tas n_obs_pr
    lon_min lon_max lat_min lat_max w
  = (Ok tt,
     set_files (<[p := Text (summary_text (clock w) n_years n_obs_tas
                               n_obs_pr lon_min lon_max lat_min lat_max)]>
                  (files w)) w).
Proof.
  intros Hp. unfold create_summary_file.
  unfold bind at 1. rewrite (file_place_open _ _ _ Hp).
  rewrite !bind_write.
  unfold bind at 1. unfold datetime_now at 1. cbn [clock set_files].
  rewrite write_text.
  unfold summary_text. rewrite str_app_nil_l, !str_app_assoc. reflexivity.
Qed.

(** [create_summary_file] returns when the file can be opened, and raises
    what [open] raises when it cannot. *)
Lemma create_summary_file_cases (filename : string)
    (n_years n_obs_tas n_obs_pr : Z) (lon_min lon_max lat_min lat_max : Q)
    (w : World) :
  (exists p, file_place w filename = Some p
     /\ create_summary_file filename n_years n_obs_tas n_obs_pr
          lon_min lon_max lat_min lat_max w
        = (Ok tt,
           set_files (<[p := Text (summary_text (clock w) n_years n_obs_tas
                                     n_obs_pr lon_min lon_max lat_min lat_max)]>
                        (files w)) w))
  \/ (exists e, file_place w filename = None
        /\ open_w filename w = (Raise e, w)
        /\ create_summary_file filename n_years n_obs_tas n_obs_pr
             lon_min lon_max lat_min lat_max w = (Raise e, w)).
Proof.
  destruct (file_place w filename) as [p|] eqn:E.
  - left. exists p. split; [reflexivity|]. now apply create_summary_file_written.
  - right. destruct (file_place_refused _ _ E) as [e He].
    exists e. split; [reflexivity|]. split; [exact He|].
    unfold create_summary_file. unfold bind at 1. now rewrite He.
Qed.

Lemma touches_only_create_summary_file (filename : string)
    (n_years n_obs_tas n_obs_pr : Z) (lon_min lon_max lat_min lat_max : Q)
    (w : World) :
  touches_only (eq filename) w
    (create_summary_file filename n_years n_obs_tas n_obs_pr
       lon_min lon_max lat_min lat_max w).2.
Proof.
  destruct (create_summary_file_cases filename n_years n_obs_tas n_obs_pr
              lon_min lon_max lat_min lat_max w)
    as [(p & Hp & ->)|(e & _ & _ & ->)].
  - now apply (touches_only_set_files _ w filename).
  - apply touches_only_refl.
Qed.

Lemma year_obs_df_count (nature_data : gmap string ndarray)
    (n_obs_tas n_obs_pr : Z) (lon_range lat_range : Q * Q) (year : Z)
    (w w' : World) (df : list obs_row) :
  year_obs_df nature_data n_obs_tas n_obs_pr lon_range lat_range year w
  = (Ok df, w') ->
  length df = (Z.to_nat n_obs_tas + Z.to_nat n_obs_pr)%nat
  /\ Forall (fun r => row_year r = year) df.
Proof.
  intros H.
  apply year_obs_df_inv in H
    as (tl & ta & pl & pa & tt' & pt & to & po & w1 & w2
        & E1 & E2 & _ & _ & -> & Hlen).
  apply generate_random_locations_Ok in E1 as (st1 & _ & _ & -> & _).
  apply generate_random_locations_Ok in E2 as (st2 & _ & _ & -> & _).
  rewrite !uniform_draws_length in Hlen. split; [exact Hlen|].
  apply Forall_app. split; apply Forall_lookup; intros k r Hr;
    apply zip_rows_lookup in Hr; tauto.
Qed.

(** What is a directory stays one as long as the tree is the same. *)
Lemma isdir_same_tree (w1 w2 : World) (name : string) :
  same_tree w1 w2 -> isdir w1 name -> isdir w2 name.
Proof.
  intros T. unfold isdir, os_stat.
  destruct (String.eqb name ""); [discriminate|]. cbv zeta.
  destruct (drop_trailing_empty (components name)) as [|c cs] eqn:E;
    [reflexivity|].
  rewrite <- E.
  assert (Hs : start w1 name = start w2 name)
    by (unfold start; now rewrite (proj1 T)).
  rewrite <- Hs.
  destruct (walk name w1 _ _) as [p|e] eqn:Ew; [|discriminate].
  rewrite (walk_Ok_ext name name w1 w2 _ _ p T Ew). cbn [rbind].
  rewrite <- (is_dir_same_tree w1 w2 _ T).
  destruct (dot_name _ || is_dir w1 _); [reflexivity|].
  destruct (is_file w1 _); [|discriminate].
  destruct (decide _); discriminate.
Qed.

Lemma read_file_ext (w1 w2 : World) (name : string) :
  same_tree w1 w2 -> files w1 = files w2 -> read_file w1 name = read_file w2 name.
Proof.
  intros T F. unfold read_file.
  now rewrite (file_place_same_tree name w1 w2 T), F.
Qed.

(** Writing a file of a directory does not change what another name of the
    same directory reads. *)
Lemma read_file_join_other (w : World) (d n1 n2 : string) (p2 : path)
    (m : gmap path content) (c : content) :
  plain_name n1 -> plain_name n2 -> n1 <> n2 ->
  file_place w (os_path_join d n2) = Some p2 ->
  read_file (set_files (<[p2 := c]> m) w) (os_path_join d n1)
  = read_file (set_files m w) (os_path_join d n1).
Proof.
  intros H1 H2 Hne Hp2. unfold read_file.
  rewrite <- !(file_place_same_tree _ w _ (same_tree_set_files _ w)).
  destruct (file_place w (os_path_join d n1)) as [p1|] eqn:E1; [|reflexivity].
  cbn [files set_files]. apply lookup_insert_ne.
  exact (file_place_join_ne w d n2 n1 p2 p1 H2 H1 (not_eq_sym Hne) Hp2 E1).
Qed.

Lemma csv_name_inj (y1 y2 : Z) : csv_name y1 = csv_name y2 -> y1 = y2.
Proof.
  unfold csv_name. intros H.
  apply (inj (String.append _)), str_app_inv_tail in H.
  now apply fmt_0d_inj in H.
Qed.

Lemma pdaf_name_inj (y1 y2 : Z) : pdaf_name y1 = pdaf_name y2 -> y1 = y2.
Proof.
  unfold pdaf_name. intros H.
  apply (inj (String.append _)), str_app_inv_tail in H.
  now apply fmt_0d_inj in H.
Qed.

(** One year of the loop, whatever its outcome: nothing changes but the
    generator and the two files of the year. *)
Lemma touches_only_process_year (nature_data : gmap string ndarray)
    (n_obs_tas n_obs_pr : Z) (lon_range lat_range : Q * Q)
    (output_dir : string) (year : Z) (w : World) :
  touches_only
    (fun n => n = csv_file output_dir year \/ n = pdaf_file output_dir year) w
    (process_year nature_data n_obs_tas n_obs_pr lon_range lat_range
       output_dir year w).2.
Proof.
  unfold process_year. apply touches_only_bind.
  - apply touches_only_rng_only, rng_only_year_obs_df.
  - intros df w1. apply touches_only_bind.
    + eapply touches_only_mono; [|apply touches_only_to_csv].
      intros n <-. now left.
    + intros _ w2. eapply touches_only_mono; [|apply touches_only_save_pdaf_format].
      intros n <-. now right.
Qed.

Lemma process_year_clock (nature_data : gmap string ndarray)
    (n_obs_tas n_obs_pr : Z) (lon_range lat_range : Q * Q)
    (output_dir : string) (year : Z) (w : World) :
  clock (process_year nature_data n_obs_tas n_obs_pr lon_range lat_range
           output_dir year w).2 = clock w.
Proof.
  exact (proj1 (proj2 (touches_only_process_year nature_data n_obs_tas n_obs_pr
                         lon_range lat_range output_dir year w))).
Qed.

Lemma elem_of_range (start n y : Z) :
  y ∈ range start n <-> (start <= y < start + n)%Z.
Proof.
  unfold range. rewrite list_elem_of_fmap. split.
  - intros (k & -> & Hk). apply elem_of_seq in Hk. lia.
  - intros H. exists (Z.to_nat (y - start)). split; [lia|].
    apply elem_of_seq. lia.
Qed.

(** A property that the body for [y] establishes and every body keeps
    holds once the loop has returned, if [y] was among the values. *)
Lemma for_each_established {A} (I J : World -> Prop) (y : A) (l : list A)
    (body : A -> M unit) (w w' : World) :
  for_each l body w = (Ok tt, w') -> y ∈ l -> J w ->
  (forall x w1 w2, J w1 -> body x w1 = (Ok tt, w2) -> J w2) ->
  (forall w1 w2, J w1 -> body y w1 = (Ok tt, w2) -> I w2) ->
  (forall x w1 w2, J w1 -> I w1 -> body x w1 = (Ok tt, w2) -> I w2) ->
  I w' /\ J w'.
Proof.
  intros H Hy HJ HJstep Hest Hkeep.
  assert (Hgen : forall l w, for_each l body w = (Ok tt, w') -> J w ->
                   (I w \/ y ∈ l) -> I w' /\ J w').
  { clear l w H Hy HJ. induction l as [|x l IH]; intros w H HJ HI.
    - simpl in H. injection H as <-. destruct HI as [HI|HI]; [auto|].
      now apply elem_of_nil in HI.
    - cbn [for_each] in H. unfold bind in H.
      destruct (body x w) as [[[]|e] w1] eqn:Ex; [|discriminate].
      apply (IH w1 H); [eauto|].
      destruct HI as [HI|HI]; [left; eauto|].
      apply elem_of_cons in HI as [->|HI]; [left; eauto|now right]. }
  apply (Hgen l w H HJ). now right.
Qed.

Lemma process_year_writes (nature_data : gmap string ndarray)
    (n_obs_tas n_obs_pr : Z) (lon_range lat_range : Q * Q)
    (output_dir : string) (now : datetime) (year : Z) (w w' : World) :
  clock w = now ->
  process_year nature_data n_obs_tas n_obs_pr lon_range lat_range output_dir year w
  = (Ok tt, w') ->
  year_files_written output_dir n_obs_tas n_obs_pr now year w'.
Proof.
  intros Hc H.
  apply process_year_inv in H as (df & w1 & pc & pp & E & Hpc & Hpp & Hne & ->).
  destruct (rng_only_year_obs_df nature_data n_obs_tas n_obs_pr lon_range
              lat_range year w) as (_ & _ & Hclk & _).
  rewrite E in Hclk. simpl in Hclk.
  apply year_obs_df_count in E as [Hlen Hy].
  exists df. split.
  - split; [|auto]. rewrite (read_file_set_files w1 _ pc _ Hpc).
    rewrite lookup_insert_ne by congruence. apply lookup_insert_eq.
  - rewrite (read_file_set_files w1 _ pp _ Hpp), Hclk, Hc.
    apply lookup_insert_eq.
Qed.

Lemma process_year_keeps_written (nature_data : gmap string ndarray)
    (n_obs_tas n_obs_pr : Z) (lon_range lat_range : Q * Q)
    (output_dir : string) (now : datetime) (y year : Z) (w w' : World) :
  clock w = now ->
  year_files_written output_dir n_obs_tas n_obs_pr now y w ->
  process_year nature_data n_obs_tas n_obs_pr lon_range lat_range output_dir year w
  = (Ok tt, w') ->
  year_files_written output_dir n_obs_tas n_obs_pr now y w'.
Proof.
  intros Hc Hw H. destruct (decide (year = y)) as [->|Hne].
  - eapply process_year_writes; eauto.
  - apply process_year_inv in H as (df & w1 & pc & pp & E & Hpc & Hpp & _ & ->).
    pose proof (rng_only_year_obs_df nature_data n_obs_tas n_obs_pr lon_range
                  lat_range year) as Hr.
    assert (Ht : same_tree w w1).
    { pose proof (rng_only_same_tree _ w Hr) as T. now rewrite E in T. }
    assert (Hf : files w1 = files w).
    { destruct (Hr w) as (_ & F & _). now rewrite E in F. }
    assert (Hread : forall n, plain_name n -> n <> csv_name year ->
              n <> pdaf_name year ->
              read_file (set_files (<[pp := Text (pdaf_text (clock w1) df)]>
                                      (<[pc := Table df_columns df]> (files w1)))
                           w1) (os_path_join output_dir n)
              = read_file w (os_path_join output_dir n)).
    { intros n Hn H1 H2.
      rewrite (read_file_join_other w1 output_dir n (pdaf_name year) pp _ _
                 Hn (plain_pdaf_name year) H2 Hpp).
      rewrite (read_file_join_other w1 output_dir n (csv_name year) pc _ _
                 Hn (plain_csv_name year) H1 Hpc).
      rewrite set_files_id. symmetry. apply read_file_ext; [exact Ht|now symmetry]. }
    destruct Hw as (rows & (Hcsv & Hrows) & Hpdaf).
    exists rows. split; [split; [|exact Hrows]|].
    + change (csv_file output_dir y) with (os_path_join output_dir (csv_name y)).
      rewrite Hread; [exact Hcsv|apply plain_csv_name| |apply csv_name_not_pdaf].
      intros E'. apply csv_name_inj in E'. congruence.
    + change (pdaf_file output_dir y) with (os_path_join output_dir (pdaf_name y)).
      rewrite Hread; [exact Hpdaf|apply plain_pdaf_name| |].
      * apply not_eq_sym, csv_name_not_pdaf.
      * intros E'. apply pdaf_name_inj in E'. congruence.
Qed.

End DriverRun.

(** ** The whole run *)

Section WholeRun.

Context `{NR : NumpyRandom}.

(** The driver, step by step: the directory, the bounding box, the years,
    the summary. *)
Lemma generate_synthetic_observations_steps (nature_data : gmap string ndarray)
    (n_obs_tas n_obs_pr start_year n_years : Z) (output_dir : string) (w : World) :
  generate_synthetic_observations nature_data n_obs_tas n_obs_pr start_year
    n_years output_dir w
  = match os_makedirs output_dir w with
    | (Raise e, w0) => (Raise e, w0)
    | (Ok _, w0) =>
        match grid_bounds nature_data with
        | Raise e => (Raise e, w0)
        | Ok (lon_min, lon_max, lat_min, lat_max) =>
            match for_each (range start_year n_years)
                    (process_year nature_data n_obs_tas n_obs_pr
                       (lon_min, lon_max) (lat_min, lat_max) output_dir) w0 with
            | (Ok _, w1) =>
                create_summary_file (summary_file output_dir) n_years n_obs_tas
                  n_obs_pr lon_min lon_max lat_min lat_max w1
            | (Raise e, w1) => (Raise e, w1)
            end
        end
    end.
Proof.
  unfold generate_synthetic_observations, grid_bounds. unfold bind at 1.
  destruct (os_makedirs output_dir w) as [[[]|e] w0]; [|reflexivity].
  unfold bind, lift. cbv zeta.
  destruct (dict_get nature_data "lon") as [lon|]; [|reflexivity]. cbn [rbind].
  destruct (np_min (data lon)) as [lon_min|]; [|reflexivity]. cbn [rbind].
  destruct (np_max (data lon)) as [lon_max|]; [|reflexivity]. cbn [rbind].
  destruct (dict_get nature_data "lat") as [lat|]; [|reflexivity]. cbn [rbind].
  destruct (np_min (data lat)) as [lat_min|]; [|reflexivity]. cbn [rbind].
  destruct (np_max (data lat)) as [lat_max|]; [|reflexivity]. cbn [rbind].
  reflexivity.
Qed.

(** The loop over the years, whatever its outcome: nothing changes but the
    generator and the files of the years of the range. *)
Lemma touches_only_years (nature_data : gmap string ndarray)
    (n_obs_tas n_obs_pr start_year n_years : Z) (lon_range lat_range : Q * Q)
    (output_dir : string) (w : World) :
  touches_only (year_file output_dir start_year n_years) w
    (for_each (range start_year n_years)
       (process_year nature_data n_obs_tas n_obs_pr lon_range lat_range
          output_dir) w).2.
Proof.
  apply touches_only_for_each. intros y w1 Hy. apply elem_of_range in Hy.
  eapply touches_only_mono; [|apply touches_only_process_year].
  intros n Hn. now exists y.
Qed.

(** The whole run, whatever its outcome, from the world that [os.makedirs]
    leaves: nothing changes but the generator and the files of the run. *)
Lemma generate_synthetic_observations_frame (nature_data : gmap string ndarray)
    (n_obs_tas n_obs_pr start_year n_years : Z) (output_dir : string) (w : World) :
  touches_only (run_file output_dir start_year n_years)
    (os_makedirs output_dir w).2
    (generate_synthetic_observations nature_data n_obs_tas n_obs_pr start_year
       n_years output_dir w).2.
Proof.
  rewrite generate_synthetic_observations_steps.
  destruct (os_makedirs output_dir w) as [[[]|e] w0]; [|apply touches_only_refl].
  cbn [snd].
  destruct (grid_bounds nature_data) as [[[[lon_min lon_max] lat_min] lat_max]|e];
    [|apply touches_only_refl].
  pose proof (touches_only_years nature_data n_obs_tas n_obs_pr start_year
                n_years (lon_min, lon_max) (lat_min, lat_max) output_dir w0) as Hl.
  apply (touches_only_mono _ (run_file output_dir start_year n_years)) in Hl;
    [|intros n Hn; now right].
  destruct (for_each _ _ w0) as [[[]|e] w1]; cbn [snd] in *; [|exact Hl].
  eapply touches_only_trans; [exact Hl|].
  eapply touches_only_mono; [|apply touches_only_create_summary_file].
  intros n <-. now left.
Qed.


(** X22: After a run that returns, the output directory is a directory, every
    year of the range has its two files, holding the same rows (one per
    requested observation, all of that year), and the summary is in
    place. *)
Theorem generate_synthetic_observations_writes_every_year
    (nature_data : gmap string ndarray)
    (n_obs_tas n_obs_pr start_year n_years : Z) (output_dir : string)
    (w w' : World) :
  generate_synthetic_observations nature_data n_obs_tas n_obs_pr start_year
    n_years output_dir w = (Ok tt, w') ->
  isdir w' output_dir
  /\ (forall y, (start_year <= y < start_year + n_years)%Z ->
        exists rows,
          read_file w' (csv_file output_dir y) = Some (Table df_columns rows)
          /\ length rows = (Z.to_nat n_obs_tas + Z.to_nat n_obs_pr)%nat
          /\ Forall (fun r => row_year r = y) rows
          /\ exists now,
               read_file w' (pdaf_file output_dir y)
               = Some (Text (pdaf_text now rows)))
  /\ (exists now lon_min lon_max lat_min lat_max,
        grid_bounds nature_data = Ok (lon_min, lon_max, lat_min, lat_max)
        /\ read_file w' (summary_file output_dir)
           = Some (Text (summary_text now n_years n_obs_tas n_obs_pr
                           lon_min lon_max lat_min lat_max))).
Proof.
  rewrite generate_synthetic_observations_steps.
  destruct (os_makedirs output_dir w) as [[[]|e] w0] eqn:Em; [|discriminate].
  assert (Hd : output_dir <> "").
  { intros ->. rewrite os_makedirs_empty in Em. discriminate. }
  destruct (grid_bounds nature_data) as [[[[lon_min lon_max] lat_min] lat_max]|e];
    [|discriminate].
  set (body := process_year nature_data n_obs_tas n_obs_pr
                 (lon_min, lon_max) (lat_min, lat_max) output_dir).
  destruct (for_each _ body w0) as [[[]|e] w1] eqn:Eloop; [|discriminate].
  destruct (create_summary_file_cases (summary_file output_dir) n_years
              n_obs_tas n_obs_pr lon_min lon_max lat_min lat_max w1)
    as [(p & Hp & ->)|(e & _ & _ & ->)]; [|discriminate].
  intros H. injection H as <-. split.
  { apply (isdir_same_tree w1); [apply same_tree_set_files|].
    exact (file_place_join_isdir w1 output_dir summary_name p
             plain_summary_name Hd Hp). }
  split.
  - intros y Hy. apply elem_of_range in Hy.
    destruct (for_each_established
                (fun w2 => year_files_written output_dir n_obs_tas n_obs_pr
                             (clock w0) y w2)
                (fun w2 => clock w2 = clock w0)
                y _ body w0 w1 Eloop Hy eq_refl) as [(rows & (Hcsv & Hl & Hy') & Hpd) _].
    + intros x w2 w3 Hw2 Hx. rewrite <- Hw2.
      change w3 with ((Ok tt, w3).2). rewrite <- Hx. apply process_year_clock.
    + intros w2 w3 Hw2 Hx. eapply process_year_writes; eauto.
    + intros x w2 w3 Hw2 HI Hx. eapply process_year_keeps_written; eauto.
    + exists rows.
      change (csv_file output_dir y) with (os_path_join output_dir (csv_name y)).
      change (pdaf_file output_dir y) with (os_path_join output_dir (pdaf_name y)).
      rewrite (read_file_join_other w1 output_dir (csv_name y) summary_name p _ _
                 (plain_csv_name y) plain_summary_name (csv_name_not_summary y) Hp).
      rewrite (read_file_join_other w1 output_dir (pdaf_name y) summary_name p _ _
                 (plain_pdaf_name y) plain_summary_name (pdaf_name_not_summary y) Hp).
      rewrite set_files_id. eauto 6.
  - exists (clock w1), lon_min, lon_max, lat_min, lat_max.
    split; [reflexivity|]. now apply read_file_written.
Qed.

(** X23: Whatever its outcome, a run makes no directory but those that
    [os.makedirs] makes for the output directory, does not change the working
    directory, and touches no file other than its summary and the two files
    of each year of its range. *)
Theorem generate_synthetic_observations_touches_only_its_files
    (nature_data : gmap string ndarray)
    (n_obs_tas n_obs_pr start_year n_years : Z) (output_dir : string)
    (w : World) :
  dirs (generate_synthetic_observations nature_data n_obs_tas n_obs_pr
          start_year n_years output_dir w).2
  = dirs (os_makedirs output_dir w).2
  /\ dirs w ⊆ dirs (generate_synthetic_observations nature_data n_obs_tas
                     n_obs_pr start_year n_years output_dir w).2
  /\ cwd (generate_synthetic_observations nature_data n_obs_tas n_obs_pr
            start_year n_years output_dir w).2 = cwd w
  /\ forall q,
       (forall n, run_file output_dir start_year n_years n ->
          file_place (generate_synthetic_observations nature_data n_obs_tas
                        n_obs_pr start_year n_years output_dir w).2 n
          <> Some q) ->
       files (generate_synthetic_observations nature_data n_obs_tas n_obs_pr
                start_year n_years output_dir w).2 !! q
       = files w !! q.
Proof.
  destruct (generate_synthetic_observations_frame nature_data n_obs_tas n_obs_pr
              start_year n_years output_dir w) as (T & _ & F).
  destruct (os_makedirs_frame output_dir w) as (_ & Cw & Fi & _ & D).
  split; [symmetry; apply T|]. split; [rewrite <- (proj2 T); exact D|].
  split; [rewrite <- (proj1 T); exact Cw|].
  intros q Hq. rewrite F, Fi; [reflexivity|].
  intros n Hn. rewrite (file_place_same_tree n _ _ T). now apply Hq.
Qed.


Lemma process_year_bad_seed (nature_data : gmap string ndarray)
    (n_obs_tas n_obs_pr : Z) (lon_range lat_range : Q * Q)
    (output_dir : string) (year : Z) (w : World) :
  ~ (0 <= year * 2 < 2 ^ 32)%Z ->
  process_year nature_data n_obs_tas n_obs_pr lon_range lat_range output_dir year w
  = (Raise (ValueError "Seed must be between 0 and 2**32 - 1"), w).
Proof.
  intros Hseed. unfold process_year, year_obs_df, year_networks, bind.
  rewrite generate_random_locations_seeded.
  destruct ((0 <=? year * 2)%Z && (year * 2 <? 2 ^ 32)%Z) eqn:E; [|reflexivity].
  exfalso. apply Hseed. apply andb_true_iff in E as [E0 E1].
  apply Z.leb_le in E0. apply Z.ltb_lt in E1. auto.
Qed.

(** X25: A first year whose seed numpy refuses (a negative start year, or one
    of 2^31 and more) stops the run at its first draw: once the output
    directory has been made the run raises [ValueError] (and the error of
    [os.makedirs] when that raises), and not one file is written. *)
Theorem generate_synthetic_observations_bad_start_year
    (nature_data : gmap string ndarray)
    (n_obs_tas n_obs_pr start_year n_years : Z) (output_dir : string)
    (w : World) (bounds : Q * Q * Q * Q) :
  grid_bounds nature_data = Ok bounds ->
  (0 < n_years)%Z -> ~ (0 <= start_year * 2 < 2 ^ 32)%Z ->
  (generate_synthetic_observations nature_data n_obs_tas n_obs_pr start_year
     n_years output_dir w).1
  = match (os_makedirs output_dir w).1 with
    | Ok _ => Raise (ValueError "Seed must be between 0 and 2**32 - 1")
    | Raise e => Raise e
    end
  /\ files (generate_synthetic_observations nature_data n_obs_tas n_obs_pr
              start_year n_years output_dir w).2 = files w.
Proof.
  intros Hb Hn Hseed.
  destruct (os_makedirs_frame output_dir w) as (_ & _ & Fi & _).
  rewrite generate_synthetic_observations_steps.
  destruct (os_makedirs output_dir w) as [[[]|e] w0]; cbn [fst snd] in *;
    [|split; [reflexivity|exact Fi]].
  rewrite Hb. destruct bounds as [[[lon_min lon_max] lat_min] lat_max].
  unfold range. destruct (Z.to_nat n_years) as [|k] eqn:Ek; [lia|].
  cbn [seq map for_each]. change (Z.of_nat 0) with 0%Z. rewrite Z.add_0_r.
  unfold bind. rewrite !process_year_bad_seed by exact Hseed.
  split; [reflexivity|exact Fi].
Qed.

End WholeRun.

Section WholeRunEdges.

Context `{NR : NumpyRandom}.


Lemma grid_bounds_Ok (nature_data : gmap string ndarray) (b : Q * Q * Q * Q) :
  grid_bounds nature_data = Ok b ->
  exists lon lat, nature_data !! "lon" = Some lon /\ nature_data !! "lat" = Some lat
    /\ data lon <> [] /\ data lat <> [].
Proof.
  unfold grid_bounds, dict_get. intros H.
  destruct (nature_data !! "lon") as [lon|]; [|discriminate H].
  cbn [rbind] in H. destruct (data lon) as [|x l] eqn:El; [discriminate H|].
  cbn [rbind np_min np_max] in H.
  destruct (nature_data !! "lat") as [lat|]; [|discriminate H].
  cbn [rbind] in H. destruct (data lat) as [|y k] eqn:Ek; [discriminate H|].
  exists lon, lat. rewrite El, Ek. repeat split; discriminate.
Qed.

(** X26: A nature run whose longitude or latitude axis is missing or empty
    stops the run before its first year: the run raises (the error of the
    bounding box, or that of [os.makedirs] when the output directory cannot be
    made), the world is the one [os.makedirs] leaves, and no file is
    written. *)
Theorem generate_synthetic_observations_bad_grid
    (nature_data : gmap string ndarray)
    (n_obs_tas n_obs_pr start_year n_years : Z) (output_dir : string)
    (w : World) :
  (forall lon lat,
      nature_data !! "lon" = Some lon -> nature_data !! "lat" = Some lat ->
      data lon = [] \/ data lat = []) ->
  exists e,
    grid_bounds nature_data = Raise e
    /\ generate_synthetic_observations nature_data n_obs_tas n_obs_pr start_year
         n_years output_dir w
       = (match (os_makedirs output_dir w).1 with
          | Ok _ => Raise e
          | Raise e' => Raise e'
          end, (os_makedirs output_dir w).2)
    /\ files (os_makedirs output_dir w).2 = files w
    /\ rng (os_makedirs output_dir w).2 = rng w.
Proof.
  intros H.
  destruct (grid_bounds nature_data) as [b|e] eqn:E.
  { exfalso. apply grid_bounds_Ok in E as (lon & lat & Hlon & Hlat & H1 & H2).
    destruct (H lon lat Hlon Hlat); contradiction. }
  exists e. split; [reflexivity|].
  destruct (os_makedirs_frame output_dir w) as (R & _ & Fi & _).
  split; [|split; [exact Fi|exact R]].
  rewrite generate_synthetic_observations_steps, E.
  now destruct (os_makedirs output_dir w) as [[[]|e'] w0].
Qed.

End WholeRunEdges.

Lemma generate_synthetic_observations_bad_grid_witness :
  exists e,
    grid_bounds (<["lon" := mk_ndarray [0%nat] []]> sample_nature) = Raise e
    /\ @generate_synthetic_observations lcg
         (<["lon" := mk_ndarray [0%nat] []]> sample_nature) 2 1 3 1 "obs_data"
         sample_world
       = (match (@os_makedirs lcg "obs_data" sample_world).1 with
          | Ok _ => Raise e
          | Raise e' => Raise e'
          end, (@os_makedirs lcg "obs_data" sample_world).2)
    /\ files (@os_makedirs lcg "obs_data" sample_world).2 = files sample_world
    /\ rng (@os_makedirs lcg "obs_data" sample_world).2 = rng sample_world.
Proof.
  apply (@generate_synthetic_observations_bad_grid lcg
           (<["lon" := mk_ndarray [0%nat] []]> sample_nature) 2 1 3 1 "obs_data"
           sample_world).
  intros lon lat Hlon _. left.
  rewrite lookup_insert_eq in Hlon. now injection Hlon as <-.
Defined.

Lemma generate_synthetic_observations_writes_every_year_witness :
  isdir (@generate_synthetic_observations lcg sample_nature 2 1 3 2 "obs_data"
           sample_world).2 "obs_data"
  /\ (forall y, (3 <= y < 3 + 2)%Z ->
        exists rows,
          read_file (@generate_synthetic_observations lcg sample_nature 2 1 3 2
                       "obs_data" sample_world).2
            (csv_file "obs_data" y) = Some (Table df_columns rows)
          /\ length rows = (Z.to_nat 2 + Z.to_nat 1)%nat
          /\ Forall (fun r => row_year r = y) rows
          /\ exists now,
               read_file (@generate_synthetic_observations lcg sample_nature 2 1 3 2
                            "obs_data" sample_world).2
                 (pdaf_file "obs_data" y)
               = Some (Text (pdaf_text now rows)))
  /\ (exists now lon_min lon_max lat_min lat_max,
        grid_bounds sample_nature = Ok (lon_min, lon_max, lat_min, lat_max)
        /\ read_file (@generate_synthetic_observations lcg sample_nature 2 1 3 2
                        "obs_data" sample_world).2
             (summary_file "obs_data")
           = Some (Text (summary_text now 2 2 1
                           lon_min lon_max lat_min lat_max))).
Proof.
  apply (@generate_synthetic_observations_writes_every_year lcg sample_nature
           2 1 3 2 "obs_data" sample_world).
  apply run_Ok. vm_compute. reflexivity.
Defined.


Lemma generate_synthetic_observations_bad_start_year_witness :
  (@generate_synthetic_observations lcg sample_nature 2 1 (-1) 2 "obs_data"
     sample_world).1
  = match (@os_makedirs lcg "obs_data" sample_world).1 with
    | Ok _ => Raise (ValueError "Seed must be between 0 and 2**32 - 1")
    | Raise e => Raise e
    end
  /\ files (@generate_synthetic_observations lcg sample_nature 2 1 (-1) 2
              "obs_data" sample_world).2 = files sample_world.
Proof.
  apply (@generate_synthetic_observations_bad_start_year lcg sample_nature
           2 1 (-1) 2 "obs_data" sample_world (0, 180, -45, 45)).
  - vm_compute. reflexivity.
  - lia.
  - lia.
Defined.

(** The same run, evaluated: the directory is made, the first draw raises,
    and no file is written; with an empty name for the output directory it
    is [os.makedirs] that raises. *)
Example generate_synthetic_observations_bad_start_year_run :
  (@generate_synthetic_observations lcg sample_nature 2 1 (-1) 2 "obs_data"
     sample_world).1
  = Raise (ValueError "Seed must be between 0 and 2**32 - 1")
  /\ dirs (@generate_synthetic_observations lcg sample_nature 2 1 (-1) 2
             "obs_data" sample_world).2 = dirs sample_run_world
  /\ @generate_synthetic_observations lcg sample_nature 2 1 3 1 "" sample_world
     = (Raise (FileNotFoundError ""), sample_world).
Proof. repeat split; vm_compute; reflexivity. Qed.

(** ** The summary file *)

Lemma lines_from_nl (cur s : string) :
  lines_from cur (nl ++ s) = cur :: lines_from "" s.
Proof. reflexivity. Qed.

Lemma lines_from_last (cur : string) : lines_from cur nl = [cur].
Proof. reflexivity. Qed.

Lemma lines_from_app (a cur s : string) :
  no_newline a -> lines_from cur (a ++ s) = lines_from (cur ++ a) s.
Proof.
  revert cur. induction a as [|c a IH]; intros cur Ha.
  - now rewrite str_app_nil_l, str_app_nil_r.
  - destruct Ha as [Hc Ha]. rewrite str_app_cons. simpl.
    destruct (Ascii.eqb c newline) eqn:E.
    + apply Ascii.eqb_eq in E. contradiction.
    + rewrite IH by exact Ha. now rewrite str_app_assoc.
Qed.

Ltac no_newline_field :=
  first [ apply no_newline_str_of_Z | apply no_newline_fmt_f
        | apply no_newline_strftime
        | apply no_newline_replicate; discriminate
        | no_newline_literal ].

Lemma lines_summary_text (now : datetime) (n_years n_obs_tas n_obs_pr : Z)
    (lon_min lon_max lat_min lat_max : Q) :
  lines (summary_text now n_years n_obs_tas n_obs_pr
           lon_min lon_max lat_min lat_max)
  = [ "CLIMBER-X OSSE Synthetic Observation Summary";
      replicate_char 50 "=";
      "";
      ("Experiment period: " ++ str_of_Z n_years ++ " years")%string;
      "Observations per year:";
      ("  - tas (temperature): " ++ str_of_Z n_obs_tas)%string;
      ("  - pr (precipitation): " ++ str_of_Z n_obs_pr)%string;
      ("  - Total: " ++ str_of_Z (n_obs_tas + n_obs_pr))%string;
      "";
      "Model grid bounds:";
      ("  - Longitude: [" ++ fmt_f 0 1 lon_min ++ ", " ++ fmt_f 0 1 lon_max
       ++ "] degrees")%string;
      ("  - Latitude: [" ++ fmt_f 0 1 lat_min ++ ", " ++ fmt_f 0 1 lat_max
       ++ "] degrees")%string;
      "";
      "Observation errors:";
      "  - tas: 1.0 K (Gaussian)";
      "  - pr: 10% relative error (Gaussian)";
      "";
      "File formats:";
      "  - CSV: observations_year_YYYY.csv (detailed format)";
      "  - PDAF: pdaf_obs_year_YYYY.txt (PDAF-compatible)";
      "";
      ("Generated: " ++ strftime now)%string ].
Proof.
  unfold lines, summary_text.
  repeat first [ rewrite lines_from_nl
               | rewrite lines_from_last
               | rewrite lines_from_app by no_newline_field ].
  rewrite !str_app_assoc. reflexivity.
Qed.

Section SummaryFile.

Context `{NR : NumpyRandom}.

(** X27: [create_summary_file] returns exactly when [open(filename, 'w')]
    does.  When it returns it has left, at the place that the name denotes,
    a text of 22 lines in a fixed layout: the counts as given, their sum as
    total, the grid bounds with one decimal, and the time of generation; no
    other file is touched.  When it raises, it raises the error of [open] and
    the world is as it was. *)
Theorem create_summary_file_layout (filename : string)
    (n_years n_obs_tas n_obs_pr : Z) (lon_min lon_max lat_min lat_max : Q)
    (w : World) :
  (forall p, (open_w filename w).1 = Ok p ->
     exists text,
       create_summary_file filename n_years n_obs_tas n_obs_pr
         lon_min lon_max lat_min lat_max w
       = (Ok tt, set_files (<[p := Text text]> (files w)) w)
       /\ read_file (set_files (<[p := Text text]> (files w)) w) filename
          = Some (Text text)
       /\ lines text
          = [ "CLIMBER-X OSSE Synthetic Observation Summary";
              replicate_char 50 "=";
              "";
              ("Experiment period: " ++ str_of_Z n_years ++ " years")%string;
              "Observations per year:";
              ("  - tas (temperature): " ++ str_of_Z n_obs_tas)%string;
              ("  - pr (precipitation): " ++ str_of_Z n_obs_pr)%string;
              ("  - Total: " ++ str_of_Z (n_obs_tas + n_obs_pr))%string;
              "";
              "Model grid bounds:";
              ("  - Longitude: [" ++ fmt_f 0 1 lon_min ++ ", " ++ fmt_f 0 1 lon_max
               ++ "] degrees")%string;
              ("  - Latitude: [" ++ fmt_f 0 1 lat_min ++ ", " ++ fmt_f 0 1 lat_max
               ++ "] degrees")%string;
              "";
              "Observation errors:";
              "  - tas: 1.0 K (Gaussian)";
              "  - pr: 10% relative error (Gaussian)";
              "";
              "File formats:";
              "  - CSV: observations_year_YYYY.csv (detailed format)";
              "  - PDAF: pdaf_obs_year_YYYY.txt (PDAF-compatible)";
              "";
              ("Generated: " ++ strftime (clock w))%string ])
  /\ (forall e, (open_w filename w).1 = Raise e ->
        create_summary_file filename n_years n_obs_tas n_obs_pr
          lon_min lon_max lat_min lat_max w = (Raise e, w)).
Proof.
  split.
  - intros p Hp.
    assert (Hf : file_place w filename = Some p)
      by (unfold file_place; now rewrite Hp).
    eexists. split; [now apply create_summary_file_written|].
    split; [now apply read_file_written|apply lines_summary_text].
  - intros e He.
    destruct (create_summary_file_cases filename n_years n_obs_tas n_obs_pr
                lon_min lon_max lat_min lat_max w)
      as [(p & Hp & _)|(e' & _ & Ho & Hs)].
    + unfold file_place in Hp. rewrite He in Hp. discriminate.
    + rewrite Ho in He. simpl in He. injection He as <-. exact Hs.
Qed.

End SummaryFile.

(** The summary of the sample run, read back line by line; under a
    directory that does not exist the file cannot be opened. *)
Example create_summary_file_sample :
  (match read_file
           (@create_summary_file lcg "obs_data/observation_summary.txt" 1 2 1
              0 180 (-45) 45 sample_run_world).2
           "obs_data/observation_summary.txt" with
   | Some (Text text) => lines text
   | _ => []
   end)
  = [ "CLIMBER-X OSSE Synthetic Observation Summary";
      "==================================================";
      "";
      "Experiment period: 1 years";
      "Observations per year:";
      "  - tas (temperature): 2";
      "  - pr (precipitation): 1";
      "  - Total: 3";
      "";
      "Model grid bounds:";
      "  - Longitude: [0.0, 180.0] degrees";
      "  - Latitude: [-45.0, 45.0] degrees";
      "";
      "Observation errors:";
      "  - tas: 1.0 K (Gaussian)";
      "  - pr: 10% relative error (Gaussian)";
      "";
      "File formats:";
      "  - CSV: observations_year_YYYY.csv (detailed format)";
      "  - PDAF: pdaf_obs_year_YYYY.txt (PDAF-compatible)";
      "";
      "Generated: 2026-11-04 01:02:03" ]
  /\ @create_summary_file lcg "obs_data/observation_summary.txt" 1 2 1
       0 180 (-45) 45 sample_world
     = (Raise (FileNotFoundError "obs_data/observation_summary.txt"), sample_world)
  /\ @save_pdaf_format lcg sample_rows "obs_data/pdaf_obs_year_0003.txt"
       sample_world
     = (Raise (FileNotFoundError "obs_data/pdaf_obs_year_0003.txt"), sample_world).
Proof. repeat split; vm_compute; reflexivity. Qed.

(** ** A source without precipitation *)

Section MissingPrecipitation.

Context `{NR : NumpyRandom}.

(** X16: When the source has both axes and a temperature field but no synonym
    of the precipitation field, [main] raises the [ValueError] that names
    precipitation, and the world is left as it was: no directory, no file. *)
Theorem main_missing_pr_aborts (ds : gmap string ndarray) (args : Args)
    (w : World) :
  (is_Some (ds !! "lon") \/ is_Some (ds !! "longitude")) ->
  (is_Some (ds !! "lat") \/ is_Some (ds !! "latitude")) ->
  (exists name, name ∈ tas_names /\ is_Some (ds !! name)) ->
  (forall name, name ∈ pr_names -> ds !! name = None) ->
  main ds args w
  = (Raise (ValueError "Could not find pr/precipitation data in nature run file"),
     w).
Proof.
  intros Hlon Hlat Htas Hpr. apply main_load_error.
  apply get_or_is_Ok in Hlon as [lon Hlon].
  apply get_or_is_Ok in Hlat as [lat Hlat].
  apply find_var_is_Some in Htas as [tas Htas].
  apply (load_nature_run_data_no_pr ds lon lat tas).
  - unfold get_or, dict_get in Hlon. unfold get_or_coord.
    destruct (ds !! "lon"); [congruence|].
    destruct (ds !! "longitude"); [congruence|discriminate].
  - unfold get_or, dict_get in Hlat. unfold get_or_coord.
    destruct (ds !! "lat"); [congruence|].
    destruct (ds !! "latitude"); [congruence|discriminate].
  - exact Htas.
  - now apply find_var_None.
Qed.

End MissingPrecipitation.

Lemma main_missing_pr_aborts_witness :
  @main lcg no_pr_ds sample_args sample_world
  = (Raise (ValueError "Could not find pr/precipitation data in nature run file"),
     sample_world).
Proof.
  apply (@main_missing_pr_aborts lcg no_pr_ds sample_args sample_world).
  - right. vm_compute. eauto.
  - left. vm_compute. eauto.
  - exists "temp". split; [|vm_compute; eauto].
    apply list_elem_of_further, list_elem_of_here.
  - intros name H.
    repeat (apply elem_of_cons in H as [->|H]; [vm_compute; reflexivity|]).
    now apply elem_of_nil in H.
Defined.
